(** * warens-booking: slot availability and booking consistency

    A shallow embedding of the booking server (the Express handlers, the
    [withTx] helper of db.js and the tables of schema.sql) together with the
    properties of its availability window, its availability view and its
    booking transactions. *)

From Stdlib Require Import ZArith Lia Bool.
From Stdlib Require Import Strings.String Strings.Ascii.
From Stdlib Require Import Numbers.DecimalString Numbers.DecimalZ.
From stdpp Require Import base list strings gmap sorting.

Local Open Scope string_scope.
Local Open Scope Z_scope.

(** ** JavaScript values used by the handlers

    A string stands for the sequence of its UTF-16 code units; the model
    holds the strings whose code units are all below 256, one [ascii]
    for each. *)

Module Js.

(** A JavaScript number as the handlers meet it: [NaN] or an integer.
    ([parseInt] yields nothing else; integers are kept exact, which agrees
    with the double arithmetic on every comparison the server makes.) *)
Inductive Num : Type :=
| NaN
| Int (z : Z).

(** [a < b]; false as soon as one side is [NaN]. *)
Definition lt (a b : Num) : bool :=
  match a, b with
  | Int x, Int y => x <? y
  | _, _ => false
  end.

(** [a >= b] and [a <= b]. *)
Definition ge (a b : Num) : bool :=
  match a, b with
  | Int x, Int y => y <=? x
  | _, _ => false
  end.

Definition le (a b : Num) : bool :=
  match a, b with
  | Int x, Int y => x <=? y
  | _, _ => false
  end.

(** [Math.min(a, b)]: [NaN] if either argument is. *)
Definition Math_min (a b : Num) : Num :=
  match a, b with
  | Int x, Int y => Int (Z.min x y)
  | _, _ => NaN
  end.

(** [a + b]. *)
Definition add (a b : Num) : Num :=
  match a, b with
  | Int x, Int y => Int (x + y)
  | _, _ => NaN
  end.

(** Truthiness of a value that is a string when present:
    [undefined], [null] and [''] are falsy. *)
Definition truthy (v : option string) : bool :=
  match v with
  | Some s => negb (String.eqb s "")
  | None => false
  end.

(** [v || dflt] for string operands. *)
Definition or_else (v : option string) (dflt : string) : string :=
  match v with
  | Some s => if String.eqb s "" then dflt else s
  | None => dflt
  end.

Definition digit_of (c : ascii) : option Z :=
  let n := Z.of_N (N_of_ascii c) in
  if (48 <=? n) && (n <=? 57) then Some (n - 48) else None.

(** White space skipped by [parseInt]: the StrWhiteSpaceChar below
    U+0100, which are TAB, LF, VT, FF, CR, SP and NBSP. *)
Definition is_space (c : ascii) : bool :=
  let n := N_of_ascii c in
  (N.eqb n 32 || N.eqb n 9 || N.eqb n 10 || N.eqb n 11 || N.eqb n 12 || N.eqb n 13
   || N.eqb n 160)%bool.

Fixpoint skip_spaces (s : string) : string :=
  match s with
  | String c r => if is_space c then skip_spaces r else s
  | EmptyString => s
  end.

(** The longest prefix of decimal digits, read most significant first:
    [acc] is [None] until a digit has been seen. *)
Fixpoint digits_prefix (s : string) (acc : option Z) : option Z :=
  match s with
  | String c r =>
      match digit_of c with
      | Some d => digits_prefix r (Some (10 * default 0 acc + d))
      | None => acc
      end
  | EmptyString => acc
  end.

(** [parseInt(s, 10)]: leading white space, an optional sign, then the
    longest run of digits; [NaN] when there is no digit. *)
Definition parseInt (s : string) : Num :=
  let t := skip_spaces s in
  let '(neg, body) :=
    match t with
    | String "-" r => (true, r)
    | String "+" r => (false, r)
    | _ => (false, t)
    end in
  match digits_prefix body None with
  | Some n => Int (if neg : bool then - n else n)
  | None => NaN
  end.

(** [String(n)] for an integer: decimal digits, [-] in front when negative. *)
Definition show_Z (z : Z) : string := NilZero.string_of_int (Z.to_int z).

Definition to_string (n : Num) : string :=
  match n with
  | NaN => "NaN"
  | Int z => show_Z z
  end.

(** [s.padStart(2, '0')]. *)
Definition padStart2 (s : string) : string :=
  match s with
  | EmptyString => "00"
  | String c EmptyString => String "0" s
  | _ => s
  end.

(** *** Dates

    A [Date] holds a time value: milliseconds since 1970-01-01T00:00:00Z,
    or nothing for an Invalid Date. *)
Definition Date : Type := option Z.

Definition msPerDay : Z := 86400000.
Definition maxTime : Z := 8640000000000000.

Definition Day (t : Z) : Z := t / msPerDay.
Definition TimeWithinDay (t : Z) : Z := t mod msPerDay.

(** Day number of a proleptic Gregorian date (month 1 to 12), counted
    from 1970-01-01, in 400-year eras starting on a 1 March. *)
Definition days_from_civil (y m d : Z) : Z :=
  let y' := if m <=? 2 then y - 1 else y in
  let era := y' / 400 in
  let yoe := y' - era * 400 in
  let mp := if 2 <? m then m - 3 else m + 9 in
  let doy := (153 * mp + 2) / 5 + d - 1 in
  let doe := yoe * 365 + yoe / 4 - yoe / 100 + doy in
  era * 146097 + doe - 719468.

(** The inverse: year, month (1 to 12) and day of month of a day number. *)
Definition civil_from_days (z : Z) : Z * Z * Z :=
  let z' := z + 719468 in
  let era := z' / 146097 in
  let doe := z' - era * 146097 in
  let yoe := (doe - doe / 1460 + doe / 36524 - doe / 146096) / 365 in
  let doy := doe - (365 * yoe + yoe / 4 - yoe / 100) in
  let mp := (5 * doy + 2) / 153 in
  let d := doy - (153 * mp + 2) / 5 + 1 in
  let m := if mp <? 10 then mp + 3 else mp - 9 in
  let y := yoe + era * 400 in
  (if m <=? 2 then y + 1 else y, m, d).

Definition YearFromTime (t : Z) : Z := (civil_from_days (Day t)).1.1.
(** Months count from 0, as in ECMAScript. *)
Definition MonthFromTime (t : Z) : Z := (civil_from_days (Day t)).1.2 - 1.
Definition DateFromTime (t : Z) : Z := (civil_from_days (Day t)).2.
Definition WeekDay (t : Z) : Z := (Day t + 4) mod 7.

(** [MakeDay(year, month, date)]: the day number of the first of the
    month, plus [date - 1]; months and days out of range carry over. *)
Definition MakeDay (year month date : Z) : Z :=
  days_from_civil (year + month / 12) (month mod 12 + 1) 1 + date - 1.

Definition MakeDate (day time : Z) : Z := day * msPerDay + time.

Definition TimeClip (t : Z) : Date :=
  if Z.abs t <=? maxTime then Some t else None.

Definition getUTCFullYear (d : Date) : Num :=
  match d with Some t => Int (YearFromTime t) | None => NaN end.
Definition getUTCMonth (d : Date) : Num :=
  match d with Some t => Int (MonthFromTime t) | None => NaN end.
Definition getUTCDate (d : Date) : Num :=
  match d with Some t => Int (DateFromTime t) | None => NaN end.
Definition getUTCDay (d : Date) : Num :=
  match d with Some t => Int (WeekDay t) | None => NaN end.

(** [d.setUTCDate(dt)], returning the date after the update. *)
Definition setUTCDate (d : Date) (dt : Num) : Date :=
  match d, dt with
  | Some t, Int n =>
      TimeClip (MakeDate (MakeDay (YearFromTime t) (MonthFromTime t) n) (TimeWithinDay t))
  | _, _ => None
  end.

(** [Date.UTC(y, m, d)] on numbers; a year from 0 to 99 means 1900 + y. *)
Definition Date_UTC (y m d : Num) : Date :=
  match y, m, d with
  | Int y, Int m, Int d =>
      let yr := if (0 <=? y) && (y <=? 99) then 1900 + y else y in
      TimeClip (MakeDate (MakeDay yr m d) 0)
  | _, _, _ => None
  end.

Definition two_digits (a b : ascii) : option Z :=
  match digit_of a, digit_of b with
  | Some x, Some y => Some (10 * x + y)
  | _, _ => None
  end.

Definition four_digits (a b c d : ascii) : option Z :=
  match two_digits a b, two_digits c d with
  | Some x, Some y => Some (100 * x + y)
  | _, _ => None
  end.

Definition six_digits (a b c d e f : ascii) : option Z :=
  match two_digits a b, four_digits c d e f with
  | Some x, Some y => Some (10000 * x + y)
  | _, _ => None
  end.

(** The year of a date-time string and what follows it: four digits, or a
    sign and six digits other than [-000000]. *)
Definition parse_year (s : string) : option (Z * string) :=
  match s with
  | String "+" (String a (String b (String c (String d (String e (String f r)))))) =>
      match six_digits a b c d e f with
      | Some y => Some (y, r)
      | None => None
      end
  | String "-" (String a (String b (String c (String d (String e (String f r)))))) =>
      match six_digits a b c d e f with
      | Some y => if y =? 0 then None else Some (- y, r)
      | None => None
      end
  | String y1 (String y2 (String y3 (String y4 r))) =>
      match four_digits y1 y2 y3 y4 with
      | Some y => Some (y, r)
      | None => None
      end
  | _ => None
  end.

(** The calendar part of a date-time string in the ECMAScript format, as
    Node reads it: a year, then optionally [-MM], then optionally [-DD].
    The month must be 1 to 12 and the day 1 to 31; a day past the end of
    its month is accepted and carries over. *)
Definition parse_ymd (s : string) : option (Z * Z * Z) :=
  match parse_year s with
  | Some (y, r) =>
      match r with
      | EmptyString => Some (y, 1, 1)
      | String "-" (String m1 (String m2 r')) =>
          match two_digits m1 m2 with
          | Some m =>
              if (1 <=? m) && (m <=? 12) then
                match r' with
                | EmptyString => Some (y, m, 1)
                | String "-" (String d1 (String d2 EmptyString)) =>
                    match two_digits d1 d2 with
                    | Some d =>
                        if (1 <=? d) && (d <=? 31) then Some (y, m, d) else None
                    | None => None
                    end
                | _ => None
                end
              else None
          | None => None
          end
      | _ => None
      end
  | None => None
  end.

(** A string that is not in the ECMAScript format goes to the legacy
    parser of the engine, whose formats are the engine's own:
    [legacy_date s] is what that parser makes of the whole string [s]. *)
Class Engine : Type := { legacy_date : string → Date }.

(** [new Date(`${s}T00:00:00Z`)]. *)
Definition Date_at_midnight {engine : Engine} (s : string) : Date :=
  match parse_ymd s with
  | Some (y, m, d) => TimeClip (MakeDate (MakeDay y (m - 1) d) 0)
  | None => legacy_date (s ++ "T00:00:00Z")
  end.

End Js.

(** ** The persistence layer: schema.sql and db.js *)

Module Pg.

(** What the handlers' statements meet in the database they run against.
    schema.sql creates the tables only when they do not exist yet, so the
    column set and the CHECK list of a live table are properties of the
    deployment; [schema_sql] below is the table exactly as the file
    declares it.  [date_in] is the server's conversion of a text parameter
    to DATE ([None] when it raises). *)
Record Storage : Type := {
  bookings_email : bool;
  slot_check : list string;
  date_in : string → option Z
}.

(** A row of [bookings].  [date] is the DATE value as a day number. *)
Record Booking : Type := {
  id : Z;
  full_name : string;
  phone : string;
  instagram : string;
  email : option string;
  date : Z;
  slot : string;
  created_at : Z
}.

(** A row of [slot_overrides]. *)
Record Override : Type := {
  o_id : Z;
  o_date : Z;
  o_slot : string;
  is_open : bool;
  o_created_at : Z
}.

(** The two tables and the sequences behind their SERIAL columns (the
    value the next [nextval] returns). *)
Record Db : Type := {
  bookings : list Booking;
  slot_overrides : list Override;
  bookings_id_seq : Z;
  slot_overrides_id_seq : Z
}.

Definition empty : Db :=
  {| bookings := []; slot_overrides := [];
     bookings_id_seq := 1; slot_overrides_id_seq := 1 |}.

Inductive PgError : Type :=
| undefined_column
| invalid_datetime_format
| numeric_value_out_of_range
| check_violation
| unique_violation.

(** What a transaction body can throw: a JavaScript [Error] with its
    message, or the driver's error for a statement the server refused. *)
Inductive Thrown : Type :=
| Error (message : string)
| DatabaseError (code : PgError).

(** A computation on a client connection: it may change the database and
    either throws or returns. *)
Definition Tx (A : Type) : Type := Db → Db * (Thrown + A).

Definition ret {A} (a : A) : Tx A := λ db, (db, inr a).
Definition throw {A} (e : Thrown) : Tx A := λ db, (db, inl e).
Definition bind {A B} (m : Tx A) (k : A → Tx B) : Tx B :=
  λ db, match m db with
        | (db', inr a) => k a db'
        | (db', inl e) => (db', inl e)
        end.

(** ROLLBACK restores the tables; sequences are not transactional. *)
Definition rollback (snapshot cur : Db) : Db :=
  {| bookings := bookings snapshot;
     slot_overrides := slot_overrides snapshot;
     bookings_id_seq := bookings_id_seq cur;
     slot_overrides_id_seq := slot_overrides_id_seq cur |}.

(** [withTx(fn)] of db.js: BEGIN, the body, COMMIT; on a throw ROLLBACK
    and rethrow. *)
Definition withTx {A} (fn : Tx A) : Tx A :=
  λ db, match fn db with
        | (db', inr res) => (db', inr res)
        | (db', inl e) => (rollback db db', inl e)
        end.

(** [pool.query(...)]: one statement in its own transaction. *)
Definition pool_query {A} (stmt : Tx A) : Tx A := withTx stmt.

Definition max_int4 : Z := 2147483647.

(** A text parameter used as a DATE. *)
Definition date_param (st : Storage) (s : string) : Tx Z :=
  match date_in st s with
  | Some d => ret d
  | None => throw (DatabaseError invalid_datetime_format)
  end.

Definition on_slot (d : Z) (s : string) (b : Booking) : bool :=
  bool_decide (date b = d) && bool_decide (slot b = s).

Definition override_on_slot (d : Z) (s : string) (o : Override) : bool :=
  bool_decide (o_date o = d) && bool_decide (o_slot o = s).

(** [SELECT ... FROM bookings WHERE date=$1 AND slot=$2 FOR UPDATE]. *)
Definition select_booking_for_update (st : Storage) (date_s slot_s : string)
  : Tx (list Booking) :=
  bind (date_param st date_s) (λ d db,
    (db, inr (filter (λ b, on_slot d slot_s b) (bookings db)))).

(** [SELECT is_open FROM slot_overrides WHERE date=$1 AND slot=$2]. *)
Definition select_override (st : Storage) (date_s slot_s : string)
  : Tx (list Override) :=
  bind (date_param st date_s) (λ d db,
    (db, inr (filter (λ o, override_on_slot d slot_s o) (slot_overrides db)))).

(** [INSERT INTO bookings (...) VALUES (...) RETURNING ...], in a
    transaction whose [NOW()] is [now]: the default of [created_at].
    [with_email] tells whether the statement names the [email] column.
    The statement is refused when it names a column the table lacks or
    when the date does not convert; then the id is drawn from the
    sequence and the row is checked against CHECK (slot IN ...) and
    UNIQUE (date, slot). *)
Definition insert_booking (st : Storage) (now : Z) (with_email : bool)
    (name ph ig : string) (mail : option string) (date_s slot_s : string)
  : Tx Booking :=
  if with_email && negb (bookings_email st)
  then throw (DatabaseError undefined_column)
  else
    bind (date_param st date_s) (λ d db,
      let new_id := bookings_id_seq db in
      if max_int4 <? new_id
      then (db, inl (DatabaseError numeric_value_out_of_range))
      else
        let db1 := {| bookings := bookings db;
                      slot_overrides := slot_overrides db;
                      bookings_id_seq := new_id + 1;
                      slot_overrides_id_seq := slot_overrides_id_seq db |} in
        if negb (bool_decide (slot_s ∈ slot_check st))
        then (db1, inl (DatabaseError check_violation))
        else if existsb (on_slot d slot_s) (bookings db)
        then (db1, inl (DatabaseError unique_violation))
        else
          let row := {| id := new_id; full_name := name; phone := ph;
                        instagram := ig; email := mail; date := d;
                        slot := slot_s; created_at := now |} in
          ({| bookings := (bookings db ++ [row])%list;
              slot_overrides := slot_overrides db;
              bookings_id_seq := new_id + 1;
              slot_overrides_id_seq := slot_overrides_id_seq db |},
           inr row)).

Definition set_is_open (v : bool) (o : Override) : Override :=
  {| o_id := o_id o; o_date := o_date o; o_slot := o_slot o;
     is_open := v; o_created_at := o_created_at o |}.

(** [INSERT INTO slot_overrides (date, slot, is_open) VALUES ($1,$2,$3)
     ON CONFLICT (date, slot) DO UPDATE SET is_open = EXCLUDED.is_open], in
    a transaction whose [NOW()] is [now]. *)
Definition upsert_override (st : Storage) (now : Z)
    (date_s slot_s : string) (v : bool) : Tx unit :=
  bind (date_param st date_s) (λ d db,
    let new_id := slot_overrides_id_seq db in
    if max_int4 <? new_id
    then (db, inl (DatabaseError numeric_value_out_of_range))
    else
      let seq' := new_id + 1 in
      if negb (bool_decide (slot_s ∈ slot_check st))
      then ({| bookings := bookings db;
               slot_overrides := slot_overrides db;
               bookings_id_seq := bookings_id_seq db;
               slot_overrides_id_seq := seq' |},
            inl (DatabaseError check_violation))
      else
        let rows :=
          if existsb (override_on_slot d slot_s) (slot_overrides db)
          then map (λ o, if override_on_slot d slot_s o then set_is_open v o else o)
                   (slot_overrides db)
          else (slot_overrides db ++
                [{| o_id := new_id; o_date := d; o_slot := slot_s;
                    is_open := v; o_created_at := now |}])%list in
        ({| bookings := bookings db;
            slot_overrides := rows;
            bookings_id_seq := bookings_id_seq db;
            slot_overrides_id_seq := seq' |},
         inr tt)).

(** [DELETE FROM bookings WHERE date=$1 AND slot=$2 AND phone=$3 AND
    instagram=$4], returning [rowCount]. *)
Definition admin_block_match (d : Z) (slot_s ph ig : string) (b : Booking) : bool :=
  on_slot d slot_s b && bool_decide (phone b = ph) && bool_decide (instagram b = ig).

Definition delete_booking_where (st : Storage) (date_s slot_s ph ig : string)
  : Tx nat :=
  bind (date_param st date_s) (λ d db,
    let gone := filter (λ b, admin_block_match d slot_s ph ig b) (bookings db) in
    ({| bookings := filter (λ b, negb (admin_block_match d slot_s ph ig b)) (bookings db);
        slot_overrides := slot_overrides db;
        bookings_id_seq := bookings_id_seq db;
        slot_overrides_id_seq := slot_overrides_id_seq db |},
     inr (length gone))).

(** [DELETE FROM bookings WHERE id=$1], returning [rowCount]; the
    parameter must fit the INTEGER column. *)
Definition delete_booking_by_id (n : Z) : Tx nat :=
  λ db,
    if (max_int4 <? n) || (n <? - max_int4 - 1)
    then (db, inl (DatabaseError numeric_value_out_of_range))
    else
      let gone := filter (λ b, bool_decide (id b = n)) (bookings db) in
      ({| bookings := filter (λ b, negb (bool_decide (id b = n))) (bookings db);
          slot_overrides := slot_overrides db;
          bookings_id_seq := bookings_id_seq db;
          slot_overrides_id_seq := slot_overrides_id_seq db |},
       inr (length gone)).

(** [SELECT date::text, slot FROM bookings WHERE date >= $1 AND date <= $2]
    and its counterpart on [slot_overrides]; [render] is the text form of
    a DATE. *)
Definition select_bookings_between (st : Storage) (render : Z → string)
    (from_s to_s : string) : Tx (list (string * string)) :=
  bind (date_param st from_s) (λ lo,
  bind (date_param st to_s) (λ hi db,
    (db, inr (map (λ b, (render (date b), slot b))
                  (filter (λ b, (lo <=? date b) && (date b <=? hi)) (bookings db)))))).

Definition select_overrides_between (st : Storage) (render : Z → string)
    (from_s to_s : string) : Tx (list (string * string * bool)) :=
  bind (date_param st from_s) (λ lo,
  bind (date_param st to_s) (λ hi db,
    (db, inr (map (λ o, (render (o_date o), o_slot o, is_open o))
                  (filter (λ o, (lo <=? o_date o) && (o_date o <=? hi))
                          (slot_overrides db)))))).

(** The year of a date as the database writes it: in four digits at
    least. *)
Definition pad4 (s : string) : string :=
  match s with
  | EmptyString => "0000"
  | String _ EmptyString => "000" ++ s
  | String _ (String _ EmptyString) => "00" ++ s
  | String _ (String _ (String _ EmptyString)) => "0" ++ s
  | _ => s
  end.

(** [date::text] in the ISO DateStyle: the year in at least four digits,
    month and day in two, and [ BC] after a year before 1. *)
Definition date_out (d : Z) : string :=
  let '(y, m, dd) := Js.civil_from_days d in
  let text (yr : Z) :=
    pad4 (Js.show_Z yr) ++ "-" ++ Js.padStart2 (Js.show_Z m)
    ++ "-" ++ Js.padStart2 (Js.show_Z dd) in
  if 0 <? y then text y else text (1 - y) ++ " BC".

(** The digits at the head of [s]: their value, their number, the rest. *)
Fixpoint digits_run (s : string) (acc : Z) (n : nat) : Z * nat * string :=
  match s with
  | String c r =>
      match Js.digit_of c with
      | Some d => digits_run r (10 * acc + d) (S n)
      | None => (acc, n, s)
      end
  | EmptyString => (acc, n, s)
  end.

(** Three numbers separated by [-], each with its number of digits. *)
Definition dashed_numbers (s : string) : option ((Z * nat) * (Z * nat) * (Z * nat)) :=
  let '(a, na, r1) := digits_run s 0 0 in
  match r1 with
  | String "-" r1' =>
      let '(b, nb, r2) := digits_run r1' 0 0 in
      match r2 with
      | String "-" r2' =>
          let '(c, nc, r3) := digits_run r2' 0 0 in
          match r3 with
          | EmptyString => Some ((a, na), (b, nb), (c, nc))
          | _ => None
          end
      | _ => None
      end
  | _ => None
  end.

(** PostgreSQL's conversion of a text to DATE (DateStyle ISO, MDY), on
    three numbers separated by [-]: a first number of three digits or more
    is the year, followed by month and day; a shorter one is the month,
    followed by day and year, a year of one or two digits meaning 2000 to
    2069 or 1970 to 1999; month and day have one or two digits.  The date
    must exist, from the year 1 to the year 5874897.  The other forms PostgreSQL reads (month names, other
    separators, [BC], [today], [infinity]) are not among the texts the
    samples below are used at, and are refused here. *)
Definition numeric_date_in (s : string) : option Z :=
  match dashed_numbers s with
  | Some ((a, na), (b, nb), (c, nc)) =>
      if bool_decide (1 ≤ na ∧ 1 ≤ nb ≤ 2 ∧ 1 ≤ nc)%nat then
        let '(y, m, d) :=
          if (3 <=? na)%nat then (a, b, c)
          else (if (nc <=? 2)%nat then (if c <? 70 then 2000 + c else 1900 + c) else c,
                a, b) in
        let n := Js.days_from_civil y m d in
        if bool_decide ((3 ≤ na → nc ≤ 2)%nat)
           && (1 <=? y) && (y <=? 5874897) && (1 <=? m) && (m <=? 12)
           && bool_decide (Js.civil_from_days n = (y, m, d))
        then Some n else None
      else None
  | None => None
  end.

(** The tables as schema.sql declares them: [bookings] has no [email]
    column, and both tables carry CHECK (slot IN ('A','B')). *)
Definition schema_sql : Storage :=
  {| bookings_email := false; slot_check := ["A"; "B"]; date_in := numeric_date_in |}.

(** schema.sql with the [email] column that the second version of the
    server inserts into. *)
Definition schema_sql_email : Storage :=
  {| bookings_email := true; slot_check := ["A"; "B"]; date_in := numeric_date_in |}.

End Pg.

(** ** The server *)

Module Server.
Import Js Pg.

Section Handlers.
Context {engine : Engine}.

(** *** Slots *)

Definition SLOT_ORDER : list string := ["C"; "A"; "B"].

(** Slot key, start and end. *)
Definition SLOT_MAP : list (string * (string * string)) :=
  [("C", ("10:00", "12:00"));
   ("A", ("13:00", "15:00"));
   ("B", ("15:00", "17:00"))].

(** [Object.keys(SLOT_MAP)]. *)
Definition SLOT_KEYS : list string := map fst SLOT_MAP.

Definition ADMIN_NAME : string := "Administrador".
Definition ADMIN_PHONE : string := "0".
Definition ADMIN_IG : string := "admin".

(** [keys.includes(v)] for a value that is a string when present. *)
Definition includes (keys : list string) (v : option string) : bool :=
  match v with
  | Some s => bool_decide (s ∈ keys)
  | None => false
  end.

(** [map[s]] on a slot table. *)
Fixpoint slot_entry (m : list (string * (string * string))) (s : string)
  : option (string * string) :=
  match m with
  | (k, v) :: r => if String.eqb k s then Some v else slot_entry r s
  | [] => None
  end.

(** [`${map[s].start} - ${map[s].end}`]; the handlers only ask for keys
    of the table. *)
Definition slot_label (m : list (string * (string * string))) (s : string) : string :=
  match slot_entry m s with
  | Some (a, b) => a ++ " - " ++ b
  | None => ""
  end.

(** *** Dates *)

(** [todayCST()], at the clock reading [now]. *)
Definition todayCST (now : Z) : Date :=
  let n : Date := Some now in
  Date_UTC (getUTCFullYear n) (getUTCMonth n) (getUTCDate n).

Definition toISODate (d : Date) : string :=
  let y := getUTCFullYear d in
  let m := padStart2 (to_string (add (getUTCMonth d) (Int 1))) in
  let day := padStart2 (to_string (getUTCDate d)) in
  to_string y ++ "-" ++ m ++ "-" ++ day.

Definition isWeekday (d : Date) : bool :=
  let wd := getUTCDay d in
  ge wd (Int 1) && le wd (Int 5).

(** The number of passes of [for (let i = 0; i < days; i++)]. *)
Definition trips (days : Num) : nat :=
  match days with
  | Int n => Z.to_nat n
  | NaN => 0%nat
  end.

(** One pass of the loop body of [rollingWindow] at counter [i]. *)
Definition rollingWindow_body (start : Date) (i : Z) (arr : list string) : list string :=
  let d := start in
  let d := setUTCDate d (add (getUTCDate d) (Int i)) in
  if isWeekday d then (arr ++ [toISODate d])%list else arr.

Fixpoint rollingWindow_loop (start : Date) (i : Z) (n : nat) (arr : list string)
  : list string :=
  match n with
  | O => arr
  | S n' => rollingWindow_loop start (i + 1) n' (rollingWindow_body start i arr)
  end.

(** [rollingWindow(startStr, days)]; every caller passes [days]. *)
Definition rollingWindow (startStr : string) (days : Num) : list string :=
  let start := Date_at_midnight startStr in
  rollingWindow_loop start 0 (trips days) [].

(** *** Requests and responses *)

Record AvailabilityQuery : Type := {
  q_start : option string;
  q_days : option string
}.

Record BookBody : Type := {
  r_full_name : option string;
  r_phone : option string;
  r_instagram : option string;
  r_email : option string;
  r_date : option string;
  r_slot : option string
}.

(** [s_is_open] is [None] when the field is not a boolean. *)
Record SlotBody : Type := {
  s_date : option string;
  s_slot : option string;
  s_is_open : option bool
}.

Record SlotView : Type := {
  open : bool;
  booked : bool;
  label : string
}.

(** One element of the availability array: the date and, in insertion
    order, the properties set on the object. *)
Record DayView : Type := {
  day : string;
  slots : list (string * SlotView)
}.

(** [o[s] = v] on the properties of an object. *)
Fixpoint set_prop (props : list (string * SlotView)) (s : string) (v : SlotView)
  : list (string * SlotView) :=
  match props with
  | (k, w) :: r => if String.eqb k s then (k, v) :: r else (k, w) :: set_prop r s v
  | [] => [(s, v)]
  end.

Fixpoint get_prop (props : list (string * SlotView)) (s : string) : option SlotView :=
  match props with
  | (k, w) :: r => if String.eqb k s then Some w else get_prop r s
  | [] => None
  end.

(** What a handler sends.  [error_json status e] is
    [res.status(status).json({ error: <message of e> })]; [unanswered e]
    is a handler whose promise rejected with [e] before any response. *)
Inductive Response : Type :=
| availability_json (out : list DayView)
| booked_json (booking_id created : Z)
| opened_json (removed_admin_block : bool)
| closed_json (created_admin_block : bool) (block_id : option Z)
| ok_json
| error_json (status : Z) (e : Thrown)
| unanswered (e : Thrown).

(** *** GET /availability *)

Definition slot_key (date_s slot_s : string) : string := date_s ++ "|" ++ slot_s.

(** [new Set(bookings.map(b => `${b.date}|${b.slot}`))]. *)
Definition make_bookedSet (rows : list (string * string)) : gset string :=
  list_to_set (map (λ b, slot_key b.1 b.2) rows).

(** [new Map(overrides.map(o => [`${o.date}|${o.slot}`, o.is_open]))]:
    a later pair replaces an earlier one with the same key. *)
Definition make_overrideMp (rows : list (string * string * bool)) : gmap string bool :=
  foldl (λ m o, <[slot_key o.1.1 o.1.2 := o.2]> m) ∅ rows.

(** The body of [for (const s of order)]. *)
Definition slot_view (labels : list (string * (string * string)))
    (bookedSet : gset string) (overrideMp : gmap string bool)
    (date_s s : string) : SlotView :=
  let key := slot_key date_s s in
  let booked := bool_decide (key ∈ bookedSet) in
  let open := negb booked in
  let open :=
    match overrideMp !! key with
    | Some forced => forced && negb booked
    | None => open
    end in
  {| open := open; booked := booked; label := slot_label labels s |}.

(** The callback of [dates.map(...)]. *)
Definition day_view (labels : list (string * (string * string))) (order : list string)
    (bookedSet : gset string) (overrideMp : gmap string bool)
    (date_s : string) : DayView :=
  {| day := date_s;
     slots := foldl (λ o s, set_prop o s (slot_view labels bookedSet overrideMp date_s s))
                    [] order |}.

(** The text [toISODate] writes for the day [d]. *)
Definition date_text (d : Z) : string := toISODate (Some (d * msPerDay)).

(** The handler after its window is known; shared with the first version
    of the server, which differs in [labels] and [order] only. *)
Definition availability_of (st : Storage)
    (labels : list (string * (string * string))) (order : list string)
    (dates : list string) (db : Db) : Response :=
  match dates with
  | [] => availability_json []
  | first :: _ =>
      let last := List.last dates first in
      match pool_query (select_bookings_between st date_out first last) db with
      | (_, inl e) => unanswered e
      | (_, inr bookings) =>
          match pool_query (select_overrides_between st date_out first last) db with
          | (_, inl e) => unanswered e
          | (_, inr overrides) =>
              let bookedSet := make_bookedSet bookings in
              let overrideMp := make_overrideMp overrides in
              availability_json (map (day_view labels order bookedSet overrideMp) dates)
          end
      end
  end.

Definition window_days (q : AvailabilityQuery) : Num :=
  Math_min (parseInt (or_else (q_days q) "14")) (Int 31).

Definition get_availability (st : Storage) (now : Z) (q : AvailabilityQuery) (db : Db)
  : Response :=
  let start := or_else (q_start q) (toISODate (todayCST now)) in
  let days := window_days q in
  let dates := rollingWindow start days in
  availability_of st SLOT_MAP
    (filter (λ k, bool_decide (k ∈ SLOT_KEYS)) SLOT_ORDER) dates db.

(** *** POST /book *)

Definition str (v : option string) : string := default "" v.

(** The transaction body of POST /book; [db_now] is the [NOW()] of the
    transaction. *)
Definition book_tx (st : Storage) (db_now : Z)
    (name ph ig : string) (mail : option string) (date_s slot_s : string)
  : Tx Booking :=
  Pg.bind (select_booking_for_update st date_s slot_s) (λ q,
    if (0 <? length q)%nat then throw (Error "Ese turno ya fue reservado")
    else
      Pg.bind (select_override st date_s slot_s) (λ o,
        if match o with
           | row0 :: _ => negb (is_open row0)
           | [] => false
           end
        then throw (Error "Ese turno está cerrado")
        else
          Pg.bind (insert_booking st db_now true name ph ig mail date_s slot_s) (λ ins,
            ret ins))).

(** POST /book at the reading [now] of the server's clock, its transaction
    at the reading [db_now] of the database's. *)
Definition post_book (st : Storage) (now db_now : Z) (body : BookBody) (db : Db)
  : Db * Response :=
  if negb (truthy (r_full_name body)) || negb (truthy (r_phone body))
     || negb (truthy (r_instagram body)) || negb (truthy (r_date body))
     || negb (includes SLOT_KEYS (r_slot body))
  then (db, error_json 400 (Error "Datos incompletos"))
  else
    let start := toISODate (todayCST now) in
    let valid : gset string := list_to_set (rollingWindow start (Int 14)) in
    if negb (bool_decide (str (r_date body) ∈ valid))
    then (db, error_json 400 (Error "Fecha fuera de ventana o no hábil"))
    else
      match withTx (book_tx st db_now (str (r_full_name body)) (str (r_phone body))
                      (str (r_instagram body))
                      (if truthy (r_email body) then r_email body else None)
                      (str (r_date body)) (str (r_slot body))) db with
      | (db', inr result) => (db', booked_json (id result) (created_at result))
      | (db', inl e) => (db', error_json 409 e)
      end.

(** *** POST /admin/api/slot (after [requireAuth])

    The handler reads no clock of its own: [now] is the [NOW()] of its
    transaction. *)

Definition slot_tx (st : Storage) (now : Z) (date_s slot_s : string) (v : bool)
  : Tx Response :=
  Pg.bind (upsert_override st now date_s slot_s v) (λ _,
    if v then
      Pg.bind (delete_booking_where st date_s slot_s ADMIN_PHONE ADMIN_IG) (λ del,
        ret (opened_json (0 <? del)%nat))
    else
      Pg.bind (select_booking_for_update st date_s slot_s) (λ ex,
        if (length ex =? 0)%nat then
          Pg.bind (insert_booking st now true ADMIN_NAME ADMIN_PHONE ADMIN_IG None
                     date_s slot_s) (λ ins,
            ret (closed_json true (Some (id ins))))
        else ret (closed_json false None))).

Definition post_admin_api_slot (st : Storage) (now : Z) (body : SlotBody) (db : Db)
  : Db * Response :=
  if negb (truthy (s_date body)) || negb (includes SLOT_KEYS (s_slot body))
     || negb (bool_decide (is_Some (s_is_open body)))
  then (db, error_json 400 (Error "Datos inválidos"))
  else
    match withTx (slot_tx st now (str (s_date body)) (str (s_slot body))
                    (default false (s_is_open body))) db with
    | (db', inr result) => (db', result)
    | (db', inl e) => (db', error_json 500 (Error "No se pudo actualizar el cupo"))
    end.

(** *** DELETE /admin/api/booking/:id (after [requireAuth])

    [n] is [Number(req.params.id)]; a value that is not an integer is
    refused like [NaN]. *)
Definition delete_admin_api_booking (n : Num) (db : Db) : Db * Response :=
  match n with
  | Int k =>
      if negb (0 <? k) then (db, error_json 400 (Error "ID inválido"))
      else
        match pool_query (delete_booking_by_id k) db with
        | (db', inr rowCount) =>
            if (rowCount =? 0)%nat
            then (db', error_json 404 (Error "Reserva no encontrada"))
            else (db', ok_json)
        | (db', inl e) => (db', error_json 500 (Error "Fallo al cancelar la reserva"))
        end
  | NaN => (db, error_json 400 (Error "ID inválido"))
  end.

End Handlers.

End Server.

(** ** The first version of the server (server.js) *)

Module ServerJs.
Import Js Pg.

Section Handlers.
Context {engine : Engine}.

Definition SLOT_MAP : list (string * (string * string)) :=
  [("A", ("13:00", "15:00"));
   ("B", ("15:00", "17:00"))].

(** [todayCST], [toISODate], [isWeekday] and [rollingWindow] have the same
    text in both versions. *)
Definition rollingWindow := Server.rollingWindow.

(** GET /availability. *)
Definition get_availability (st : Storage) (now : Z) (q : Server.AvailabilityQuery)
    (db : Db) : Server.Response :=
  let start := or_else (Server.q_start q) (Server.toISODate (Server.todayCST now)) in
  let days := Math_min (parseInt (or_else (Server.q_days q) "14")) (Int 31) in
  let dates := rollingWindow start days in
  Server.availability_of st SLOT_MAP ["A"; "B"] dates db.

(** The transaction body of POST /book: the INSERT names no [email]. *)
Definition book_tx (st : Storage) (db_now : Z) (name ph ig date_s slot_s : string)
  : Tx Booking :=
  Pg.bind (select_booking_for_update st date_s slot_s) (λ q,
    if (0 <? length q)%nat then throw (Error "Ese turno ya fue reservado")
    else
      Pg.bind (select_override st date_s slot_s) (λ o,
        if match o with
           | row0 :: _ => negb (is_open row0)
           | [] => false
           end
        then throw (Error "Ese turno está cerrado")
        else
          Pg.bind (insert_booking st db_now false name ph ig None date_s slot_s) (λ ins,
            ret ins))).

Definition post_book (st : Storage) (now db_now : Z) (body : Server.BookBody) (db : Db)
  : Db * Server.Response :=
  if negb (truthy (Server.r_full_name body)) || negb (truthy (Server.r_phone body))
     || negb (truthy (Server.r_instagram body)) || negb (truthy (Server.r_date body))
     || negb (Server.includes ["A"; "B"] (Server.r_slot body))
  then (db, Server.error_json 400 (Error "Datos incompletos"))
  else
    let start := Server.toISODate (Server.todayCST now) in
    let validDates : gset string := list_to_set (rollingWindow start (Int 14)) in
    if negb (bool_decide (Server.str (Server.r_date body) ∈ validDates))
    then (db, Server.error_json 400 (Error "Fecha fuera de ventana o no hábil"))
    else
      match withTx (book_tx st db_now (Server.str (Server.r_full_name body))
                      (Server.str (Server.r_phone body))
                      (Server.str (Server.r_instagram body))
                      (Server.str (Server.r_date body))
                      (Server.str (Server.r_slot body))) db with
      | (db', inr result) =>
          (db', Server.booked_json (id result) (created_at result))
      | (db', inl e) => (db', Server.error_json 409 e)
      end.

(** POST /admin/api/slot: the upsert alone, outside any try; [now] is the
    [NOW()] of its transaction. *)
Definition post_admin_api_slot (st : Storage) (now : Z) (body : Server.SlotBody)
    (db : Db) : Db * Server.Response :=
  if negb (truthy (Server.s_date body))
     || negb (Server.includes ["A"; "B"] (Server.s_slot body))
     || negb (bool_decide (is_Some (Server.s_is_open body)))
  then (db, Server.error_json 400 (Error "Datos inválidos"))
  else
    match pool_query (upsert_override st now (Server.str (Server.s_date body))
                        (Server.str (Server.s_slot body))
                        (default false (Server.s_is_open body))) db with
    | (db', inr _) => (db', Server.ok_json)
    | (db', inl e) => (db', Server.unanswered e)
    end.

(** DELETE /admin/api/booking/:id, on [id = parseInt(req.params.id, 10)]. *)
Definition delete_admin_api_booking (param : string) (db : Db)
  : Db * Server.Response :=
  match parseInt param with
  | Int k =>
      if k =? 0 then (db, Server.error_json 400 (Error "ID inválido"))
      else
        match pool_query (delete_booking_by_id k) db with
        | (db', inr rowCount) =>
            if (rowCount =? 0)%nat
            then (db', Server.error_json 404 (Error "Reserva no encontrada"))
            else (db', Server.ok_json)
        | (db', inl e) => (db', Server.unanswered e)
        end
  | NaN => (db, Server.error_json 400 (Error "ID inválido"))
  end.

End Handlers.

End ServerJs.

(** ** Notions used to state the properties *)

Module Spec.
Import Js Pg Server.

Section Notions.
Context {engine : Engine}.

(** The characters of a rendered date: digits and the minus sign. *)
Definition date_char (c : ascii) : bool :=
  match digit_of c with
  | Some _ => true
  | None => Ascii.eqb c "-"
  end.

Fixpoint all_chars (p : ascii → bool) (s : string) : bool :=
  match s with
  | String c r => p c && all_chars p r
  | EmptyString => true
  end.

(** The padded text of [n] is two digits that read back as [n]. *)
Definition two_digit_text (n : Z) : bool :=
  match padStart2 (show_Z n) with
  | String a (String b EmptyString) => bool_decide (two_digits a b = Some n)
  | _ => false
  end.

(** The raw scan of [rollingWindow]: [n] consecutive calendar days, the
    first one at time [t]. *)
Definition raw_scan (t : Z) (n : nat) : list Date :=
  map (λ i : nat, TimeClip (t + Z.of_nat i * msPerDay)) (seq 0 n).

(** The day numbers of the dates [rollingWindow] returns. *)
Definition window_day_numbers (startStr : string) (days : Num) : list Z :=
  match Date_at_midnight startStr with
  | Some t =>
      omap (λ d : Date, if isWeekday d then Day <$> d else None)
           (raw_scan t (trips days))
  | None => []
  end.

(** The storage reads the text [toISODate] writes for day [d] back as
    [d]. *)
Definition cast_agrees (st : Storage) (d : Z) : Prop :=
  date_in st (date_text d) = Some d.

(** The database writes the day [d] as [toISODate] does: the keys the
    handler builds from its window and from the rows then agree. *)
Definition text_agrees (d : Z) : Prop := date_out d = date_text d.

(** A Booking exists for (date, slot). *)
Definition has_booking (db : Db) (d : Z) (s : string) : Prop :=
  ∃ b, b ∈ bookings db ∧ date b = d ∧ slot b = s.

(** The availability view of a (date, slot), in the words of the
    specification: [booked] tells whether a Booking exists; [open] is
    [is_open AND NOT booked] under an Override and [NOT booked] without
    one; a booked slot is never open. *)
Definition view_of (db : Db) (d : Z) (s : string) (v : SlotView) : Prop :=
  (booked v = true ↔ has_booking db d s)
  ∧ (∀ o, o ∈ slot_overrides db → o_date o = d → o_slot o = s →
       open v = is_open o && negb (booked v))
  ∧ ((∀ o, o ∈ slot_overrides db → ¬ (o_date o = d ∧ o_slot o = s)) →
       open v = negb (booked v))
  ∧ (has_booking db d s → open v = false).

(** The constraints of schema.sql on a database state: UNIQUE (date, slot)
    on both tables, the primary key of [bookings] below its sequence,
    which starts at 1, and the CHECK on [slot]. *)
Record db_ok (st : Storage) (db : Db) : Prop := {
  ok_bookings_unique : NoDup (map (λ b, (date b, slot b)) (bookings db));
  ok_overrides_unique : NoDup (map (λ o, (o_date o, o_slot o)) (slot_overrides db));
  ok_ids : Forall (λ b, id b < bookings_id_seq db) (bookings db);
  ok_ids_unique : NoDup (map id (bookings db));
  ok_bookings_check : Forall (λ b, slot b ∈ slot_check st) (bookings db);
  ok_overrides_check : Forall (λ o, o_slot o ∈ slot_check st) (slot_overrides db);
  ok_seq_positive : 1 ≤ bookings_id_seq db
}.

(** The requests that write, of both versions of the server. *)
Inductive Request : Type :=
| Book (now db_now : Z) (body : BookBody)
| SetSlot (now : Z) (body : SlotBody)
| Cancel (n : Num)
| Book_v1 (now db_now : Z) (body : BookBody)
| SetSlot_v1 (now : Z) (body : SlotBody)
| Cancel_v1 (param : string).

Definition handle (st : Storage) (r : Request) (db : Db) : Db * Response :=
  match r with
  | Book now db_now body => post_book st now db_now body db
  | SetSlot now body => post_admin_api_slot st now body db
  | Cancel n => delete_admin_api_booking n db
  | Book_v1 now db_now body => ServerJs.post_book st now db_now body db
  | SetSlot_v1 now body => ServerJs.post_admin_api_slot st now body db
  | Cancel_v1 param => ServerJs.delete_admin_api_booking param db
  end.

(** The states the database goes through, from the empty tables. *)
Inductive reachable (st : Storage) : Db → Prop :=
| reachable_empty : reachable st Pg.empty
| reachable_step db r : reachable st db → reachable st (handle st r db).1.

(** The request passes the two checks of POST /book that come before the
    transaction: the required fields and the window. *)
Definition book_request_valid (now : Z) (body : BookBody) : bool :=
  truthy (r_full_name body) && truthy (r_phone body) && truthy (r_instagram body)
  && truthy (r_date body) && includes SLOT_KEYS (r_slot body)
  && bool_decide (str (r_date body)
                  ∈ (list_to_set (rollingWindow (toISODate (todayCST now)) (Int 14))
                     : gset string)).

(** The request passes the check of POST /admin/api/slot. *)
Definition slot_request_valid (body : SlotBody) : bool :=
  truthy (s_date body) && includes SLOT_KEYS (s_slot body)
  && bool_decide (is_Some (s_is_open body)).

(** A computation keeps the constraints and never moves the booking
    sequence back. *)
Definition keeps_ok {A} (st : Storage) (m : Tx A) : Prop :=
  ∀ db db' r, db_ok st db → m db = (db', r) →
    db_ok st db' ∧ bookings_id_seq db ≤ bookings_id_seq db'.

End Notions.

End Spec.

(** ** Sample requests *)

Module Samples.
Import Js Pg Server.

(** An engine that reads the ECMAScript format only. *)
Definition iso_only : Engine := {| legacy_date := λ _, None |}.

(** 2024-06-03T07:33:20Z, a Monday, and the database's clock a little
    later. *)
Definition now0 : Z := 1717400000000.
Definition db_now0 : Z := 1717400000123.

(** 2024-06-04 as a DATE. *)
Definition jun4 : Z := 19878.

Definition ana : BookBody :=
  {| r_full_name := Some "Ana"; r_phone := Some "555-0101"; r_instagram := Some "@ana";
     r_email := None; r_date := Some "2024-06-04"; r_slot := Some "A" |}.

Definition ana_C : BookBody :=
  {| r_full_name := Some "Ana"; r_phone := Some "555-0101"; r_instagram := Some "@ana";
     r_email := None; r_date := Some "2024-06-04"; r_slot := Some "C" |}.

(** A customer whose phone and Instagram handle are those of the
    administrative block. *)
Definition bob : BookBody :=
  {| r_full_name := Some "Bob"; r_phone := Some "0"; r_instagram := Some "admin";
     r_email := None; r_date := Some "2024-06-04"; r_slot := Some "A" |}.

Definition close_A : SlotBody :=
  {| s_date := Some "2024-06-04"; s_slot := Some "A"; s_is_open := Some false |}.

Definition close_C : SlotBody :=
  {| s_date := Some "2024-06-04"; s_slot := Some "C"; s_is_open := Some false |}.

Definition open_A : SlotBody :=
  {| s_date := Some "2024-06-04"; s_slot := Some "A"; s_is_open := Some true |}.

(** 0999-12-30, a Monday, as a DATE; the request that closes its slot A,
    and the query for the window of that one day. *)
Definition dec30_999 : Z := -354287.

Definition close_999 : SlotBody :=
  {| s_date := Some "0999-12-30"; s_slot := Some "A"; s_is_open := Some false |}.

Definition q_999 : AvailabilityQuery :=
  {| q_start := Some "0999-12-30"; q_days := Some "1" |}.

End Samples.

(** ** Further notions *)

Module More.
Import Js Pg Server.

(** The text of [y] is four digits that read back as [y]. *)
Definition four_digit_text (y : Z) : bool :=
  match show_Z y with
  | String a (String b (String c (String d EmptyString))) =>
      bool_decide (four_digits a b c d = Some y)
  | _ => false
  end.

(** Monday to Friday, on a day number (1970-01-01 was a Thursday). *)
Definition weekday_number (d : Z) : bool :=
  (1 <=? (d + 4) mod 7) && ((d + 4) mod 7 <=? 5).

End More.

(** ** The guard of the admin routes *)

Module Auth.
Import Js.

(** The white space [String.prototype.trim] removes, among the characters
    a header value carries (up to U+00FF). *)
Definition is_white (c : ascii) : bool :=
  is_space c || N.eqb (N_of_ascii c) 160.

Fixpoint trim_start (s : string) : string :=
  match s with
  | String c r => if is_white c then trim_start r else s
  | EmptyString => EmptyString
  end.

Fixpoint trim_end (s : string) : string :=
  match s with
  | String c r =>
      match trim_end r with
      | EmptyString => if is_white c then EmptyString else String c EmptyString
      | t => String c t
      end
  | EmptyString => EmptyString
  end.

(** [s.trim()]. *)
Definition trim (s : string) : string := trim_end (trim_start s).

(** [s] without its prefix [pat], when it starts with [pat]. *)
Fixpoint strip_prefix (pat s : string) : option string :=
  match pat, s with
  | EmptyString, _ => Some s
  | String a p, String b r => if Ascii.eqb a b then strip_prefix p r else None
  | String _ _, EmptyString => None
  end.

(** [s.replace(pat, '')] for a string [pat]: the first occurrence goes. *)
Fixpoint replace_first (pat s : string) : string :=
  match strip_prefix pat s with
  | Some rest => rest
  | None =>
      match s with
      | String c r => String c (replace_first pat r)
      | EmptyString => EmptyString
      end
  end.

(** [requireAuth] on the [Authorization] header and [ADMIN_PASSWORD] of the
    environment: [true] is [next()], [false] the answer 401.  The two
    versions of the server have the same text. *)
Definition requireAuth (authorization ADMIN_PASSWORD : option string) : bool :=
  let token := trim (replace_first "Bearer " (or_else authorization "")) in
  truthy (Some token) && bool_decide (Some token = ADMIN_PASSWORD).

End Auth.

(** ** The calendar *)

Section Calendar.
Import Js.
Context {engine : Engine}.

Lemma era_split z :
  let era := (z + 719468) / 146097 in
  0 ≤ z + 719468 - era * 146097 < 146097.
Proof. intros era. subst era. Z.div_mod_to_equations. lia. Qed.

Lemma year_of_era_bounds doe :
  0 ≤ doe < 146097 →
  let yoe := (doe - doe / 1460 + doe / 36524 - doe / 146096) / 365 in
  0 ≤ yoe ≤ 399 ∧ 0 ≤ doe - (365 * yoe + yoe / 4 - yoe / 100) ≤ 365.
Proof. intros H yoe. subst yoe. Z.div_mod_to_equations. lia. Qed.

Lemma month_day_bounds doy :
  0 ≤ doy ≤ 365 →
  let mp := (5 * doy + 2) / 153 in
  0 ≤ mp ≤ 11 ∧ 1 ≤ doy - (153 * mp + 2) / 5 + 1 ≤ 31.
Proof. intros H mp. subst mp. Z.div_mod_to_equations. lia. Qed.

(** [civil_from_days] yields a month from 1 to 12 and a day from 1 to 31. *)
Lemma civil_from_days_range z :
  1 ≤ (civil_from_days z).1.2 ≤ 12 ∧ 1 ≤ (civil_from_days z).2 ≤ 31.
Proof.
  unfold civil_from_days. cbv zeta. cbn [fst snd].
  pose proof (era_split z) as He. cbv zeta in He.
  set (doe := z + 719468 - (z + 719468) / 146097 * 146097) in *.
  pose proof (year_of_era_bounds doe He) as [_ Hdoy]. 
  set (yoe := (doe - doe / 1460 + doe / 36524 - doe / 146096) / 365) in *.
  set (doy := doe - (365 * yoe + yoe / 4 - yoe / 100)) in *.
  pose proof (month_day_bounds doy Hdoy) as [Hmp Hd].
  set (mp := (5 * doy + 2) / 153) in *.
  split; [|exact Hd].
  destruct (Z.ltb_spec mp 10); lia.
Qed.

(** [days_from_civil] inverts [civil_from_days]. *)
Lemma days_from_civil_from_days z y m d :
  civil_from_days z = (y, m, d) → days_from_civil y m d = z.
Proof.
  unfold civil_from_days. cbv zeta.
  pose proof (era_split z) as He. cbv zeta in He.
  set (era := (z + 719468) / 146097) in *.
  set (doe := z + 719468 - era * 146097) in *.
  pose proof (year_of_era_bounds doe He) as [Hyoe Hdoy].
  set (yoe := (doe - doe / 1460 + doe / 36524 - doe / 146096) / 365) in *.
  set (doy := doe - (365 * yoe + yoe / 4 - yoe / 100)) in *.
  pose proof (month_day_bounds doy Hdoy) as [Hmp Hd].
  set (mp := (5 * doy + 2) / 153) in *.
  intros [= <- <- <-].
  unfold days_from_civil. cbv zeta.
  assert (Hera : ∀ x, 0 ≤ x ≤ 399 → (x + era * 400) / 400 = era).
  { intros x Hx. rewrite Z.div_add by lia. rewrite Z.div_small by lia. lia. }
  destruct (Z.ltb_spec mp 10) as [Hlt|Hge].
  - destruct (Z.leb_spec (mp + 3) 2); [lia|].
    destruct (Z.ltb_spec 2 (mp + 3)); [|lia].
    rewrite (Hera yoe Hyoe).
    replace (yoe + era * 400 - era * 400) with yoe by lia.
    replace (mp + 3 - 3) with mp by lia.
    subst doy doe. lia.
  - destruct (Z.leb_spec (mp - 9) 2); [|lia].
    destruct (Z.ltb_spec 2 (mp - 9)); [lia|].
    replace (yoe + era * 400 + 1 - 1) with (yoe + era * 400) by lia.
    rewrite (Hera yoe Hyoe).
    replace (yoe + era * 400 - era * 400) with yoe by lia.
    replace (mp - 9 + 9) with mp by lia.
    subst doy doe. lia.
Qed.

Lemma civil_from_days_inj z z' : civil_from_days z = civil_from_days z' → z = z'.
Proof.
  intros H. destruct (civil_from_days z') as [[y m] d] eqn:E'.
  rewrite <- (days_from_civil_from_days z y m d H).
  by rewrite <- (days_from_civil_from_days z' y m d E').
Qed.

(** Within a month, [days_from_civil] counts the days. *)
Lemma days_from_civil_day y m d : days_from_civil y m d = days_from_civil y m 1 + d - 1.
Proof. unfold days_from_civil. cbv zeta. lia. Qed.

(** [MakeDay] on the fields of [t], with the day of month advanced by [i],
    is the day [i] days after [t]. *)
Lemma MakeDay_advance t i :
  MakeDay (YearFromTime t) (MonthFromTime t) (DateFromTime t + i) = Day t + i.
Proof.
  unfold MakeDay, YearFromTime, MonthFromTime, DateFromTime.
  pose proof (civil_from_days_range (Day t)) as [Hm _].
  destruct (civil_from_days (Day t)) as [[y m] d] eqn:E. cbn [fst snd] in *.
  rewrite Z.div_small by lia. rewrite Z.mod_small by lia.
  replace (y + 0) with y by lia. replace (m - 1 + 1) with m by lia.
  pose proof (days_from_civil_day y m d) as Hd.
  rewrite (days_from_civil_from_days _ _ _ _ E) in Hd. lia.
Qed.

Lemma setUTCDate_advance t i :
  setUTCDate (Some t) (add (getUTCDate (Some t)) (Int i)) = TimeClip (t + i * msPerDay).
Proof.
  cbn [setUTCDate getUTCDate add]. rewrite MakeDay_advance. f_equal.
  unfold MakeDate, Day, TimeWithinDay, msPerDay. Z.div_mod_to_equations. lia.
Qed.

End Calendar.

(** ** Text of numbers and dates *)

Section Text.
Import Js Spec.
Context {engine : Engine}.

Lemma append_length (s t : string) :
  String.length (s ++ t) = (String.length s + String.length t)%nat.
Proof. induction s as [|c s IH]; simpl; [done | by rewrite IH]. Qed.

(** Two concatenations with tails of one length agree part by part. *)
Lemma append_inj_tail (s s' t t' : string) :
  String.length t = String.length t' → (s ++ t)%string = (s' ++ t')%string → s = s' ∧ t = t'.
Proof.
  intros Hlen. revert s'. induction s as [|c s IH]; intros [|c' s'] H; simpl in H.
  - done.
  - apply (f_equal String.length) in H.
    rewrite ?append_length in H. simpl in H. rewrite ?append_length in H. lia.
  - apply (f_equal String.length) in H.
    rewrite ?append_length in H. simpl in H. rewrite ?append_length in H. lia.
  - injection H as -> H. by destruct (IH _ H) as [-> ->].
Qed.

Lemma show_Z_inj z z' : show_Z z = show_Z z' → z = z'.
Proof.
  unfold show_Z. intros H.
  assert (Hn : ∀ x, Z.to_int x ≠ Decimal.Pos Decimal.Nil ∧ Z.to_int x ≠ Decimal.Neg Decimal.Nil).
  { intros [|p|p]; cbn; split; try discriminate;
      intros [= E]; by apply (DecimalPos.Unsigned.to_uint_nonnil p). }
  apply DecimalZ.to_int_inj.
  pose proof (NilZero.isi _ (proj1 (Hn z)) (proj2 (Hn z))) as E.
  pose proof (NilZero.isi _ (proj1 (Hn z')) (proj2 (Hn z'))) as E'.
  rewrite H in E. congruence.
Qed.

(** A number from 0 to 99, padded, is two digits that read back as it. *)
Lemma two_digit_text_all n : 0 ≤ n < 100 → two_digit_text n = true.
Proof.
  revert n. apply (Forall_seqZ (λ n, two_digit_text n = true) 0 100).
  apply (bool_decide_unpack (Forall (λ n, two_digit_text n = true) (seqZ 0 100))).
  by vm_compute.
Qed.

Lemma padStart2_digits n :
  0 ≤ n < 100 →
  ∃ a b, padStart2 (show_Z n) = String a (String b "") ∧ two_digits a b = Some n.
Proof.
  intros H. apply two_digit_text_all in H. unfold two_digit_text in H.
  destruct (padStart2 (show_Z n)) as [|a [|b [|c r]]]; try done.
  exists a, b. split; [done|]. by apply bool_decide_eq_true in H.
Qed.

Lemma all_chars_append p s t : all_chars p (s ++ t) = all_chars p s && all_chars p t.
Proof. induction s as [|c s IH]; simpl; [done|]. by rewrite IH, andb_assoc. Qed.

Lemma show_Z_chars z : all_chars date_char (show_Z z) = true.
Proof.
  assert (Hu : ∀ u, all_chars date_char (NilEmpty.string_of_uint u) = true).
  { induction u as [|u IH|u IH|u IH|u IH|u IH|u IH|u IH|u IH|u IH|u IH];
      simpl; [done | by rewrite IH ..]. }
  assert (Hz : ∀ u, all_chars date_char (NilZero.string_of_uint u) = true).
  { intros u. destruct u; try done; apply Hu. }
  unfold show_Z, NilZero.string_of_int.
  destruct (Z.to_int z) as [u|u]; [apply Hz|].
  change (all_chars date_char (String "-" (NilZero.string_of_uint u)) = true).
  simpl. by rewrite Hz.
Qed.

End Text.

(** ** The rolling window *)

Section Window.
Import Js Pg Server Spec.
Context {engine : Engine}.

Lemma Day_of_day d : Day (d * msPerDay) = d.
Proof. unfold Day, msPerDay. by rewrite Z.div_mul. Qed.

Lemma Day_advance t i : Day (t + i * msPerDay) = Day t + i.
Proof. unfold Day, msPerDay. by rewrite Z.div_add. Qed.

(** [toISODate] writes the year, the month and the day of the date. *)
Lemma toISODate_civil t y m d :
  civil_from_days (Day t) = (y, m, d) →
  toISODate (Some t) = show_Z y ++ "-" ++ padStart2 (show_Z m) ++ "-" ++ padStart2 (show_Z d).
Proof.
  intros E. unfold toISODate, getUTCFullYear, getUTCMonth, getUTCDate,
    YearFromTime, MonthFromTime, DateFromTime.
  rewrite E. cbn [fst snd add to_string].
  by replace (m - 1 + 1) with m by lia.
Qed.

Lemma toISODate_date_text t : toISODate (Some t) = date_text (Day t).
Proof.
  destruct (civil_from_days (Day t)) as [[y m] d] eqn:E.
  unfold date_text. rewrite (toISODate_civil t y m d E).
  symmetry. apply toISODate_civil. by rewrite Day_of_day.
Qed.

Lemma date_text_inj d d' : date_text d = date_text d' → d = d'.
Proof.
  unfold date_text.
  pose proof (civil_from_days_range d) as [Hm Hd].
  pose proof (civil_from_days_range d') as [Hm' Hd'].
  destruct (civil_from_days d) as [[y m] dd] eqn:E.
  destruct (civil_from_days d') as [[y' m'] dd'] eqn:E'.
  cbn [fst snd] in *.
  rewrite (toISODate_civil _ y m dd) by by rewrite Day_of_day.
  rewrite (toISODate_civil _ y' m' dd') by by rewrite Day_of_day.
  destruct (padStart2_digits m) as (a & b & -> & Hab); [lia|].
  destruct (padStart2_digits dd) as (c & e & -> & Hce); [lia|].
  destruct (padStart2_digits m') as (a' & b' & -> & Hab'); [lia|].
  destruct (padStart2_digits dd') as (c' & e' & -> & Hce'); [lia|].
  intros H. apply append_inj_tail in H as [Hy H]; [|done].
  simpl in H. injection H as -> -> -> ->.
  apply show_Z_inj in Hy as ->.
  apply civil_from_days_inj. congruence.
Qed.

Lemma date_text_chars d : all_chars date_char (date_text d) = true.
Proof.
  unfold date_text.
  destruct (civil_from_days d) as [[y m] dd] eqn:E.
  rewrite (toISODate_civil _ y m dd) by by rewrite Day_of_day.
  assert (Hp : ∀ s, all_chars date_char s = true → all_chars date_char (padStart2 s) = true).
  { intros [|c [|c' s]] H; simpl in *; auto. }
  rewrite !all_chars_append. simpl.
  rewrite show_Z_chars, !Hp by apply show_Z_chars. done.
Qed.

(** A key [date|slot] determines its date and its slot. *)
Lemma slot_key_inj a a' s s' :
  all_chars date_char a = true → all_chars date_char a' = true →
  slot_key a s = slot_key a' s' → a = a' ∧ s = s'.
Proof.
  unfold slot_key. revert a'.
  induction a as [|c a IH]; intros [|c' a'] Ha Ha' H.
  - change (String "|" s = String "|" s') in H. by injection H as ->.
  - change (String "|" s = String c' (a' ++ "|" ++ s')) in H.
    injection H as Hc _. subst c'. by simpl in Ha'.
  - change (String c (a ++ "|" ++ s) = String "|" s') in H.
    injection H as Hc _. subst c. by simpl in Ha.
  - change (String c (a ++ "|" ++ s) = String c' (a' ++ "|" ++ s')) in H.
    injection H as -> H. simpl in Ha, Ha'.
    apply andb_true_iff in Ha as [_ Ha]. apply andb_true_iff in Ha' as [_ Ha'].
    by destruct (IH a' Ha Ha' H) as [-> ->].
Qed.

Lemma date_key_inj d d' s s' :
  slot_key (date_text d) s = slot_key (date_text d') s' → d = d' ∧ s = s'.
Proof.
  intros H. apply slot_key_inj in H as [H ->]; [|apply date_text_chars..].
  split; [by apply date_text_inj | done].
Qed.

(** The guard [i < days] holds exactly for the first [trips days] counters. *)
Lemma trips_guard days i :
  0 ≤ i → lt (Int i) days = true ↔ (Z.to_nat i < trips days)%nat.
Proof.
  intros Hi. destruct days as [|n]; simpl; [split; [done | lia]|].
  rewrite Z.ltb_lt. lia.
Qed.

Lemma isWeekday_invalid : isWeekday None = false.
Proof. done. Qed.

Lemma isWeekday_valid t : isWeekday (Some t) = true ↔ 1 ≤ WeekDay t ≤ 5.
Proof.
  unfold isWeekday. simpl. rewrite andb_true_iff, !Z.leb_le. done.
Qed.

(** The loop appends, in order, the weekdays among the scanned days. *)
Lemma rollingWindow_loop_scan start n : ∀ i arr,
  rollingWindow_loop start i n arr =
  (arr ++ map toISODate
     (filter (λ d, isWeekday d)
        (map (λ k : nat, setUTCDate start (add (getUTCDate start) (Int (i + Z.of_nat k))))
             (seq 0 n))))%list.
Proof.
  induction n as [|n IH]; intros i arr.
  - simpl. by rewrite app_nil_r.
  - cbn [rollingWindow_loop]. rewrite IH. unfold rollingWindow_body.
    cbn [seq map]. rewrite Z.add_0_r.
    rewrite <- seq_shift, map_map.
    rewrite filter_cons.
    assert (Hmap : map (λ k : nat, setUTCDate start (add (getUTCDate start) (Int (i + 1 + Z.of_nat k)))) (seq 0 n)
                 = map (λ k : nat, setUTCDate start (add (getUTCDate start) (Int (i + Z.of_nat (S k))))) (seq 0 n)).
    { apply map_ext. intros k. do 3 f_equal. lia. }
    rewrite Hmap.
    destruct (isWeekday (setUTCDate start (add (getUTCDate start) (Int i)))) eqn:E.
    + rewrite decide_True by by apply Is_true_true. cbn [map]. by rewrite <- app_assoc.
    + rewrite decide_False by by apply Is_true_false. done.
Qed.

Lemma rollingWindow_scan startStr days t :
  Date_at_midnight startStr = Some t →
  rollingWindow startStr days
  = map toISODate (filter (λ d, isWeekday d) (raw_scan t (trips days))).
Proof.
  intros E. unfold rollingWindow. cbv zeta. rewrite E, rollingWindow_loop_scan.
  rewrite app_nil_l. do 2 f_equal. unfold raw_scan. apply map_ext. intros k.
  rewrite Z.add_0_l. apply setUTCDate_advance.
Qed.

(** An Invalid Date start leaves the window empty. *)
Lemma rollingWindow_invalid startStr days :
  Date_at_midnight startStr = None → rollingWindow startStr days = [].
Proof.
  intros E. unfold rollingWindow. cbv zeta. rewrite E, rollingWindow_loop_scan.
  rewrite app_nil_l.
  induction (seq 0 (trips days)) as [|k l IH]; [done|].
  cbn [map]. rewrite filter_cons. by rewrite decide_False by by apply Is_true_false.
Qed.

Lemma rollingWindow_day_numbers startStr days :
  rollingWindow startStr days = map date_text (window_day_numbers startStr days).
Proof.
  unfold window_day_numbers.
  destruct (Date_at_midnight startStr) as [t|] eqn:E;
    [|by apply rollingWindow_invalid].
  rewrite (rollingWindow_scan _ _ t E).
  induction (raw_scan t (trips days)) as [|d l IH]; [done|].
  rewrite filter_cons. cbn [omap list_omap].
  destruct (isWeekday d) eqn:Hw.
  - rewrite decide_True by by apply Is_true_true.
    destruct d as [u|]; [|done]. cbn [fmap option_fmap option_map map].
    by rewrite IH, toISODate_date_text.
  - rewrite decide_False by by apply Is_true_false. done.
Qed.

End Window.

(** ** The text of a DATE, in the database and in the handler *)

Section DatabaseText.
Import Js Pg Server Spec More.
Context {engine : Engine}.

(** The decimal text of an integer has no leading zero. *)
Lemma show_Z_leading_zero y r : show_Z y = String "0" r → r = "".
Proof.
  unfold show_Z. destruct y as [|p|p]; cbn [Z.to_int].
  - by intros [= <-].
  - pose proof (DecimalPos.Unsigned.to_uint_nonnil p) as Hnil.
    assert (Hnorm : Decimal.unorm (Pos.to_uint p) = Pos.to_uint p).
    { rewrite <- (DecimalPos.Unsigned.to_of (Pos.to_uint p)).
      by rewrite DecimalPos.Unsigned.of_to. }
    destruct (Pos.to_uint p) as [|u|u|u|u|u|u|u|u|u|u] eqn:E; try done.
    exfalso. rewrite DecimalFacts.unorm_D0 in Hnorm.
    assert (Hz : Decimal.nzhead u = Decimal.Nil).
    { unfold Decimal.unorm in Hnorm.
      destruct (Decimal.nzhead u) as [|v|v|v|v|v|v|v|v|v|v] eqn:Eu; try done.
      by destruct (DecimalFacts.nzhead_nonzero u v). }
    unfold Decimal.unorm in Hnorm. rewrite Hz in Hnorm. injection Hnorm as <-.
    pose proof (DecimalPos.Unsigned.of_to p) as Hp. rewrite E in Hp. discriminate.
  - discriminate.
Qed.

Lemma pad4_shape s : pad4 s = s ∨ ∃ r, pad4 s = String "0" r ∧ r ≠ "".
Proof.
  destruct s as [|a [|b [|c [|e s]]]]; [right|right|right|right|left]; try done;
    by eexists.
Qed.

(** A padded year that reads as a plain number was not padded. *)
Lemma pad4_show_Z y' y : pad4 (show_Z y') = show_Z y → y' = y.
Proof.
  intros H. destruct (pad4_shape (show_Z y')) as [E|(r & E & Hr)].
  - rewrite E in H. by apply show_Z_inj.
  - rewrite E in H. symmetry in H. by apply show_Z_leading_zero in H.
Qed.

Lemma all_chars_impl (p q : ascii → bool) s :
  (∀ c, p c = true → q c = true) → all_chars p s = true → all_chars q s = true.
Proof.
  intros Hpq. induction s as [|c s IH]; [done|]. cbn [all_chars].
  rewrite !andb_true_iff. intros [Hc Hs]. split; [by apply Hpq | by apply IH].
Qed.

Lemma date_out_civil d y m dd :
  civil_from_days d = (y, m, dd) →
  date_out d
  = if 0 <? y
    then pad4 (show_Z y) ++ "-" ++ padStart2 (show_Z m) ++ "-" ++ padStart2 (show_Z dd)
    else (pad4 (show_Z (1 - y)) ++ "-" ++ padStart2 (show_Z m)
          ++ "-" ++ padStart2 (show_Z dd)) ++ " BC".
Proof. intros E. unfold date_out. by rewrite E. Qed.

(** A row whose date the database writes as the handler writes the day [d]
    is a row of day [d]. *)
Lemma date_out_is_text d' d : date_out d' = date_text d → d' = d.
Proof.
  pose proof (civil_from_days_range d) as [Hm Hd].
  pose proof (civil_from_days_range d') as [Hm' Hd'].
  pose proof (date_text_chars d) as Hchars.
  destruct (civil_from_days d) as [[y m] dd] eqn:E.
  destruct (civil_from_days d') as [[y' m'] dd'] eqn:E'.
  cbn [fst snd] in *.
  rewrite (date_out_civil d' y' m' dd' E').
  unfold date_text in *.
  rewrite (toISODate_civil _ y m dd) in * by by rewrite Day_of_day.
  destruct (0 <? y').
  - destruct (padStart2_digits m) as (a & b & -> & Hab); [lia|].
    destruct (padStart2_digits dd) as (c & e & -> & Hce); [lia|].
    destruct (padStart2_digits m') as (a' & b' & -> & Hab'); [lia|].
    destruct (padStart2_digits dd') as (c' & e' & -> & Hce'); [lia|].
    intros H. apply append_inj_tail in H as [Hy H]; [|done].
    simpl in H. injection H as -> -> -> ->.
    apply pad4_show_Z in Hy as ->.
    apply civil_from_days_inj. congruence.
  - intros H. rewrite <- H in Hchars. rewrite all_chars_append in Hchars.
    apply andb_true_iff in Hchars as [_ Hbc]. by vm_compute in Hbc.
Qed.

Lemma four_digit_text_all y : 1000 ≤ y ≤ 9999 → four_digit_text y = true.
Proof.
  intros Hy.
  assert (H : Forall (λ y, four_digit_text y = true) (seqZ 1000 9000)).
  { apply (bool_decide_unpack (Forall (λ y, four_digit_text y = true) (seqZ 1000 9000))).
    by vm_compute. }
  rewrite list.Forall_forall in H. apply H, elem_of_seqZ. lia.
Qed.

(** In the years 1000 to 9999 the database writes a day as [toISODate]
    does. *)
Lemma text_agrees_years d :
  1000 ≤ YearFromTime (d * msPerDay) ≤ 9999 → text_agrees d.
Proof.
  unfold YearFromTime, text_agrees. rewrite Day_of_day.
  destruct (civil_from_days d) as [[y m] dd] eqn:E. cbn [fst]. intros Hy.
  rewrite (date_out_civil d y m dd E). unfold date_text.
  rewrite (toISODate_civil _ y m dd) by by rewrite Day_of_day.
  destruct (Z.ltb_spec 0 y); [|lia].
  pose proof (four_digit_text_all y Hy) as H4. unfold four_digit_text in H4.
  destruct (show_Z y) as [|a [|b [|c [|e [|f s]]]]]; try done.
Qed.

(** A key [date|slot] whose date has no bar determines date and slot. *)
Lemma slot_key_split a a' s s' :
  all_chars (λ c, negb (Ascii.eqb c "|")) a = true →
  all_chars (λ c, negb (Ascii.eqb c "|")) a' = true →
  slot_key a s = slot_key a' s' → a = a' ∧ s = s'.
Proof.
  unfold slot_key. revert a'.
  induction a as [|c a IH]; intros [|c' a'] Ha Ha' H.
  - change (String "|" s = String "|" s') in H. by injection H as ->.
  - change (String "|" s = String c' (a' ++ "|" ++ s')) in H.
    injection H as Hc _. subst c'. by simpl in Ha'.
  - change (String c (a ++ "|" ++ s) = String "|" s') in H.
    injection H as Hc _. subst c. by simpl in Ha.
  - change (String c (a ++ "|" ++ s) = String c' (a' ++ "|" ++ s')) in H.
    injection H as -> H. simpl in Ha, Ha'.
    apply andb_true_iff in Ha as [_ Ha]. apply andb_true_iff in Ha' as [_ Ha'].
    by destruct (IH a' Ha Ha' H) as [-> ->].
Qed.

Lemma date_char_no_bar c : date_char c = true → negb (Ascii.eqb c "|") = true.
Proof.
  unfold date_char. destruct (Ascii.eqb_spec c "|") as [->|]; [by vm_compute | done].
Qed.

Lemma date_out_no_bar d : all_chars (λ c, negb (Ascii.eqb c "|")) (date_out d) = true.
Proof.
  destruct (civil_from_days d) as [[y m] dd] eqn:E.
  rewrite (date_out_civil d y m dd E).
  assert (Hs : ∀ z, all_chars (λ c, negb (Ascii.eqb c "|")) (show_Z z) = true).
  { intros z. apply (all_chars_impl date_char); [apply date_char_no_bar|].
    apply show_Z_chars. }
  assert (Hp2 : ∀ s, all_chars (λ c, negb (Ascii.eqb c "|")) s = true →
                  all_chars (λ c, negb (Ascii.eqb c "|")) (padStart2 s) = true).
  { intros [|c [|c' s]] H; simpl in *; auto. }
  assert (Hp4 : ∀ s, all_chars (λ c, negb (Ascii.eqb c "|")) s = true →
                  all_chars (λ c, negb (Ascii.eqb c "|")) (pad4 s) = true).
  { intros [|a [|b [|c [|e s]]]] H; simpl in *; auto. }
  destruct (0 <? y); rewrite !all_chars_append; simpl;
    rewrite Hp4, !Hp2 by apply Hs; done.
Qed.

(** A row whose key is the key the handler builds for ([d], [s]) is a row
    of ([d], [s]), and the two texts of [d] agree. *)
Lemma window_key_row d s d' s' :
  slot_key (date_out d') s' = slot_key (date_text d) s →
  d' = d ∧ s' = s ∧ text_agrees d.
Proof.
  intros H. apply slot_key_split in H as [H ->].
  - apply date_out_is_text in H as Hd. subst d'. by repeat split.
  - apply date_out_no_bar.
  - apply (all_chars_impl date_char); [apply date_char_no_bar | apply date_text_chars].
Qed.

End DatabaseText.

(** ** The window of GET /availability *)

Section AvailabilityWindow.
Import Js Pg Server Spec.
Context {engine : Engine}.

Lemma raw_scan_length t n : length (raw_scan t n) = n.
Proof. unfold raw_scan. by rewrite length_map, length_seq. Qed.

Lemma raw_scan_lookup t n i :
  (i < n)%nat → raw_scan t n !! i = Some (TimeClip (t + Z.of_nat i * msPerDay)).
Proof.
  intros Hi. unfold raw_scan. rewrite list_lookup_fmap.
  by rewrite lookup_seq_lt.
Qed.

Lemma availability_of_empty st labels order db :
  availability_of st labels order [] db = availability_json [].
Proof. done. Qed.

(** C5: for a valid start date and any window length, [rollingWindow]
    returns only Monday-to-Friday dates, as an in-order subsequence of the
    raw scan of exactly [days] consecutive calendar days from the start; for
    2024-06-03 and 5 days these are the five dates 3 to 7 June. *)
Theorem rollingWindow_weekdays_of_scan (startStr : string) (days : Num) (t : Z) :
  Date_at_midnight startStr = Some t →
  let raw := raw_scan t (trips days) in
  let out := rollingWindow startStr days in
  length raw = trips days
  ∧ (∀ i, (i < trips days)%nat → raw !! i = Some (TimeClip (t + Z.of_nat i * msPerDay)))
  ∧ out `sublist_of` map toISODate raw
  ∧ Forall (λ s, ∃ u, Some u ∈ raw ∧ s = toISODate (Some u) ∧ 1 ≤ WeekDay u ≤ 5) out
  ∧ rollingWindow "2024-06-03" (Int 5)
    = ["2024-06-03"; "2024-06-04"; "2024-06-05"; "2024-06-06"; "2024-06-07"].
Proof.
  intros E raw out. subst raw out.
  rewrite (rollingWindow_scan _ _ _ E).
  split; [apply raw_scan_length|].
  split; [intros i Hi; by apply raw_scan_lookup|].
  split; [apply fmap_sublist, sublist_filter|].
  split; [|by vm_compute].
  apply list.Forall_forall. intros s Hs.
  apply list_elem_of_fmap in Hs as (d & -> & Hd).
  apply list_elem_of_filter in Hd as [Hw Hd].
  destruct d as [u|]; [|done].
  exists u. split; [done|]. split; [done|].
  by apply isWeekday_valid, Is_true_true.
Qed.

(** C8, as the code has it: a start string that is not a date gives an
    empty window and the endpoint answers the empty array; today is used
    only when the start parameter is absent or empty. *)
Theorem malformed_start_gives_empty_window
    (st : Storage) (now : Z) (q : AvailabilityQuery) (db : Db) (s : string) :
  q_start q = Some s → s ≠ "" → Date_at_midnight s = None →
  rollingWindow s (window_days q) = []
  ∧ get_availability st now q db = availability_json []
  ∧ ServerJs.get_availability st now q db = availability_json []
  ∧ (∀ q0, truthy (q_start q0) = false →
       get_availability st now q0 db
       = get_availability st now
           {| q_start := Some (toISODate (todayCST now)); q_days := q_days q0 |} db).
Proof.
  intros Hs Hne Hbad.
  assert (Hstart : ∀ dflt, or_else (q_start q) dflt = s).
  { intros dflt. rewrite Hs. unfold or_else.
    destruct (String.eqb_spec s ""); [done | done]. }
  split; [by apply rollingWindow_invalid|].
  split; [|split].
  - unfold get_availability. cbv zeta. rewrite Hstart.
    by rewrite (rollingWindow_invalid s _ Hbad).
  - unfold ServerJs.get_availability, ServerJs.rollingWindow. cbv zeta. rewrite Hstart.
    fold (window_days q). by rewrite (rollingWindow_invalid s _ Hbad).
  - intros q0 Hq0. unfold get_availability. cbv zeta.
    assert (Hd : ∀ dflt, or_else (q_start q0) dflt = or_else (Some dflt) dflt).
    { intros dflt. unfold truthy, or_else in *. destruct (q_start q0) as [s0|].
      - destruct (String.eqb s0 ""); [|done]. by destruct (String.eqb dflt "").
      - by destruct (String.eqb dflt ""). }
    cbn [q_start q_days]. rewrite Hd.
    unfold window_days. cbn [q_days]. done.
Qed.

(** C10, as the code has it: a non-empty [days] parameter that does not
    parse leaves the day count [NaN], the loop makes no pass, and both
    versions answer the empty array whatever the database holds. *)
Theorem unparsable_days_gives_empty_array
    (st : Storage) (now : Z) (q : AvailabilityQuery) (db : Db) (s : string) :
  q_days q = Some s → s ≠ "" → parseInt s = NaN →
  window_days q = NaN
  ∧ trips (window_days q) = 0%nat
  ∧ (∀ i, lt (Int i) (window_days q) = false)
  ∧ (∀ start, rollingWindow start (window_days q) = [])
  ∧ get_availability st now q db = availability_json []
  ∧ ServerJs.get_availability st now q db = availability_json [].
Proof.
  intros Hs Hne Hnan.
  assert (Hd : window_days q = NaN).
  { unfold window_days. rewrite Hs. unfold or_else.
    destruct (String.eqb_spec s ""); [done|]. by rewrite Hnan. }
  assert (Hw : ∀ start, rollingWindow start (window_days q) = []).
  { intros start. unfold rollingWindow. by rewrite Hd. }
  split; [done|]. split; [by rewrite Hd|]. split; [by rewrite Hd|].
  split; [done|]. split.
  - unfold get_availability. cbv zeta. by rewrite Hw.
  - unfold ServerJs.get_availability, ServerJs.rollingWindow. cbv zeta.
    fold (window_days q). by rewrite Hw.
Qed.

End AvailabilityWindow.

Section AvailabilityWindowSamples.
Import Js Pg Server Spec Samples.
#[local] Existing Instance iso_only.

Lemma rollingWindow_weekdays_of_scan_witness :
  Date_at_midnight "2024-06-03" = Some 1717372800000
  ∧ length (raw_scan 1717372800000 5) = 5%nat.
Proof.
  split; [by vm_compute|].
  apply (rollingWindow_weekdays_of_scan "2024-06-03" (Int 5) 1717372800000).
  by vm_compute.
Defined.

Lemma malformed_start_gives_empty_window_witness :
  rollingWindow "garbage" (Int 14) = [].
Proof.
  apply (malformed_start_gives_empty_window schema_sql 1717400000000
           {| q_start := Some "garbage"; q_days := None |} Pg.empty "garbage");
    [done | done | by vm_compute].
Defined.

(** C8 as stated fails: the start [garbage] is malformed, and the window is
    empty, not the window of today; so it is on every engine that makes an
    Invalid Date of the string, as Node does. *)
Lemma malformed_start_is_not_today :
  ¬ (∀ (s : string) (now : Z) (days : Num),
       Date_at_midnight s = None →
       rollingWindow s days = rollingWindow (toISODate (todayCST now)) days)
  ∧ (∀ e : Engine,
       legacy_date (Engine := e) "garbageT00:00:00Z" = None →
       rollingWindow (engine := e) "garbage" (Int 14) = []
       ∧ length (rollingWindow (engine := e) (toISODate (todayCST now0)) (Int 14)) = 10%nat
       ∧ get_availability (engine := e) schema_sql now0
           {| q_start := Some "garbage"; q_days := None |} Pg.empty
         = availability_json []).
Proof.
  split.
  - intros H. specialize (H "garbage" 1717400000000 (Int 14) eq_refl).
    by vm_compute in H.
  - intros e He.
    assert (Hbad : Date_at_midnight (engine := e) "garbage" = None).
    { unfold Date_at_midnight. change (parse_ymd "garbage") with (@None (Z * Z * Z)).
      exact He. }
    split; [by apply rollingWindow_invalid|]. split; [by vm_compute|].
    unfold get_availability. cbv zeta.
    change (or_else (q_start {| q_start := Some "garbage"; q_days := None |})
              (toISODate (todayCST now0))) with "garbage".
    by rewrite (rollingWindow_invalid "garbage" _ Hbad).
Qed.

Lemma unparsable_days_gives_empty_array_witness :
  window_days {| q_start := None; q_days := Some "abc" |} = NaN.
Proof.
  apply (unparsable_days_gives_empty_array schema_sql 1717400000000
           {| q_start := None; q_days := Some "abc" |} Pg.empty "abc");
    [done | done | by vm_compute].
Defined.

(** C10 as stated fails on an empty [days] parameter: it does not parse as
    an integer, yet the handler falls back to 14 days and answers a
    non-empty array. *)
Lemma empty_days_parameter_means_fourteen :
  ¬ (∀ (st : Storage) (now : Z) (q : AvailabilityQuery) (db : Db) (s : string),
       q_days q = Some s → parseInt s = NaN →
       get_availability st now q db = availability_json []).
Proof.
  intros H.
  specialize (H schema_sql 1717400000000 {| q_start := None; q_days := Some "" |}
                Pg.empty "" eq_refl eq_refl).
  by vm_compute in H.
Qed.

End AvailabilityWindowSamples.

(** ** The persistence layer keeps the constraints of schema.sql *)

Section Constraints.
Import Js Pg Server Spec.
Context {engine : Engine}.

Lemma on_slot_true d s b : on_slot d s b = true ↔ date b = d ∧ slot b = s.
Proof.
  unfold on_slot. rewrite andb_true_iff, !bool_decide_eq_true. done.
Qed.

Lemma override_on_slot_true d s o :
  override_on_slot d s o = true ↔ o_date o = d ∧ o_slot o = s.
Proof.
  unfold override_on_slot. rewrite andb_true_iff, !bool_decide_eq_true. done.
Qed.

Lemma existsb_elem_of {A} (p : A → bool) (l : list A) :
  existsb p l = true ↔ ∃ x, x ∈ l ∧ p x = true.
Proof.
  rewrite existsb_exists. split; intros (x & H1 & H2); exists x;
    (split; [by apply list_elem_of_In | done]).
Qed.

Lemma existsb_on_slot db d s :
  existsb (on_slot d s) (bookings db) = true ↔ has_booking db d s.
Proof.
  rewrite existsb_elem_of. unfold has_booking.
  split; intros (b & Hb & H); exists b; (split; [done|]); by apply on_slot_true.
Qed.

Lemma filter_on_slot_nil db d s :
  filter (λ b, on_slot d s b) (bookings db) = [] ↔ ¬ has_booking db d s.
Proof.
  rewrite <- existsb_on_slot. rewrite existsb_elem_of. split.
  - intros Hnil (b & Hb & Hp).
    assert (b ∈ filter (λ b, on_slot d s b) (bookings db)) as Hin
      by (apply list_elem_of_filter; split; [by apply Is_true_true | done]).
    rewrite Hnil in Hin. by apply not_elem_of_nil in Hin.
  - intros Hno. destruct (filter _ _) as [|b l] eqn:E; [done|].
    exfalso. apply Hno. exists b.
    assert (b ∈ filter (λ b, on_slot d s b) (bookings db)) as Hin
      by (rewrite E; left).
    apply list_elem_of_filter in Hin as [Hp Hb]. split; [done|].
    by apply Is_true_true.
Qed.

Lemma keeps_ok_ret {A} st (a : A) : keeps_ok st (ret a).
Proof. intros db db' r Hok [= <- <-]. split; [done | lia]. Qed.

Lemma keeps_ok_throw {A} st e : keeps_ok st (@throw A e).
Proof. intros db db' r Hok [= <- <-]. split; [done | lia]. Qed.

Lemma keeps_ok_bind {A B} st (m : Tx A) (k : A → Tx B) :
  keeps_ok st m → (∀ a, keeps_ok st (k a)) → keeps_ok st (Pg.bind m k).
Proof.
  intros Hm Hk db db' r Hok. unfold Pg.bind.
  destruct (m db) as [db1 [e|a]] eqn:E.
  - intros [= <- <-]. by apply (Hm db db1 (inl e)).
  - intros H. destruct (Hm db db1 (inr a) Hok E) as [Hok1 Hle1].
    destruct (Hk a db1 db' r Hok1 H) as [Hok2 Hle2]. split; [done | lia].
Qed.

Lemma keeps_ok_date_param st s : keeps_ok st (date_param st s).
Proof.
  unfold date_param. destruct (date_in st s); [apply keeps_ok_ret | apply keeps_ok_throw].
Qed.

(** A statement that only reads. *)
Lemma keeps_ok_read {A} st (f : Db → A) : keeps_ok st (λ db, (db, inr (f db))).
Proof. intros db db' r Hok [= <- <-]. split; [done | lia]. Qed.

Lemma keeps_ok_select_booking st date_s slot_s :
  keeps_ok st (select_booking_for_update st date_s slot_s).
Proof.
  apply keeps_ok_bind; [apply keeps_ok_date_param|].
  intros d. apply (keeps_ok_read st (λ db, filter (λ b, on_slot d slot_s b) (bookings db))).
Qed.

Lemma keeps_ok_select_override st date_s slot_s :
  keeps_ok st (select_override st date_s slot_s).
Proof.
  apply keeps_ok_bind; [apply keeps_ok_date_param|].
  intros d.
  apply (keeps_ok_read st (λ db, filter (λ o, override_on_slot d slot_s o) (slot_overrides db))).
Qed.

(** Drawing from the booking sequence. *)
Lemma db_ok_nextval st db :
  db_ok st db →
  db_ok st {| bookings := bookings db; slot_overrides := slot_overrides db;
              bookings_id_seq := bookings_id_seq db + 1;
              slot_overrides_id_seq := slot_overrides_id_seq db |}.
Proof.
  intros [H1 H2 H3 H4 H5 H6 H7]. split; cbn; try done; try lia.
  eapply Forall_impl; [exact H3|]. cbn. intros b Hb. lia.
Qed.

Lemma keeps_ok_insert_booking st now with_email name ph ig mail date_s slot_s :
  keeps_ok st (insert_booking st now with_email name ph ig mail date_s slot_s).
Proof.
  unfold insert_booking.
  destruct (with_email && negb (bookings_email st)); [apply keeps_ok_throw|].
  apply keeps_ok_bind; [apply keeps_ok_date_param|].
  intros d db db' r Hok.
  destruct (max_int4 <? bookings_id_seq db); [intros [= <- <-]; split; [done|lia]|].
  destruct (bool_decide_reflect (slot_s ∈ slot_check st)) as [Hchk|Hchk]; cbn [negb].
  2:{ intros [= <- <-]. split; [by apply db_ok_nextval | cbn; lia]. }
  destruct (existsb (on_slot d slot_s) (bookings db)) eqn:Hex.
  { intros [= <- <-]. split; [by apply db_ok_nextval | cbn; lia]. }
  intros [= <- <-]. split; [|cbn; lia].
  assert (Hfree : ¬ has_booking db d slot_s).
  { intros H. apply existsb_on_slot in H. congruence. }
  destruct Hok as [H1 H2 H3 H4 H5 H6 H7]. split; cbn; try done; try lia.
  - rewrite map_app. apply NoDup_app. split; [done|]. split; [|apply NoDup_singleton].
    intros k Hk Hk'. cbn in Hk'. apply list_elem_of_singleton in Hk' as ->.
    apply list_elem_of_fmap in Hk as (b & [= Hd Hs] & Hb).
    apply Hfree. by exists b.
  - apply Forall_app. split.
    + eapply Forall_impl; [exact H3|]. cbn. intros b Hb. lia.
    + apply Forall_singleton. cbn. lia.
  - rewrite map_app. apply NoDup_app. split; [done|]. split; [|apply NoDup_singleton].
    intros k Hk Hk'. cbn in Hk'. apply list_elem_of_singleton in Hk' as ->.
    apply list_elem_of_fmap in Hk as (b & Hid & Hb).
    rewrite Forall_forall in H3. specialize (H3 b Hb). cbn in H3. lia.
  - apply Forall_app. split; [done|]. by apply Forall_singleton.
Qed.

Lemma keeps_ok_upsert_override st now date_s slot_s v :
  keeps_ok st (upsert_override st now date_s slot_s v).
Proof.
  unfold upsert_override.
  apply keeps_ok_bind; [apply keeps_ok_date_param|].
  intros d db db' r Hok.
  destruct (max_int4 <? slot_overrides_id_seq db); [intros [= <- <-]; split; [done|lia]|].
  destruct (bool_decide_reflect (slot_s ∈ slot_check st)) as [Hchk|Hchk]; cbn [negb].
  2:{ intros [= <- <-]. destruct Hok. split; [split; done | cbn; lia]. }
  intros [= <- <-]. split; [|cbn; lia].
  destruct Hok as [H1 H2 H3 H4 H5 H6 H7]. split; cbn; try done; try lia.
  - destruct (existsb (override_on_slot d slot_s) (slot_overrides db)) eqn:Hex.
    + rewrite map_map.
      erewrite map_ext; [exact H2|].
      intros o. cbn. by destruct (override_on_slot d slot_s o).
    + rewrite map_app. apply NoDup_app. split; [done|]. split; [|apply NoDup_singleton].
      intros k Hk Hk'. cbn in Hk'. apply list_elem_of_singleton in Hk' as ->.
      apply list_elem_of_fmap in Hk as (o & [= Hd Hs] & Ho).
      assert (existsb (override_on_slot d slot_s) (slot_overrides db) = true); [|congruence].
      apply existsb_elem_of. exists o. split; [done|]. by apply override_on_slot_true.
  - destruct (existsb (override_on_slot d slot_s) (slot_overrides db)).
    + apply Forall_fmap. eapply Forall_impl; [exact H6|].
      intros o Ho. cbn. by destruct (override_on_slot d slot_s o).
    + apply Forall_app. split; [done|]. by apply Forall_singleton.
Qed.

Lemma Forall_filter_keep {A} (P : A → Prop) (p : A → bool) (l : list A) :
  Forall P l → Forall P (filter (λ x, p x) l).
Proof.
  rewrite !list.Forall_forall. intros H x Hx.
  apply list_elem_of_filter in Hx as [_ Hx]. by apply H.
Qed.

Lemma db_ok_filter_bookings st db (p : Booking → bool) :
  db_ok st db →
  db_ok st {| bookings := filter (λ b, p b) (bookings db);
              slot_overrides := slot_overrides db;
              bookings_id_seq := bookings_id_seq db;
              slot_overrides_id_seq := slot_overrides_id_seq db |}.
Proof.
  intros [H1 H2 H3 H4 H5 H6 H7]. split; cbn; try done; try lia.
  - eapply sublist_NoDup; [exact H1|]. apply fmap_sublist, sublist_filter.
  - by apply Forall_filter_keep.
  - eapply sublist_NoDup; [exact H4|]. apply fmap_sublist, sublist_filter.
  - by apply Forall_filter_keep.
Qed.

Lemma keeps_ok_delete_booking_where st date_s slot_s ph ig :
  keeps_ok st (delete_booking_where st date_s slot_s ph ig).
Proof.
  unfold delete_booking_where.
  apply keeps_ok_bind; [apply keeps_ok_date_param|].
  intros d db db' r Hok [= <- <-]. split; [|cbn; lia].
  by apply (db_ok_filter_bookings st db (λ b, negb (admin_block_match d slot_s ph ig b))).
Qed.

Lemma keeps_ok_delete_booking_by_id st n : keeps_ok st (delete_booking_by_id n).
Proof.
  intros db db' r Hok. unfold delete_booking_by_id.
  destruct ((max_int4 <? n) || (n <? - max_int4 - 1)); intros [= <- <-];
    (split; [|cbn; lia]); [done|].
  by apply (db_ok_filter_bookings st db (λ b, negb (bool_decide (id b = n)))).
Qed.

Lemma db_ok_rollback st db db' :
  db_ok st db → bookings_id_seq db ≤ bookings_id_seq db' → db_ok st (rollback db db').
Proof.
  intros [H1 H2 H3 H4 H5 H6 H7] Hle. split; cbn; try done; try lia.
  eapply Forall_impl; [exact H3|]. cbn. intros b Hb. lia.
Qed.

Lemma keeps_ok_withTx {A} st (fn : Tx A) : keeps_ok st fn → keeps_ok st (withTx fn).
Proof.
  intros Hfn db db' r Hok. unfold withTx.
  destruct (fn db) as [db1 [e|a]] eqn:E.
  - destruct (Hfn db db1 (inl e) Hok E) as [Hok1 Hle].
    intros [= <- <-]. split; [by apply db_ok_rollback | done].
  - intros [= <- <-]. by apply (Hfn db db1 (inr a)).
Qed.

(** A rolled-back transaction leaves both tables as they were. *)
Lemma withTx_throw_tables {A} (fn : Tx A) db db' e :
  withTx fn db = (db', inl e) →
  bookings db' = bookings db ∧ slot_overrides db' = slot_overrides db.
Proof.
  unfold withTx. destruct (fn db) as [db1 [e1|a]]; [|done].
  by intros [= <- <-].
Qed.

End Constraints.

(** ** Every handler keeps the constraints *)

Section Handlers.
Import Js Pg Server Spec.
Context {engine : Engine}.

Lemma keeps_ok_book_tx st now name ph ig mail date_s slot_s :
  keeps_ok st (book_tx st now name ph ig mail date_s slot_s).
Proof.
  unfold book_tx.
  apply keeps_ok_bind; [apply keeps_ok_select_booking|]. intros q.
  destruct (0 <? length q)%nat; [apply keeps_ok_throw|].
  apply keeps_ok_bind; [apply keeps_ok_select_override|]. intros o.
  destruct (match o with row0 :: _ => negb (is_open row0) | [] => false end);
    [apply keeps_ok_throw|].
  apply keeps_ok_bind; [apply keeps_ok_insert_booking|]. intros ins.
  apply keeps_ok_ret.
Qed.

Lemma keeps_ok_book_tx_v1 st now name ph ig date_s slot_s :
  keeps_ok st (ServerJs.book_tx st now name ph ig date_s slot_s).
Proof.
  unfold ServerJs.book_tx.
  apply keeps_ok_bind; [apply keeps_ok_select_booking|]. intros q.
  destruct (0 <? length q)%nat; [apply keeps_ok_throw|].
  apply keeps_ok_bind; [apply keeps_ok_select_override|]. intros o.
  destruct (match o with row0 :: _ => negb (is_open row0) | [] => false end);
    [apply keeps_ok_throw|].
  apply keeps_ok_bind; [apply keeps_ok_insert_booking|]. intros ins.
  apply keeps_ok_ret.
Qed.

Lemma keeps_ok_slot_tx st now date_s slot_s v :
  keeps_ok st (slot_tx st now date_s slot_s v).
Proof.
  unfold slot_tx.
  apply keeps_ok_bind; [apply keeps_ok_upsert_override|]. intros _.
  destruct v.
  - apply keeps_ok_bind; [apply keeps_ok_delete_booking_where|]. intros del.
    apply keeps_ok_ret.
  - apply keeps_ok_bind; [apply keeps_ok_select_booking|]. intros ex.
    destruct (length ex =? 0)%nat; [|apply keeps_ok_ret].
    apply keeps_ok_bind; [apply keeps_ok_insert_booking|]. intros ins.
    apply keeps_ok_ret.
Qed.

Lemma post_book_ok st now db_now body db : db_ok st db → db_ok st (post_book st now db_now body db).1.
Proof.
  intros Hok. unfold post_book.
  destruct (_ || _); [done|]. cbv zeta.
  destruct (negb _); [done|].
  match goal with |- db_ok st (match ?tx db with _ => _ end).1 =>
    destruct (tx db) as [db' r] eqn:E;
    assert (db_ok st db') by (eapply (keeps_ok_withTx st _ (keeps_ok_book_tx _ _ _ _ _ _ _ _)); eauto)
  end.
  by destruct r.
Qed.

Lemma post_book_v1_ok st now db_now body db :
  db_ok st db → db_ok st (ServerJs.post_book st now db_now body db).1.
Proof.
  intros Hok. unfold ServerJs.post_book.
  destruct (_ || _); [done|]. cbv zeta.
  destruct (negb _); [done|].
  match goal with |- db_ok st (match ?tx db with _ => _ end).1 =>
    destruct (tx db) as [db' r] eqn:E;
    assert (db_ok st db') by (eapply (keeps_ok_withTx st _ (keeps_ok_book_tx_v1 _ _ _ _ _ _ _)); eauto)
  end.
  by destruct r.
Qed.

Lemma post_admin_api_slot_ok st now body db :
  db_ok st db → db_ok st (post_admin_api_slot st now body db).1.
Proof.
  intros Hok. unfold post_admin_api_slot.
  destruct (_ || _); [done|].
  match goal with |- db_ok st (match ?tx db with _ => _ end).1 =>
    destruct (tx db) as [db' r] eqn:E;
    assert (db_ok st db') by (eapply (keeps_ok_withTx st _ (keeps_ok_slot_tx _ _ _ _ _)); eauto)
  end.
  by destruct r.
Qed.

Lemma post_admin_api_slot_v1_ok st now body db :
  db_ok st db → db_ok st (ServerJs.post_admin_api_slot st now body db).1.
Proof.
  intros Hok. unfold ServerJs.post_admin_api_slot.
  destruct (_ || _); [done|].
  match goal with |- db_ok st (match ?tx db with _ => _ end).1 =>
    destruct (tx db) as [db' r] eqn:E;
    assert (db_ok st db') by (eapply (keeps_ok_withTx st _ (keeps_ok_upsert_override _ _ _ _ _)); eauto)
  end.
  by destruct r.
Qed.

Lemma delete_admin_api_booking_ok st n db :
  db_ok st db → db_ok st (delete_admin_api_booking n db).1.
Proof.
  intros Hok. unfold delete_admin_api_booking.
  destruct n as [|k]; [done|]. destruct (negb _); [done|].
  destruct (pool_query (delete_booking_by_id k) db) as [db' r] eqn:E.
  assert (db_ok st db')
    by (eapply (keeps_ok_withTx st _ (keeps_ok_delete_booking_by_id st k)); eauto).
  destruct r as [e|c]; [done|]. by destruct (c =? 0)%nat.
Qed.

Lemma delete_admin_api_booking_v1_ok st param db :
  db_ok st db → db_ok st (ServerJs.delete_admin_api_booking param db).1.
Proof.
  intros Hok. unfold ServerJs.delete_admin_api_booking.
  destruct (parseInt param) as [|k]; [done|]. destruct (k =? 0); [done|].
  destruct (pool_query (delete_booking_by_id k) db) as [db' r] eqn:E.
  assert (db_ok st db')
    by (eapply (keeps_ok_withTx st _ (keeps_ok_delete_booking_by_id st k)); eauto).
  destruct r as [e|c]; [done|]. by destruct (c =? 0)%nat.
Qed.

Lemma empty_ok st : db_ok st Pg.empty.
Proof. split; cbn; try done; try apply NoDup_nil_2. Qed.

(** The constraints of schema.sql hold in every reachable state. *)
Lemma reachable_ok st db : reachable st db → db_ok st db.
Proof.
  induction 1 as [|db r Hr IH]; [apply empty_ok|].
  destruct r; cbn [handle].
  - by apply post_book_ok.
  - by apply post_admin_api_slot_ok.
  - by apply delete_admin_api_booking_ok.
  - by apply post_book_v1_ok.
  - by apply post_admin_api_slot_v1_ok.
  - by apply delete_admin_api_booking_v1_ok.
Qed.

End Handlers.

(** ** What the transactions do *)

Section Transactions.
Import Js Pg Server Spec.
Context {engine : Engine}.

Lemma filter_length_pos {A} (p : A → bool) (l : list A) :
  (0 <? length (filter (λ x, p x) l))%nat = existsb p l.
Proof.
  induction l as [|x l IH]; [done|].
  rewrite filter_cons. cbn [existsb]. destruct (p x) eqn:E.
  - by rewrite decide_True by by apply Is_true_true.
  - by rewrite decide_False by by apply Is_true_false.
Qed.

Lemma filter_length_zero {A} (p : A → bool) (l : list A) :
  (length (filter (λ x, p x) l) =? 0)%nat = negb (existsb p l).
Proof.
  rewrite <- filter_length_pos. by destruct (length _).
Qed.

(** The transaction of POST /book, statement by statement. *)
Lemma book_tx_run st now name ph ig mail date_s slot_s db :
  book_tx st now name ph ig mail date_s slot_s db =
  match date_in st date_s with
  | None => (db, inl (DatabaseError invalid_datetime_format))
  | Some d =>
      if existsb (on_slot d slot_s) (bookings db)
      then (db, inl (Error "Ese turno ya fue reservado"))
      else
        if match filter (λ o, override_on_slot d slot_s o) (slot_overrides db) with
           | row0 :: _ => negb (is_open row0)
           | [] => false
           end
        then (db, inl (Error "Ese turno está cerrado"))
        else
          match insert_booking st now true name ph ig mail date_s slot_s db with
          | (db', inr ins) => (db', inr ins)
          | (db', inl e) => (db', inl e)
          end
  end.
Proof.
  unfold book_tx, select_booking_for_update, select_override, Pg.bind, date_param.
  destruct (date_in st date_s) as [d|]; [|done]. cbn [ret].
  rewrite filter_length_pos.
  destruct (existsb (on_slot d slot_s) (bookings db)); [done|].
  destruct (match filter _ (slot_overrides db) with _ :: _ => _ | [] => _ end); [done|].
  by destruct (insert_booking _ _ _ _ _ _ _ _ _ db) as [db' [e|ins]].
Qed.

Lemma book_tx_v1_run st now name ph ig date_s slot_s db :
  ServerJs.book_tx st now name ph ig date_s slot_s db =
  match date_in st date_s with
  | None => (db, inl (DatabaseError invalid_datetime_format))
  | Some d =>
      if existsb (on_slot d slot_s) (bookings db)
      then (db, inl (Error "Ese turno ya fue reservado"))
      else
        if match filter (λ o, override_on_slot d slot_s o) (slot_overrides db) with
           | row0 :: _ => negb (is_open row0)
           | [] => false
           end
        then (db, inl (Error "Ese turno está cerrado"))
        else
          match insert_booking st now false name ph ig None date_s slot_s db with
          | (db', inr ins) => (db', inr ins)
          | (db', inl e) => (db', inl e)
          end
  end.
Proof.
  unfold ServerJs.book_tx, select_booking_for_update, select_override, Pg.bind, date_param.
  destruct (date_in st date_s) as [d|]; [|done]. cbn [ret].
  rewrite filter_length_pos.
  destruct (existsb (on_slot d slot_s) (bookings db)); [done|].
  destruct (match filter _ (slot_overrides db) with _ :: _ => _ | [] => _ end); [done|].
  by destruct (insert_booking _ _ _ _ _ _ _ _ _ db) as [db' [e|ins]].
Qed.

(** POST /book splits on [book_request_valid]. *)
Lemma post_book_valid st now db_now body db :
  book_request_valid now body = true →
  post_book st now db_now body db =
  match withTx (book_tx st db_now (str (r_full_name body)) (str (r_phone body))
                  (str (r_instagram body))
                  (if truthy (r_email body) then r_email body else None)
                  (str (r_date body)) (str (r_slot body))) db with
  | (db', inr result) => (db', booked_json (id result) (created_at result))
  | (db', inl e) => (db', error_json 409 e)
  end.
Proof.
  unfold book_request_valid, post_book. rewrite !andb_true_iff.
  intros [[[[[-> ->] ->] ->] ->] ->]. done.
Qed.

Lemma post_book_invalid st now db_now body db :
  book_request_valid now body = false →
  ∃ m, post_book st now db_now body db = (db, error_json 400 (Error m)).
Proof.
  unfold book_request_valid, post_book. cbv zeta.
  destruct (truthy (r_full_name body)), (truthy (r_phone body)),
    (truthy (r_instagram body)), (truthy (r_date body)),
    (includes SLOT_KEYS (r_slot body)); cbn [andb orb negb]; try by eexists.
  intros ->. by eexists.
Qed.

Lemma post_admin_api_slot_valid st now body db :
  slot_request_valid body = true →
  post_admin_api_slot st now body db =
  match withTx (slot_tx st now (str (s_date body)) (str (s_slot body))
                  (default false (s_is_open body))) db with
  | (db', inr result) => (db', result)
  | (db', inl e) => (db', error_json 500 (Error "No se pudo actualizar el cupo"))
  end.
Proof.
  unfold slot_request_valid, post_admin_api_slot. rewrite !andb_true_iff.
  intros [[-> ->] ->]. done.
Qed.

Lemma post_admin_api_slot_invalid st now body db :
  slot_request_valid body = false →
  post_admin_api_slot st now body db = (db, error_json 400 (Error "Datos inválidos")).
Proof.
  unfold slot_request_valid, post_admin_api_slot.
  destruct (truthy (s_date body)), (includes SLOT_KEYS (s_slot body));
    cbn [andb orb negb]; try done.
  by intros ->.
Qed.

(** The CHECK of schema.sql refuses every row for a slot outside its list. *)
Lemma insert_booking_refused st now with_email name ph ig mail date_s slot_s db :
  slot_s ∉ slot_check st →
  ∃ db' c, insert_booking st now with_email name ph ig mail date_s slot_s db
           = (db', inl (DatabaseError c))
           ∧ bookings db' = bookings db ∧ slot_overrides db' = slot_overrides db.
Proof.
  intros Hs. unfold insert_booking.
  destruct (with_email && negb (bookings_email st)); [by eexists _, _|].
  unfold Pg.bind, date_param. destruct (date_in st date_s) as [d|]; [|by eexists _, _].
  cbn [ret]. destruct (max_int4 <? bookings_id_seq db); [by eexists _, _|].
  rewrite bool_decide_eq_false_2 by done. cbn [negb]. by eexists _, _.
Qed.

Lemma upsert_override_refused st now date_s slot_s v db :
  slot_s ∉ slot_check st →
  ∃ db' c, upsert_override st now date_s slot_s v db = (db', inl (DatabaseError c))
           ∧ bookings db' = bookings db ∧ slot_overrides db' = slot_overrides db.
Proof.
  intros Hs. unfold upsert_override.
  unfold Pg.bind, date_param. destruct (date_in st date_s) as [d|]; [|by eexists _, _].
  cbn [ret]. destruct (max_int4 <? slot_overrides_id_seq db); [by eexists _, _|].
  rewrite bool_decide_eq_false_2 by done. cbn [negb]. by eexists _, _.
Qed.

End Transactions.

(** ** Slot C against CHECK (slot IN ('A','B')) *)

Section SlotC.
Import Js Pg Server Spec.
Context {engine : Engine}.

Lemma existsb_false_Forall {A} (p : A → bool) (l : list A) :
  Forall (λ x, p x = false) l → existsb p l = false.
Proof. induction 1 as [|x l Hx _ IH]; [done|]. cbn. by rewrite Hx, IH. Qed.

Lemma filter_nil_Forall {A} (p : A → bool) (l : list A) :
  Forall (λ x, p x = false) l → filter (λ x, p x) l = [].
Proof.
  induction 1 as [|x l Hx _ IH]; [done|].
  rewrite filter_cons, decide_False by by apply Is_true_false. done.
Qed.

(** C9: under the CHECK of schema.sql every stored row has slot A or B in
    every reachable state, although the server accepts the key C; a request
    for slot C that passes validation always has its insert refused by the
    storage layer, and no row is written. *)
Theorem slot_C_is_never_stored (st : Storage) (db : Db) :
  slot_check st = ["A"; "B"] → reachable st db →
  Forall (λ b, slot b = "A" ∨ slot b = "B") (bookings db)
  ∧ Forall (λ o, o_slot o = "A" ∨ o_slot o = "B") (slot_overrides db)
  ∧ includes SLOT_KEYS (Some "C") = true
  ∧ (∀ now with_email name ph ig mail date_s db0,
       ∃ db1 c, insert_booking st now with_email name ph ig mail date_s "C" db0
                = (db1, inl (DatabaseError c))
                ∧ bookings db1 = bookings db0 ∧ slot_overrides db1 = slot_overrides db0)
  ∧ (∀ now date_s v db0,
       ∃ db1 c, upsert_override st now date_s "C" v db0 = (db1, inl (DatabaseError c))
                ∧ bookings db1 = bookings db0 ∧ slot_overrides db1 = slot_overrides db0)
  ∧ (∀ now db_now body, r_slot body = Some "C" → book_request_valid now body = true →
       ∃ db' c, post_book st now db_now body db = (db', error_json 409 (DatabaseError c))
                ∧ bookings db' = bookings db ∧ slot_overrides db' = slot_overrides db)
  ∧ (∀ now body, s_slot body = Some "C" → slot_request_valid body = true →
       ∃ db', post_admin_api_slot st now body db
              = (db', error_json 500 (Error "No se pudo actualizar el cupo"))
              ∧ bookings db' = bookings db ∧ slot_overrides db' = slot_overrides db).
Proof.
  intros Hchk Hreach.
  pose proof (reachable_ok st db Hreach) as [_ _ _ _ Hb Ho _].
  rewrite Hchk in Hb, Ho.
  assert (HC : "C" ∉ slot_check st).
  { rewrite Hchk. rewrite !elem_of_cons, elem_of_nil. by intros [|[|]]. }
  assert (Hb' : Forall (λ b, slot b = "A" ∨ slot b = "B") (bookings db)).
  { eapply Forall_impl; [exact Hb|]. intros b H. cbn in H.
    rewrite !elem_of_cons, elem_of_nil in H. tauto. }
  assert (Ho' : Forall (λ o, o_slot o = "A" ∨ o_slot o = "B") (slot_overrides db)).
  { eapply Forall_impl; [exact Ho|]. intros o H. cbn in H.
    rewrite !elem_of_cons, elem_of_nil in H. tauto. }
  split; [done|]. split; [done|]. split; [done|].
  split; [intros; by apply insert_booking_refused|].
  split; [intros; by apply upsert_override_refused|].
  split.
  - intros now db_now body Hslot Hvalid.
    rewrite (post_book_valid st now db_now body db Hvalid).
    unfold withTx. rewrite book_tx_run. rewrite Hslot.
    change (str (Some "C")) with "C".
    destruct (date_in st (str (r_date body))) as [d|]; [|by eexists _, _].
    rewrite existsb_false_Forall.
    2:{ eapply Forall_impl; [exact Hb'|]. intros b [H|H]; unfold on_slot;
          rewrite H; by rewrite andb_false_r. }
    rewrite filter_nil_Forall.
    2:{ eapply Forall_impl; [exact Ho'|]. intros o [H|H]; unfold override_on_slot;
          rewrite H; by rewrite andb_false_r. }
    edestruct (insert_booking_refused st db_now true) as (db1 & c & -> & H1 & H2); [exact HC|].
    by eexists _, _.
  - intros now body Hslot Hvalid.
    rewrite (post_admin_api_slot_valid st now body db Hvalid).
    unfold withTx, slot_tx, Pg.bind. rewrite Hslot.
    change (str (Some "C")) with "C".
    edestruct (upsert_override_refused st now) as (db1 & c & -> & H1 & H2); [exact HC|].
    by eexists.
Qed.

End SlotC.

Section SlotCSamples.
Import Js Pg Server Spec Samples.
#[local] Existing Instance iso_only.

Lemma slot_C_is_never_stored_witness :
  slot_check schema_sql_email = ["A"; "B"]
  ∧ reachable schema_sql_email
      (handle schema_sql_email (Book now0 db_now0 ana_C)
         (handle schema_sql_email (SetSlot db_now0 close_C)
            (handle schema_sql_email (Book now0 db_now0 ana) Pg.empty).1).1).1
  ∧ map slot
      (bookings
         (handle schema_sql_email (Book now0 db_now0 ana_C)
            (handle schema_sql_email (SetSlot db_now0 close_C)
               (handle schema_sql_email (Book now0 db_now0 ana) Pg.empty).1).1).1)
    = ["A"]
  ∧ Forall (λ b, slot b = "A" ∨ slot b = "B")
      (bookings
         (handle schema_sql_email (Book now0 db_now0 ana_C)
            (handle schema_sql_email (SetSlot db_now0 close_C)
               (handle schema_sql_email (Book now0 db_now0 ana) Pg.empty).1).1).1)
  ∧ ∃ c, (post_book schema_sql_email now0 db_now0 ana_C
            (handle schema_sql_email (Book now0 db_now0 ana_C)
               (handle schema_sql_email (SetSlot db_now0 close_C)
                  (handle schema_sql_email (Book now0 db_now0 ana) Pg.empty).1).1).1).2
         = error_json 409 (DatabaseError c).
Proof.
  assert (Hchk : slot_check schema_sql_email = ["A"; "B"]) by reflexivity.
  assert (Hr : reachable schema_sql_email
                 (handle schema_sql_email (Book now0 db_now0 ana_C)
                    (handle schema_sql_email (SetSlot db_now0 close_C)
                       (handle schema_sql_email (Book now0 db_now0 ana) Pg.empty).1).1).1).
  { do 3 apply reachable_step. apply reachable_empty. }
  assert (Hvalid : book_request_valid now0 ana_C = true) by (by vm_compute).
  split; [exact Hchk|]. split; [exact Hr|]. split; [by vm_compute|].
  destruct (slot_C_is_never_stored schema_sql_email _ Hchk Hr)
    as (Hrows & _ & _ & _ & _ & Hbook & _).
  split; [exact Hrows|].
  destruct (Hbook now0 db_now0 ana_C eq_refl Hvalid) as (db' & c & Hpost & _).
  exists c. by rewrite Hpost.
Defined.

End SlotCSamples.

(** ** The availability view *)

Section View.
Import Js Pg Server Spec.
Context {engine : Engine}.

Lemma get_set_prop_eq props s v : get_prop (set_prop props s v) s = Some v.
Proof.
  induction props as [|[k w] r IH]; cbn.
  - by rewrite String.eqb_refl.
  - destruct (String.eqb k s) eqn:E; cbn; rewrite E; [done | exact IH].
Qed.

Lemma get_set_prop_ne props s s' v :
  s ≠ s' → get_prop (set_prop props s v) s' = get_prop props s'.
Proof.
  intros Hne. induction props as [|[k w] r IH]; cbn.
  - by destruct (String.eqb_spec s s').
  - destruct (String.eqb_spec k s) as [->|Hk]; cbn.
    + by destruct (String.eqb_spec s s').
    + destruct (String.eqb_spec k s'); [done | exact IH].
Qed.

Lemma get_prop_loop_other (f : string → SlotView) (l : list string) (s : string) : ∀ o0,
  s ∉ l → get_prop (foldl (λ o s, set_prop o s (f s)) o0 l) s = get_prop o0 s.
Proof.
  induction l as [|y l IH]; intros o0 Hs; [done|].
  apply not_elem_of_cons in Hs as [Hy Hl]. cbn [foldl].
  rewrite (IH _ Hl). by apply get_set_prop_ne.
Qed.

(** After the loop over [order], the property of each slot in [order] is
    the view built for it. *)
Lemma day_view_slot (f : string → SlotView) (order : list string) (s : string) : ∀ o0,
  s ∈ order →
  get_prop (foldl (λ o s, set_prop o s (f s)) o0 order) s = Some (f s).
Proof.
  induction order as [|x l IH]; intros o0 Hs; [by apply elem_of_nil in Hs|].
  cbn [foldl]. destruct (decide (s ∈ l)) as [Hl|Hl]; [by apply IH|].
  apply elem_of_cons in Hs as [->|Hs]; [|done].
  rewrite (get_prop_loop_other f l x _ Hl). apply get_set_prop_eq.
Qed.

(** Under a uniqueness constraint, two rows with one key are one row. *)
Lemma NoDup_fmap_same {A B} (f : A → B) (l : list A) x y :
  NoDup (map f l) → x ∈ l → y ∈ l → f x = f y → x = y.
Proof.
  induction l as [|a l IH]; intros Hnd Hx Hy Hf; [by apply elem_of_nil in Hx|].
  cbn in Hnd. apply NoDup_cons in Hnd as [Ha Hnd].
  apply elem_of_cons in Hx as [->|Hx]; apply elem_of_cons in Hy as [->|Hy]; try done.
  - exfalso. apply Ha. rewrite Hf. apply list_elem_of_fmap. by exists y.
  - exfalso. apply Ha. rewrite <- Hf. apply list_elem_of_fmap. by exists x.
  - by apply IH.
Qed.

Lemma pool_query_read {A} (f : Db → A) db :
  pool_query (λ db, (db, inr (f db))) db = (db, inr (f db)).
Proof. done. Qed.

Lemma select_bookings_between_run st lo hi db :
  cast_agrees st lo → cast_agrees st hi →
  pool_query (select_bookings_between st date_out (date_text lo) (date_text hi)) db
  = (db, inr (map (λ b, (date_out (date b), slot b))
                  (filter (λ b, (lo <=? date b) && (date b <=? hi)) (bookings db)))).
Proof.
  unfold cast_agrees, pool_query, withTx, select_bookings_between, Pg.bind, date_param.
  by intros -> ->.
Qed.

Lemma select_overrides_between_run st lo hi db :
  cast_agrees st lo → cast_agrees st hi →
  pool_query (select_overrides_between st date_out (date_text lo) (date_text hi)) db
  = (db, inr (map (λ o, (date_out (o_date o), o_slot o, is_open o))
                  (filter (λ o, (lo <=? o_date o) && (o_date o <=? hi))
                          (slot_overrides db)))).
Proof.
  unfold cast_agrees, pool_query, withTx, select_overrides_between, Pg.bind, date_param.
  by intros -> ->.
Qed.

(** The booked set holds the key the handler builds for (d, s) exactly
    when a Booking is on (d, s) and the database writes [d] as the handler
    does. *)
Lemma bookedSet_has db lo hi d s :
  lo ≤ d ≤ hi →
  slot_key (date_text d) s
  ∈ make_bookedSet (map (λ b, (date_out (date b), slot b))
                        (filter (λ b, (lo <=? date b) && (date b <=? hi)) (bookings db)))
  ↔ has_booking db d s ∧ text_agrees d.
Proof.
  intros Hr. unfold make_bookedSet, has_booking.
  rewrite elem_of_list_to_set, map_map. rewrite list_elem_of_fmap. split.
  - intros (b & Hk & Hb). apply list_elem_of_filter in Hb as [_ Hb].
    cbn [fst snd] in Hk. symmetry in Hk. apply window_key_row in Hk as (Hd & Hs & Ht).
    split; [by exists b | done].
  - intros [(b & Hb & <- & <-) Ht]. exists b. unfold text_agrees in Ht.
    split; [cbn [fst snd]; by rewrite Ht|].
    apply list_elem_of_filter. split; [|done].
    apply Is_true_true, andb_true_iff. rewrite !Z.leb_le. lia.
Qed.

Lemma make_overrideMp_snoc rows o :
  make_overrideMp (rows ++ [o]) = <[slot_key o.1.1 o.1.2 := o.2]> (make_overrideMp rows).
Proof. unfold make_overrideMp. by rewrite foldl_app. Qed.

Lemma overrideMp_none rows k :
  make_overrideMp rows !! k = None ↔ ∀ o, o ∈ rows → slot_key o.1.1 o.1.2 ≠ k.
Proof.
  induction rows as [|o rows IH] using rev_ind.
  - split; [intros _ o Ho; by apply elem_of_nil in Ho | done].
  - rewrite make_overrideMp_snoc. rewrite lookup_insert_None, IH. split.
    + intros [H1 H2] o' Ho'. apply elem_of_app in Ho' as [Ho'|Ho']; [by apply H1|].
      by apply list_elem_of_singleton in Ho' as ->.
    + intros H. split.
      * intros o' Ho'. apply H, elem_of_app. by left.
      * apply H, elem_of_app. right. by apply list_elem_of_singleton.
Qed.

(** The map gives a key the value its rows agree on. *)
Lemma overrideMp_value rows k v :
  (∃ o, o ∈ rows ∧ slot_key o.1.1 o.1.2 = k) →
  (∀ o, o ∈ rows → slot_key o.1.1 o.1.2 = k → o.2 = v) →
  make_overrideMp rows !! k = Some v.
Proof.
  induction rows as [|o' rows IH] using rev_ind; intros (o & Ho & Hk) Hall.
  - by apply elem_of_nil in Ho.
  - rewrite make_overrideMp_snoc.
    destruct (decide (slot_key o'.1.1 o'.1.2 = k)) as [Hk'|Hk'].
    + rewrite Hk', lookup_insert_eq. f_equal. apply Hall; [|done].
      apply elem_of_app. right. apply list_elem_of_here.
    + rewrite lookup_insert_ne by done. apply IH.
      * apply elem_of_app in Ho as [Ho|Ho]; [by exists o|].
        apply list_elem_of_singleton in Ho as ->. done.
      * intros o2 Ho2. apply Hall, elem_of_app. by left.
Qed.

(** Every date of a sorted list lies between its first and its last. *)
Lemma sorted_first_last (l : list Z) : ∀ d0 dflt x,
  StronglySorted Z.lt (d0 :: l) → x ∈ d0 :: l → d0 ≤ x ≤ List.last (d0 :: l) dflt.
Proof.
  induction l as [|d1 l IH]; intros d0 dflt x Hs Hx.
  - apply list_elem_of_singleton in Hx as ->. cbn. lia.
  - apply StronglySorted_inv in Hs as [Hs Hlt].
    change (List.last (d0 :: d1 :: l) dflt) with (List.last (d1 :: l) dflt).
    assert (Hd1 : d0 < d1) by (apply Forall_cons in Hlt as [? _]; done).
    apply elem_of_cons in Hx as [->|Hx].
    + specialize (IH d1 dflt d1 Hs (list_elem_of_here _ _)). lia.
    + specialize (IH d1 dflt x Hs Hx). lia.
Qed.

Lemma window_day_numbers_sorted startStr days :
  StronglySorted Z.lt (window_day_numbers startStr days).
Proof.
  unfold window_day_numbers.
  destruct (Date_at_midnight startStr) as [t|]; [|constructor].
  unfold raw_scan. generalize (trips days) as n. intros n.
  assert (H : ∀ i, StronglySorted Z.lt
                (omap (λ d : Date, if isWeekday d then Day <$> d else None)
                   (map (λ k : nat, TimeClip (t + Z.of_nat k * msPerDay)) (seq i n)))
              ∧ Forall (λ d, Day t + Z.of_nat i ≤ d)
                (omap (λ d : Date, if isWeekday d then Day <$> d else None)
                   (map (λ k : nat, TimeClip (t + Z.of_nat k * msPerDay)) (seq i n))));
    [|apply H].
  induction n as [|n IH]; intros i; [split; constructor|].
  cbn [seq map omap list_omap]. destruct (IH (S i)) as [IH1 IH2].
  destruct (isWeekday _) eqn:Hw; [|split; [done|]].
  - unfold TimeClip in *. destruct (Z.abs _ <=? maxTime); [|done].
    cbn [fmap option_fmap option_map]. rewrite Day_advance. split.
    + constructor; [done|]. eapply Forall_impl; [exact IH2|]. cbn. lia.
    + constructor; [lia|]. eapply Forall_impl; [exact IH2|]. cbn. lia.
  - eapply Forall_impl; [exact IH2|]. cbn. lia.
Qed.

Lemma last_map {A B} (f : A → B) (l : list A) (x : A) :
  List.last (map f l) (f x) = f (List.last l x).
Proof.
  induction l as [|a l IH]; [done|]. destruct l as [|b l]; [done|]. exact IH.
Qed.

Lemma last_elem_of {A} (l : list A) : ∀ a dflt, List.last (a :: l) dflt ∈ a :: l.
Proof.
  induction l as [|b l IH]; intros a dflt; [apply list_elem_of_here|].
  apply list_elem_of_further. apply (IH b).
Qed.

(** The view the handler builds for one slot of one date of its window:
    the view of the specification where the database writes the date as
    the handler does; open and not booked, whatever the tables hold, where
    it does not. *)
Lemma slot_view_correct db labels lo hi d s :
  NoDup (map (λ o, (o_date o, o_slot o)) (slot_overrides db)) →
  lo ≤ d ≤ hi →
  let v := slot_view labels
       (make_bookedSet (map (λ b, (date_out (date b), slot b))
          (filter (λ b, (lo <=? date b) && (date b <=? hi)) (bookings db))))
       (make_overrideMp (map (λ o, (date_out (o_date o), o_slot o, is_open o))
          (filter (λ o, (lo <=? o_date o) && (o_date o <=? hi)) (slot_overrides db))))
       (date_text d) s in
  (text_agrees d → view_of db d s v)
  ∧ (¬ text_agrees d → booked v = false ∧ open v = true).
Proof.
  intros Hnd Hr. unfold slot_view. cbv zeta.
  set (bs := make_bookedSet _). set (rows := map _ (filter _ (slot_overrides db))).
  assert (Hb : bool_decide (slot_key (date_text d) s ∈ bs) = true
               ↔ has_booking db d s ∧ text_agrees d).
  { rewrite bool_decide_eq_true. by apply bookedSet_has. }
  assert (Hkey : ∀ r, r ∈ rows → slot_key r.1.1 r.1.2 = slot_key (date_text d) s →
                 text_agrees d
                 ∧ ∃ o, o ∈ slot_overrides db ∧ o_date o = d ∧ o_slot o = s
                        ∧ r.2 = is_open o).
  { intros r Hr' Hk. apply list_elem_of_fmap in Hr' as (o & -> & Ho).
    apply list_elem_of_filter in Ho as [_ Ho]. cbn [fst snd] in Hk.
    apply window_key_row in Hk as (Hd & Hs & Ht). split; [done|]. by exists o. }
  assert (Hrow : text_agrees d →
                 ∀ o, o ∈ slot_overrides db → o_date o = d → o_slot o = s →
                 make_overrideMp rows !! slot_key (date_text d) s = Some (is_open o)).
  { intros Ht o Ho Hd Hs. apply overrideMp_value.
    - exists (date_out (o_date o), o_slot o, is_open o). split.
      + apply list_elem_of_fmap. exists o. split; [done|].
        apply list_elem_of_filter. split; [|done].
        apply Is_true_true, andb_true_iff. rewrite !Z.leb_le. lia.
      + unfold text_agrees in Ht. cbn [fst snd]. by rewrite Hd, Hs, Ht.
    - intros r Hr' Hk. destruct (Hkey r Hr' Hk) as (_ & o' & Ho' & Hd' & Hs' & ->).
      f_equal. apply (NoDup_fmap_same (λ o, (o_date o, o_slot o)) (slot_overrides db));
        try done. cbn. congruence. }
  assert (Hnone : (∀ o, o ∈ slot_overrides db → ¬ (o_date o = d ∧ o_slot o = s))
                  ∨ ¬ text_agrees d →
                  make_overrideMp rows !! slot_key (date_text d) s = None).
  { intros Hno. apply overrideMp_none. intros r Hr' Hk.
    destruct (Hkey r Hr' Hk) as (Ht & o & Ho & Hd & Hs & _).
    destruct Hno as [Hno|Hno]; [by apply (Hno o Ho) | done]. }
  cbn [open booked]. split.
  - intros Ht. unfold view_of. cbn [open booked]. split; [|split; [|split]].
    + rewrite Hb. tauto.
    + intros o Ho Hd Hs. by rewrite (Hrow Ht o Ho Hd Hs).
    + intros Hno. rewrite Hnone; [done | by left].
    + intros Hbk. assert (Hbt : bool_decide (slot_key (date_text d) s ∈ bs) = true)
        by (by apply Hb). rewrite Hbt.
      destruct (make_overrideMp rows !! _) as [forced|]; [by rewrite andb_false_r | done].
  - intros Hno.
    assert (Hbf : bool_decide (slot_key (date_text d) s ∈ bs) = false).
    { apply not_true_is_false. intros E. apply Hb in E as [_ Ht]. done. }
    rewrite Hbf, Hnone; [done | by right].
Qed.

(** The handler, once its window is known: one element per date, and in it
    the view of every slot of [order]. *)
Lemma availability_of_view st labels order ds db :
  NoDup (map (λ o, (o_date o, o_slot o)) (slot_overrides db)) →
  StronglySorted Z.lt ds →
  Forall (cast_agrees st) ds →
  ∃ out, availability_of st labels order (map date_text ds) db = availability_json out
         ∧ length out = length ds
         ∧ ∀ i d s, ds !! i = Some d → s ∈ order →
             ∃ e v, out !! i = Some e ∧ day e = date_text d
                    ∧ get_prop (slots e) s = Some v
                    ∧ (text_agrees d → view_of db d s v)
                    ∧ (¬ text_agrees d → booked v = false ∧ open v = true).
Proof.
  intros Hnd Hsorted Hcast.
  destruct ds as [|d0 ds'].
  { exists []. split; [done|]. split; [done|]. intros i d s Hi. done. }
  set (ds := d0 :: ds') in *.
  set (hi := List.last ds d0).
  assert (Hrange : ∀ d, d ∈ ds → d0 ≤ d ≤ hi).
  { intros d Hd. by apply sorted_first_last. }
  assert (Hc0 : cast_agrees st d0).
  { rewrite list.Forall_forall in Hcast. apply Hcast, list_elem_of_here. }
  assert (Hchi : cast_agrees st hi).
  { rewrite list.Forall_forall in Hcast. apply Hcast. apply last_elem_of. }
  set (bs := make_bookedSet (map (λ b, (date_out (date b), slot b))
               (filter (λ b, (d0 <=? date b) && (date b <=? hi)) (bookings db)))).
  set (mp := make_overrideMp (map (λ o, (date_out (o_date o), o_slot o, is_open o))
               (filter (λ o, (d0 <=? o_date o) && (o_date o <=? hi)) (slot_overrides db)))).
  assert (Heq : availability_of st labels order (map date_text ds) db
                = availability_json (map (day_view labels order bs mp) (map date_text ds))).
  { unfold availability_of. subst ds. cbn [map].
    change (date_text d0 :: map date_text ds') with (map date_text (d0 :: ds')).
    rewrite (last_map date_text (d0 :: ds') d0). fold hi.
    rewrite (select_bookings_between_run st d0 hi db Hc0 Hchi).
    rewrite (select_overrides_between_run st d0 hi db Hc0 Hchi).
    reflexivity. }
  rewrite Heq. eexists. split; [reflexivity|]. split; [by rewrite !length_map|].
  intros i d s Hi Hs.
  eexists _, _. split; [|split; [|split]].
  - rewrite list_lookup_fmap, list_lookup_fmap, Hi. reflexivity.
  - done.
  - cbn [slots day_view]. by apply day_view_slot.
  - apply (slot_view_correct db labels d0 hi d s Hnd). apply Hrange.
    by eapply list_elem_of_lookup_2.
Qed.

End View.

(** ** Booking, then cancelling *)

Section RoundTrip.
Import Js Pg Server Spec.
Context {engine : Engine}.

(** What a successful INSERT INTO bookings has done. *)
Lemma insert_booking_done st now with_email name ph ig mail date_s slot_s db db' row :
  insert_booking st now with_email name ph ig mail date_s slot_s db = (db', inr row) →
  ∃ d, date_in st date_s = Some d
       ∧ row = {| id := bookings_id_seq db; full_name := name; phone := ph;
                  instagram := ig; email := mail; date := d; slot := slot_s;
                  created_at := now |}
       ∧ bookings db' = (bookings db ++ [row])%list
       ∧ slot_overrides db' = slot_overrides db
       ∧ bookings_id_seq db ≤ max_int4
       ∧ slot_s ∈ slot_check st
       ∧ ¬ has_booking db d slot_s.
Proof.
  unfold insert_booking.
  destruct (with_email && negb (bookings_email st)); [done|].
  unfold Pg.bind, date_param. destruct (date_in st date_s) as [d|]; [|done].
  cbn [ret]. destruct (Z.ltb_spec max_int4 (bookings_id_seq db)); [done|].
  destruct (bool_decide_reflect (slot_s ∈ slot_check st)); cbn [negb]; [|done].
  destruct (existsb (on_slot d slot_s) (bookings db)) eqn:Hex; [done|].
  intros [= <- <-]. exists d. repeat split; try done; try lia.
  intros Hb. apply existsb_on_slot in Hb. congruence.
Qed.

(** What a successful POST /book has done. *)
Lemma post_book_done st now db_now body db db1 bid created :
  post_book st now db_now body db = (db1, booked_json bid created) →
  book_request_valid now body = true
  ∧ ∃ d row,
      date_in st (str (r_date body)) = Some d
      ∧ id row = bid ∧ bid = bookings_id_seq db ∧ bid ≤ max_int4
      ∧ date row = d ∧ slot row = str (r_slot body)
      ∧ bookings db1 = (bookings db ++ [row])%list
      ∧ slot_overrides db1 = slot_overrides db
      ∧ ¬ has_booking db d (str (r_slot body))
      ∧ match filter (λ o, override_on_slot d (str (r_slot body)) o) (slot_overrides db) with
        | row0 :: _ => is_open row0 = true
        | [] => True
        end.
Proof.
  intros H.
  destruct (book_request_valid now body) eqn:Hv.
  2:{ destruct (post_book_invalid st now db_now body db Hv) as [m Hm]. congruence. }
  split; [done|].
  rewrite (post_book_valid st now db_now body db Hv) in H.
  unfold withTx in H. rewrite book_tx_run in H.
  destruct (date_in st (str (r_date body))) as [d|] eqn:Hd; [|done].
  destruct (existsb (on_slot d (str (r_slot body))) (bookings db)) eqn:Hex; [done|].
  destruct (filter (λ o, override_on_slot d (str (r_slot body)) o) (slot_overrides db))
    as [|row0 rest] eqn:Hf.
  - destruct (insert_booking _ _ _ _ _ _ _ _ _ db) as [db' [e|row]] eqn:Hins; [done|].
    injection H as <- <- <-.
    apply insert_booking_done in Hins as (d' & Hd' & -> & Hb & Ho & Hmax & _ & Hfree).
    rewrite Hd in Hd'. injection Hd' as <-.
    exists d. eexists. split; [done|]. split; [reflexivity|].
    cbn [id date slot]. rewrite Hf. by repeat split.
  - destruct (is_open row0) eqn:Hopen; cbn [negb] in H; [|done].
    destruct (insert_booking _ _ _ _ _ _ _ _ _ db) as [db' [e|row]] eqn:Hins; [done|].
    injection H as <- <- <-.
    apply insert_booking_done in Hins as (d' & Hd' & -> & Hb & Ho & Hmax & _ & Hfree).
    rewrite Hd in Hd'. injection Hd' as <-.
    exists d. eexists. split; [done|]. split; [reflexivity|].
    cbn [id date slot]. rewrite Hf. by repeat split.
Qed.

Lemma filter_other_ids (l : list Booking) n :
  Forall (λ b, id b < n) l →
  filter (λ b, negb (bool_decide (id b = n))) l = l
  ∧ filter (λ b, bool_decide (id b = n)) l = [].
Proof.
  induction 1 as [|b l Hb _ [IH1 IH2]]; [done|].
  rewrite !filter_cons.
  rewrite decide_True by (apply Is_true_true, negb_true_iff, bool_decide_eq_false; lia).
  rewrite decide_False by (apply Is_true_false, bool_decide_eq_false; lia).
  split; [f_equal; exact IH1 | exact IH2].
Qed.

(** Deleting the row just inserted gives the table back. *)
Lemma delete_last_inserted db row :
  Forall (λ b, id b < id row) (bookings db) →
  filter (λ b, negb (bool_decide (id b = id row))) (bookings db ++ [row])%list = bookings db
  ∧ length (filter (λ b, bool_decide (id b = id row)) (bookings db ++ [row])%list) = 1%nat.
Proof.
  intros Hlt. rewrite !filter_app.
  destruct (filter_other_ids _ _ Hlt) as [-> ->]. split.
  - rewrite filter_cons.
    rewrite decide_False by (by apply Is_true_false, negb_false_iff, bool_decide_eq_true).
    by rewrite app_nil_r.
  - rewrite filter_cons.
    rewrite decide_True by (by apply Is_true_true, bool_decide_eq_true). done.
Qed.

(** A pair without a Booking and without a closing Override is open and
    not booked. *)
Lemma view_of_free db d s v :
  ¬ has_booking db d s →
  (∀ o, o ∈ slot_overrides db → o_date o = d → o_slot o = s → is_open o = true) →
  view_of db d s v → booked v = false ∧ open v = true.
Proof.
  intros Hfree Hopen (Hb & Ho & Hn & _).
  assert (Hbv : booked v = false).
  { destruct (booked v); [|done]. exfalso. by apply Hfree, Hb. }
  split; [done|]. rewrite Hbv in *.
  destruct (existsb (override_on_slot d s) (slot_overrides db)) eqn:Hex.
  - apply existsb_elem_of in Hex as (o & Hin & Hm).
    apply override_on_slot_true in Hm as [Hd Hs].
    rewrite (Ho o Hin Hd Hs), (Hopen o Hin Hd Hs). done.
  - apply Hn. intros o Hin [Hd Hs].
    assert (existsb (override_on_slot d s) (slot_overrides db) = true); [|congruence].
    apply existsb_elem_of. exists o. split; [done|]. by apply override_on_slot_true.
Qed.

Lemma configured_order :
  filter (λ k, bool_decide (k ∈ SLOT_KEYS)) SLOT_ORDER = SLOT_ORDER.
Proof. by vm_compute. Qed.

(** GET /availability of the second version, per date and slot. *)
Lemma get_availability_view st now q db :
  NoDup (map (λ o, (o_date o, o_slot o)) (slot_overrides db)) →
  let ds := window_day_numbers (or_else (q_start q) (toISODate (todayCST now)))
                               (window_days q) in
  Forall (cast_agrees st) ds →
  ∃ out, get_availability st now q db = availability_json out
         ∧ length out = length ds
         ∧ ∀ i d s, ds !! i = Some d → s ∈ SLOT_ORDER →
             ∃ e v, out !! i = Some e ∧ day e = date_text d
                    ∧ get_prop (slots e) s = Some v
                    ∧ (text_agrees d → view_of db d s v)
                    ∧ (¬ text_agrees d → booked v = false ∧ open v = true).
Proof.
  intros Hnd ds Hcast.
  unfold get_availability. cbv zeta.
  rewrite rollingWindow_day_numbers, configured_order.
  apply availability_of_view; [done | apply window_day_numbers_sorted | done].
Qed.

Lemma get_availability_v1_view st now q db :
  NoDup (map (λ o, (o_date o, o_slot o)) (slot_overrides db)) →
  let ds := window_day_numbers (or_else (q_start q) (toISODate (todayCST now)))
                               (window_days q) in
  Forall (cast_agrees st) ds →
  ∃ out, ServerJs.get_availability st now q db = availability_json out
         ∧ length out = length ds
         ∧ ∀ i d s, ds !! i = Some d → s ∈ ["A"; "B"] →
             ∃ e v, out !! i = Some e ∧ day e = date_text d
                    ∧ get_prop (slots e) s = Some v
                    ∧ (text_agrees d → view_of db d s v)
                    ∧ (¬ text_agrees d → booked v = false ∧ open v = true).
Proof.
  intros Hnd ds Hcast.
  unfold ServerJs.get_availability, ServerJs.rollingWindow. cbv zeta.
  fold (window_days q). rewrite rollingWindow_day_numbers.
  apply availability_of_view; [done | apply window_day_numbers_sorted | done].
Qed.

(** Cancelling the booking just made. *)
Lemma cancel_just_booked db db1 row :
  Forall (λ b, id b < id row) (bookings db) →
  1 ≤ id row ≤ max_int4 →
  bookings db1 = (bookings db ++ [row])%list →
  delete_admin_api_booking (Int (id row)) db1
  = ({| bookings := bookings db; slot_overrides := slot_overrides db1;
        bookings_id_seq := bookings_id_seq db1;
        slot_overrides_id_seq := slot_overrides_id_seq db1 |}, ok_json).
Proof.
  intros Hlt [Hlo Hhi] Hb1.
  destruct (delete_last_inserted db row Hlt) as [Hkeep Hgone].
  unfold delete_admin_api_booking.
  destruct (Z.ltb_spec 0 (id row)) as [_|?]; [|lia]. cbn [negb].
  unfold pool_query, withTx, delete_booking_by_id.
  destruct (Z.ltb_spec max_int4 (id row)) as [?|_]; [lia|].
  destruct (Z.ltb_spec (id row) (- max_int4 - 1)) as [Hneg|_].
  { exfalso. revert Hneg. unfold max_int4. lia. }
  cbn [orb]. rewrite Hb1, Hgone, Hkeep. reflexivity.
Qed.

Lemma valid_slot_in_order now body :
  book_request_valid now body = true → str (r_slot body) ∈ SLOT_ORDER.
Proof.
  unfold book_request_valid. rewrite !andb_true_iff.
  intros [[_ Hinc] _]. unfold includes in Hinc.
  destruct (r_slot body) as [s|]; [|done].
  apply bool_decide_eq_true in Hinc. change (str (Some s)) with s.
  unfold SLOT_KEYS, SLOT_MAP in Hinc. cbn [map fst] in Hinc.
  unfold SLOT_ORDER. exact Hinc.
Qed.

Lemma has_of_list (l : list string) (x : string) :
  bool_decide (x ∈ (list_to_set l : gset string)) = true → x ∈ l.
Proof. intros H. apply bool_decide_eq_true in H. by apply elem_of_list_to_set in H. Qed.

Lemma valid_date_listed now body :
  book_request_valid now body = true →
  str (r_date body) ∈ rollingWindow (toISODate (todayCST now)) (Int 14).
Proof.
  unfold book_request_valid. intros Hv. apply andb_true_iff in Hv as [_ Hwin].
  by apply has_of_list.
Qed.

Lemma listed_date_cast st (ds : list Z) (s : string) (d : Z) :
  s ∈ map date_text ds → date_in st s = Some d → Forall (cast_agrees st) ds → d ∈ ds.
Proof.
  intros Hin Hd Hcast.
  apply list_elem_of_fmap in Hin as (d' & -> & Hin).
  rewrite list.Forall_forall in Hcast. specialize (Hcast d' Hin).
  unfold cast_agrees in Hcast. rewrite Hd in Hcast. by injection Hcast as ->.
Qed.

(** The date of a valid request is a day of the 14-day window of today. *)
Lemma valid_date_in_window st now body d :
  book_request_valid now body = true →
  date_in st (str (r_date body)) = Some d →
  Forall (cast_agrees st) (window_day_numbers (toISODate (todayCST now)) (Int 14)) →
  d ∈ window_day_numbers (toISODate (todayCST now)) (Int 14).
Proof.
  intros Hv Hd Hcast.
  apply (listed_date_cast st _ (str (r_date body))); [|done|done].
  rewrite <- rollingWindow_day_numbers. by apply valid_date_listed.
Qed.

(** Under UNIQUE (date, slot), an Override that is not the first row of its
    pair does not exist: the row POST /book reads is the row of the pair. *)
Lemma override_row_read db d s o :
  NoDup (map (λ o, (o_date o, o_slot o)) (slot_overrides db)) →
  o ∈ slot_overrides db → o_date o = d → o_slot o = s →
  ∃ rest, filter (λ o, override_on_slot d s o) (slot_overrides db) = o :: rest.
Proof.
  intros Hnd Ho Hod Hos.
  assert (Hin : o ∈ filter (λ o, override_on_slot d s o) (slot_overrides db)).
  { apply list_elem_of_filter. split; [|done]. by apply Is_true_true, override_on_slot_true. }
  destruct (filter _ (slot_overrides db)) as [|row0 rest] eqn:Hf;
    [by apply elem_of_nil in Hin|].
  assert (Hr0 : row0 ∈ filter (λ o, override_on_slot d s o) (slot_overrides db))
    by (rewrite Hf; apply list_elem_of_here).
  apply list_elem_of_filter in Hr0 as [Hm0 Hr0].
  apply Is_true_true, override_on_slot_true in Hm0 as [Hd0 Hs0].
  assert (o = row0) as ->; [|by exists rest].
  apply (NoDup_fmap_same (λ o, (o_date o, o_slot o)) (slot_overrides db)); try done.
  cbn. congruence.
Qed.

(** The answer of GET /availability on a pair that is free and not closed. *)
Lemma get_availability_free st now q db d s :
  NoDup (map (λ o, (o_date o, o_slot o)) (slot_overrides db)) →
  s ∈ SLOT_ORDER →
  ¬ has_booking db d s →
  (∀ o, o ∈ slot_overrides db → o_date o = d → o_slot o = s → is_open o = true) →
  Forall (cast_agrees st)
    (window_day_numbers (or_else (q_start q) (toISODate (todayCST now))) (window_days q)) →
  ∃ out, get_availability st now q db = availability_json out
         ∧ ∀ i, window_day_numbers (or_else (q_start q) (toISODate (todayCST now)))
                  (window_days q) !! i = Some d →
             ∃ e v, out !! i = Some e ∧ day e = date_text d
                    ∧ get_prop (slots e) s = Some v
                    ∧ open v = true ∧ booked v = false.
Proof.
  intros Hnd Hs Hfree Hopen Hcast.
  destruct (get_availability_view st now q db Hnd Hcast) as (out & Hout & _ & Hview).
  exists out. split; [done|]. intros i Hi.
  destruct (Hview i d s Hi Hs) as (e & v & He & Hday & Hprop & Hvw & Hmiss).
  exists e, v. split; [done|]. split; [done|]. split; [done|].
  destruct (decide (date_out d = date_text d)) as [Ht|Ht].
  - by apply (view_of_free db d s v) in Hvw as [Hbk Hop].
  - by destruct (Hmiss Ht) as [-> ->].
Qed.

(** C7: a successful POST /book followed at once by the DELETE of the
    returned id gives both tables back, and GET /availability then reports
    the pair open and not booked. *)
Theorem book_then_cancel_restores_view
    (st : Storage) (now db_now : Z) (body : BookBody) (db db1 : Db) (bid created : Z) :
  db_ok st db →
  post_book st now db_now body db = (db1, booked_json bid created) →
  ∃ db2 d,
    delete_admin_api_booking (Int bid) db1 = (db2, ok_json)
    ∧ date_in st (str (r_date body)) = Some d
    ∧ bookings db2 = bookings db ∧ slot_overrides db2 = slot_overrides db
    ∧ (∀ o, o ∈ slot_overrides db → o_date o = d → o_slot o = str (r_slot body) →
         is_open o = true)
    ∧ (Forall (cast_agrees st) (window_day_numbers (toISODate (todayCST now)) (Int 14)) →
       d ∈ window_day_numbers (toISODate (todayCST now)) (Int 14))
    ∧ (∀ now' q,
         Forall (cast_agrees st)
           (window_day_numbers (or_else (q_start q) (toISODate (todayCST now')))
                               (window_days q)) →
         ∃ out, get_availability st now' q db2 = availability_json out
                ∧ ∀ i, window_day_numbers (or_else (q_start q) (toISODate (todayCST now')))
                         (window_days q) !! i = Some d →
                    ∃ e v, out !! i = Some e ∧ day e = date_text d
                           ∧ get_prop (slots e) (str (r_slot body)) = Some v
                           ∧ open v = true ∧ booked v = false).
Proof.
  intros Hok Hbook.
  apply post_book_done in Hbook
    as (Hv & d & row & Hd & Hid & Hseq & Hmax & Hrd & Hrs & Hb1 & Ho1 & Hfree & Hov).
  destruct Hok as [Hbu Hou Hids Hidu Hbc Hoc Hpos].
  assert (Hlt : Forall (λ b, id b < id row) (bookings db)) by (by rewrite Hid, Hseq).
  assert (Hopen : ∀ o, o ∈ slot_overrides db → o_date o = d →
                       o_slot o = str (r_slot body) → is_open o = true).
  { intros o Ho Hod Hos.
    destruct (override_row_read db d _ o Hou Ho Hod Hos) as [rest Hf].
    by rewrite Hf in Hov. }
  eexists _, d. split.
  { rewrite <- Hid. apply (cancel_just_booked db db1 row Hlt); [lia | done]. }
  cbn [bookings slot_overrides].
  split; [done|]. split; [done|]. split; [done|]. split; [done|].
  split; [intros Hc; by apply (valid_date_in_window st now body)|].
  intros now' q Hcast.
  apply get_availability_free.
  - cbn [slot_overrides]. by rewrite Ho1.
  - by apply (valid_slot_in_order now).
  - exact Hfree.
  - cbn [slot_overrides]. rewrite Ho1. exact Hopen.
  - exact Hcast.
Qed.

End RoundTrip.
Section AvailabilityView.
Import Js Pg Server Spec Samples.
Context {engine : Engine}.

(** C2 fails before the year 1000.  The handler looks the rows up under
    the key it builds from [toISODate], which writes the year 999 as
    [999]; the rows come back with the date as the database writes it,
    [0999].  After slot A of 0999-12-30 was closed, the pair holds a
    Booking and a closed Override, and GET /availability for that day
    reports it open and not booked; so does the first version, on the
    tables of schema.sql, for the closed Override alone.  In general the
    view is the one of the specification on the dates that the database
    writes as the handler does, and open and not booked on the others. *)
Theorem availability_misses_rows_before_year_1000 :
  (post_admin_api_slot schema_sql_email db_now0 close_999 Pg.empty).2
  = closed_json true (Some 1)
  ∧ has_booking (post_admin_api_slot schema_sql_email db_now0 close_999 Pg.empty).1
      dec30_999 "A"
  ∧ (∃ o, o ∈ slot_overrides
              (post_admin_api_slot schema_sql_email db_now0 close_999 Pg.empty).1
          ∧ o_date o = dec30_999 ∧ o_slot o = "A" ∧ is_open o = false)
  ∧ window_day_numbers "0999-12-30" (Int 1) = [dec30_999]
  ∧ cast_agrees schema_sql_email dec30_999
  ∧ date_text dec30_999 = "999-12-30" ∧ date_out dec30_999 = "0999-12-30"
  ∧ get_availability schema_sql_email now0 q_999
      (post_admin_api_slot schema_sql_email db_now0 close_999 Pg.empty).1
    = availability_json
        [{| day := "999-12-30";
            slots := [("C", {| open := true; booked := false; label := "10:00 - 12:00" |});
                      ("A", {| open := true; booked := false; label := "13:00 - 15:00" |});
                      ("B", {| open := true; booked := false; label := "15:00 - 17:00" |})] |}]
  ∧ (ServerJs.post_admin_api_slot schema_sql db_now0 close_999 Pg.empty).2 = ok_json
  ∧ (∃ o, o ∈ slot_overrides
              (ServerJs.post_admin_api_slot schema_sql db_now0 close_999 Pg.empty).1
          ∧ o_date o = dec30_999 ∧ o_slot o = "A" ∧ is_open o = false)
  ∧ ServerJs.get_availability schema_sql now0 q_999
      (ServerJs.post_admin_api_slot schema_sql db_now0 close_999 Pg.empty).1
    = availability_json
        [{| day := "999-12-30";
            slots := [("A", {| open := true; booked := false; label := "13:00 - 15:00" |});
                      ("B", {| open := true; booked := false; label := "15:00 - 17:00" |})] |}]
  ∧ (∀ (st : Storage) (now : Z) (q : AvailabilityQuery) (db : Db),
       db_ok st db →
       Forall (cast_agrees st)
         (window_day_numbers (or_else (q_start q) (toISODate (todayCST now)))
                             (window_days q)) →
       (∃ out, get_availability st now q db = availability_json out
               ∧ ∀ i d s,
                   window_day_numbers (or_else (q_start q) (toISODate (todayCST now)))
                                      (window_days q) !! i = Some d →
                   s ∈ SLOT_ORDER →
                   ∃ e v, out !! i = Some e ∧ day e = date_text d
                          ∧ get_prop (slots e) s = Some v
                          ∧ (text_agrees d → view_of db d s v)
                          ∧ (¬ text_agrees d → booked v = false ∧ open v = true))
       ∧ (∃ out, ServerJs.get_availability st now q db = availability_json out
                 ∧ ∀ i d s,
                     window_day_numbers (or_else (q_start q) (toISODate (todayCST now)))
                                        (window_days q) !! i = Some d →
                     s ∈ ["A"; "B"] →
                     ∃ e v, out !! i = Some e ∧ day e = date_text d
                            ∧ get_prop (slots e) s = Some v
                            ∧ (text_agrees d → view_of db d s v)
                            ∧ (¬ text_agrees d → booked v = false ∧ open v = true)))
  ∧ (∀ d, 1000 ≤ YearFromTime (d * msPerDay) ≤ 9999 → text_agrees d).
Proof.
  split; [by vm_compute|].
  split.
  { exists {| id := 1; full_name := ADMIN_NAME; phone := ADMIN_PHONE;
              instagram := ADMIN_IG; email := None; date := dec30_999;
              slot := "A"; created_at := db_now0 |}.
    split; [|done].
    assert (Hb : bookings (post_admin_api_slot schema_sql_email db_now0 close_999 Pg.empty).1
                 = [{| id := 1; full_name := ADMIN_NAME; phone := ADMIN_PHONE;
                       instagram := ADMIN_IG; email := None; date := dec30_999;
                       slot := "A"; created_at := db_now0 |}]) by (by vm_compute).
    rewrite Hb. apply list_elem_of_here. }
  split.
  { exists {| o_id := 1; o_date := dec30_999; o_slot := "A"; is_open := false;
              o_created_at := db_now0 |}.
    split; [|done].
    assert (Ho : slot_overrides
                   (post_admin_api_slot schema_sql_email db_now0 close_999 Pg.empty).1
                 = [{| o_id := 1; o_date := dec30_999; o_slot := "A"; is_open := false;
                       o_created_at := db_now0 |}]) by (by vm_compute).
    rewrite Ho. apply list_elem_of_here. }
  split; [by vm_compute|]. split; [by vm_compute|].
  split; [by vm_compute|]. split; [by vm_compute|].
  split; [by vm_compute|]. split; [by vm_compute|].
  split.
  { exists {| o_id := 1; o_date := dec30_999; o_slot := "A"; is_open := false;
              o_created_at := db_now0 |}.
    split; [|done].
    assert (Ho : slot_overrides
                   (ServerJs.post_admin_api_slot schema_sql db_now0 close_999 Pg.empty).1
                 = [{| o_id := 1; o_date := dec30_999; o_slot := "A"; is_open := false;
                       o_created_at := db_now0 |}]) by (by vm_compute).
    rewrite Ho. apply list_elem_of_here. }
  split; [by vm_compute|].
  split; [|apply text_agrees_years].
  intros st now q db Hok Hcast. destruct Hok as [_ Hnd _ _ _ _ _]. split.
  - destruct (get_availability_view st now q db Hnd Hcast) as (out & Hout & _ & Hview).
    by exists out.
  - destruct (get_availability_v1_view st now q db Hnd Hcast) as (out & Hout & _ & Hview).
    by exists out.
Qed.

End AvailabilityView.

(** ** Conflicts of POST /book *)

Section Conflicts.
Import Js Pg Server Spec Samples.
Context {engine : Engine}.

(** For a request that reaches the transaction: the two deliberate aborts
    are answered exactly when a Booking exists, respectively when none
    exists and the Override of the pair is closed; every 409 leaves both
    tables as they were; and when the storage accepts the row (the [email]
    column exists, the slot passes the CHECK, the sequence is not
    exhausted) the request is otherwise accepted. *)
Lemma post_book_conflict_iff st now db_now body db d :
  db_ok st db →
  book_request_valid now body = true →
  date_in st (str (r_date body)) = Some d →
  let s := str (r_slot body) in
  let closed := ∃ o, o ∈ slot_overrides db ∧ o_date o = d ∧ o_slot o = s ∧ is_open o = false in
  let resp := (post_book st now db_now body db).2 in
  let db' := (post_book st now db_now body db).1 in
  (resp = error_json 409 (Error "Ese turno ya fue reservado") ↔ has_booking db d s)
  ∧ (resp = error_json 409 (Error "Ese turno está cerrado") ↔ ¬ has_booking db d s ∧ closed)
  ∧ (∀ e, resp = error_json 409 e →
       bookings db' = bookings db ∧ slot_overrides db' = slot_overrides db)
  ∧ (bookings_email st = true → s ∈ slot_check st → bookings_id_seq db ≤ max_int4 →
       (∃ e, resp = error_json 409 e) ↔ has_booking db d s ∨ closed).
Proof.
  intros Hok Hv Hd s closed resp db'. subst resp db'.
  rewrite (post_book_valid st now db_now body db Hv).
  unfold withTx. rewrite book_tx_run, Hd. fold s.
  assert (Hclosed : match filter (λ o, override_on_slot d s o) (slot_overrides db) with
                    | row0 :: _ => negb (is_open row0)
                    | [] => false
                    end = true ↔ closed).
  { destruct (filter _ (slot_overrides db)) as [|row0 rest] eqn:Hf.
    - split; [done|]. intros (o & Ho & Hod & Hos & _).
      assert (o ∈ filter (λ o, override_on_slot d s o) (slot_overrides db)) as Hin
        by (apply list_elem_of_filter; split; [by apply Is_true_true, override_on_slot_true | done]).
      rewrite Hf in Hin. by apply elem_of_nil in Hin.
    - assert (Hr0 : row0 ∈ filter (λ o, override_on_slot d s o) (slot_overrides db))
        by (rewrite Hf; apply list_elem_of_here).
      apply list_elem_of_filter in Hr0 as [Hm0 Hr0].
      apply Is_true_true, override_on_slot_true in Hm0 as [Hd0 Hs0].
      rewrite negb_true_iff. split.
      + intros Hc. by exists row0.
      + intros (o & Ho & Hod & Hos & Hc).
        assert (o = row0) as <-; [|done].
        apply (NoDup_fmap_same (λ o, (o_date o, o_slot o)) (slot_overrides db));
          [apply Hok | done | done | cbn; congruence]. }
  pose proof (existsb_on_slot db d s) as Hbk.
  destruct (existsb (on_slot d s) (bookings db)) eqn:Hex.
  { assert (has_booking db d s) as Hb by (by apply Hbk).
    cbn [fst snd rollback bookings slot_overrides].
    split; [done|]. split; [split; [done | by intros [? _]]|].
    split; [done|]. intros _ _ _. split; [by left | by eexists]. }
  assert (¬ has_booking db d s) as Hnb by (intros Hb; apply Hbk in Hb; done).
  destruct (match filter _ (slot_overrides db) with _ :: _ => _ | [] => _ end) eqn:Hc.
  { assert closed as Hcl by (by apply Hclosed).
    cbn [fst snd rollback bookings slot_overrides].
    split; [split; [done | by intros ?]|]. split; [done|].
    split; [done|]. intros _ _ _. split; [by right | by eexists]. }
  assert (¬ closed) as Hncl by (intros Hcl; apply Hclosed in Hcl; done).
  destruct (insert_booking _ _ _ _ _ _ _ _ _ db) as [db1 [e|row]] eqn:Hins.
  - cbn [fst snd rollback bookings slot_overrides].
    assert (∀ m, e ≠ Error m) as Hne.
    { intros m ->. revert Hins. unfold insert_booking.
      destruct (true && negb (bookings_email st)); [done|].
      unfold Pg.bind, date_param. rewrite Hd. cbn [ret].
      destruct (max_int4 <? bookings_id_seq db); [done|].
      destruct (negb _); [done|]. by destruct (existsb _ _). }
    split; [split; [intros [= He]; by destruct (Hne _ He) | done]|].
    split; [split; [intros [= He]; by destruct (Hne _ He) | by intros [_ ?]]|].
    split; [done|]. intros Hmail Hs Hseq. exfalso.
    revert Hins. unfold insert_booking. rewrite Hmail. cbn [andb negb].
    unfold Pg.bind, date_param. rewrite Hd. cbn [ret].
    destruct (Z.ltb_spec max_int4 (bookings_id_seq db)); [lia|].
    rewrite bool_decide_eq_true_2 by done. cbn [negb]. fold s. by rewrite Hex.
  - cbn [fst snd].
    split; [split; [done | by intros ?]|]. split; [split; [done | by intros [_ ?]]|].
    split; [done|]. intros _ _ _. split; [by intros [? ?] | by intros [?|?]].
Qed.

(** C1: a request for slot C reaches the transaction with no Booking and no
    Override on its pair, and is answered 409 all the same: the INSERT is
    refused by the tables of schema.sql, with or without an [email] column. *)
Theorem slot_C_booking_answers_conflict :
  book_request_valid now0 ana_C = true
  ∧ date_in schema_sql (str (r_date ana_C)) = Some jun4
  ∧ ¬ has_booking Pg.empty jun4 "C"
  ∧ slot_overrides Pg.empty = []
  ∧ post_book schema_sql now0 db_now0 ana_C Pg.empty
    = (Pg.empty, error_json 409 (DatabaseError undefined_column))
  ∧ (post_book schema_sql_email now0 db_now0 ana_C Pg.empty).2
    = error_json 409 (DatabaseError check_violation)
  ∧ bookings (post_book schema_sql_email now0 db_now0 ana_C Pg.empty).1 = [].
Proof.
  split; [by vm_compute|]. split; [by vm_compute|].
  split; [by intros (b & Hb & _); apply elem_of_nil in Hb|].
  split; [done|]. split; [by vm_compute|]. split; by vm_compute.
Qed.

(** C3 fails already for one call.  On the tables as schema.sql declares
    them POST /book never inserts: its INSERT names the [email] column,
    which the table lacks, so the single call for the free slot A of
    2024-06-04 is answered 409 and no Booking exists afterwards, where the
    claim promises exactly one success; the same holds for any number of
    calls made one after the other.  With the [email] column the same
    happens for every call that names slot C. *)
Theorem single_call_yields_no_booking :
  book_request_valid now0 ana = true
  ∧ ¬ has_booking Pg.empty jun4 "A"
  ∧ post_book schema_sql now0 db_now0 ana Pg.empty
    = (Pg.empty, error_json 409 (DatabaseError undefined_column))
  ∧ (∀ (st : Storage) (now db_now : Z) (body : BookBody) (db : Db) (bid created : Z),
       bookings_email st = false →
       (post_book st now db_now body db).2 ≠ booked_json bid created
       ∧ bookings (post_book st now db_now body db).1 = bookings db)
  ∧ (∀ (st : Storage) (now db_now : Z) (body : BookBody) (db : Db) (bid created : Z),
       str (r_slot body) ∉ slot_check st →
       (post_book st now db_now body db).2 ≠ booked_json bid created
       ∧ bookings (post_book st now db_now body db).1 = bookings db).
Proof.
  split; [by vm_compute|].
  split; [by intros (b & Hb & _); apply elem_of_nil in Hb|].
  split; [by vm_compute|].
  assert (Hfail : ∀ (st : Storage) now db_now body db bid created,
            (∀ mail date_s slot_s db0, slot_s = str (r_slot body) →
               ∃ db1 c, insert_booking st db_now true (str (r_full_name body))
                          (str (r_phone body)) (str (r_instagram body)) mail date_s
                          slot_s db0 = (db1, inl (DatabaseError c))) →
            (post_book st now db_now body db).2 ≠ booked_json bid created
            ∧ bookings (post_book st now db_now body db).1 = bookings db).
  { intros st now db_now body db bid created Href.
    destruct (book_request_valid now body) eqn:Hv.
    2:{ destruct (post_book_invalid st now db_now body db Hv) as [m ->]. done. }
    rewrite (post_book_valid st now db_now body db Hv).
    unfold withTx. rewrite book_tx_run.
    destruct (date_in st (str (r_date body))); [|done].
    destruct (existsb _ (bookings db)); [done|].
    destruct (match filter _ (slot_overrides db) with [] => false | _ :: _ => _ end);
      [done|].
    edestruct Href as (db1 & c & ->); [reflexivity|]. done. }
  split.
  - intros st now db_now body db bid created Hmail. apply Hfail.
    intros mail date_s slot_s db0 _. unfold insert_booking. rewrite Hmail.
    by eexists _, _.
  - intros st now db_now body db bid created Hslot. apply Hfail.
    intros mail date_s slot_s db0 ->.
    destruct (insert_booking_refused st db_now true (str (r_full_name body))
                (str (r_phone body)) (str (r_instagram body)) mail date_s
                (str (r_slot body)) db0 Hslot) as (db1 & c & -> & _).
    by eexists _, _.
Qed.

End Conflicts.

(** ** Closing and reopening a slot *)

Section AdminSlot.
Import Js Pg Server Spec Samples.
Context {engine : Engine}.

(** What a successful upsert of an Override has done. *)
Lemma upsert_override_done st now date_s slot_s v db db' :
  upsert_override st now date_s slot_s v db = (db', inr tt) →
  ∃ d, date_in st date_s = Some d
       ∧ bookings db' = bookings db
       ∧ bookings_id_seq db' = bookings_id_seq db
       ∧ slot_s ∈ slot_check st.
Proof.
  unfold upsert_override, Pg.bind, date_param.
  destruct (date_in st date_s) as [d|]; [|done]. cbn [ret].
  destruct (max_int4 <? slot_overrides_id_seq db); [done|].
  destruct (bool_decide_reflect (slot_s ∈ slot_check st)); cbn [negb]; [|done].
  intros [= <-]. by exists d.
Qed.

(** The transaction of POST /admin/api/slot when it opens a slot. *)
Lemma slot_tx_open_run st now date_s slot_s db :
  slot_tx st now date_s slot_s true db =
  match upsert_override st now date_s slot_s true db with
  | (db1, inr _) =>
      match date_in st date_s with
      | Some d =>
          ({| bookings := filter (λ b, negb (admin_block_match d slot_s ADMIN_PHONE ADMIN_IG b))
                                 (bookings db1);
              slot_overrides := slot_overrides db1;
              bookings_id_seq := bookings_id_seq db1;
              slot_overrides_id_seq := slot_overrides_id_seq db1 |},
           inr (opened_json
                  (existsb (admin_block_match d slot_s ADMIN_PHONE ADMIN_IG) (bookings db1))))
      | None => (db1, inl (DatabaseError invalid_datetime_format))
      end
  | (db1, inl e) => (db1, inl e)
  end.
Proof.
  unfold slot_tx, Pg.bind at 1.
  destruct (upsert_override st now date_s slot_s true db) as [db1 [e|u]]; [done|].
  unfold delete_booking_where, date_param, Pg.bind.
  destruct (date_in st date_s) as [d|]; [|done]. unfold ret. cbv zeta.
  by rewrite filter_length_pos.
Qed.

(** Opening a slot deletes exactly the Booking rows of the pair whose phone
    and instagram are those of the administrative block; the name and the
    email are not compared.  No other row is deleted, none is added, and
    the answer tells whether a row went. *)
Lemma reopen_deletes_matching_rows
    (st : Storage) (now : Z) (body : SlotBody) (db db' : Db) (resp : Response) :
  s_is_open body = Some true →
  post_admin_api_slot st now body db = (db', resp) →
  (∀ b, b ∈ bookings db' → b ∈ bookings db)
  ∧ (∀ b, b ∈ bookings db → b ∉ bookings db' →
       date_in st (str (s_date body)) = Some (date b)
       ∧ slot b = str (s_slot body)
       ∧ phone b = ADMIN_PHONE ∧ instagram b = ADMIN_IG)
  ∧ (∀ removed, resp = opened_json removed →
       ∃ d, date_in st (str (s_date body)) = Some d
            ∧ bookings db'
              = filter (λ b, negb (admin_block_match d (str (s_slot body))
                                     ADMIN_PHONE ADMIN_IG b)) (bookings db)
            ∧ (removed = true ↔
               ∃ b, b ∈ bookings db ∧ date b = d ∧ slot b = str (s_slot body)
                    ∧ phone b = ADMIN_PHONE ∧ instagram b = ADMIN_IG))
  ∧ ((∀ removed, resp ≠ opened_json removed) → bookings db' = bookings db).
Proof.
  intros Hopen Hpost.
  destruct (slot_request_valid body) eqn:Hv.
  2:{ rewrite (post_admin_api_slot_invalid st now body db Hv) in Hpost.
      injection Hpost as <- <-. repeat split; try done. }
  rewrite (post_admin_api_slot_valid st now body db Hv) in Hpost.
  rewrite Hopen in Hpost. change (default false (Some true)) with true in Hpost.
  unfold withTx in Hpost. rewrite slot_tx_open_run in Hpost.
  destruct (upsert_override st now _ _ true db) as [db1 [e|[]]] eqn:Hup.
  { injection Hpost as <- <-. cbn [rollback bookings]. repeat split; try done. }
  apply upsert_override_done in Hup as (d & Hd & Hb1 & _ & _).
  rewrite Hd in Hpost. injection Hpost as <- <-. cbn [bookings]. rewrite Hb1.
  set (s := str (s_slot body)).
  assert (Hm : ∀ b, admin_block_match d s ADMIN_PHONE ADMIN_IG b = true ↔
                    date b = d ∧ slot b = s ∧ phone b = ADMIN_PHONE ∧ instagram b = ADMIN_IG).
  { intros b. unfold admin_block_match.
    rewrite !andb_true_iff, on_slot_true, !bool_decide_eq_true. tauto. }
  split; [|split; [|split]].
  - intros b Hb. by apply list_elem_of_filter in Hb as [_ Hb].
  - intros b Hb Hgone.
    destruct (admin_block_match d s ADMIN_PHONE ADMIN_IG b) eqn:E.
    + apply Hm in E as (<- & ? & ? & ?). done.
    + exfalso. apply Hgone, list_elem_of_filter. split; [|done].
      by apply Is_true_true, negb_true_iff.
  - intros removed [= <-]. exists d. split; [done|]. split; [done|].
    rewrite existsb_elem_of. split.
    + intros (b & Hb & E). exists b. split; [done|]. by apply Hm.
    + intros (b & Hb & E). exists b. split; [done|]. by apply Hm.
  - intros Hne. by destruct (Hne _ eq_refl).
Qed.

(** The transaction of POST /admin/api/slot when it closes a slot. *)
Lemma slot_tx_close_run st now date_s slot_s db :
  slot_tx st now date_s slot_s false db =
  match upsert_override st now date_s slot_s false db with
  | (db1, inr _) =>
      match date_in st date_s with
      | Some d =>
          if existsb (on_slot d slot_s) (bookings db1)
          then (db1, inr (closed_json false None))
          else
            match insert_booking st now true ADMIN_NAME ADMIN_PHONE ADMIN_IG None
                    date_s slot_s db1 with
            | (db2, inr ins) => (db2, inr (closed_json true (Some (id ins))))
            | (db2, inl e) => (db2, inl e)
            end
      | None => (db1, inl (DatabaseError invalid_datetime_format))
      end
  | (db1, inl e) => (db1, inl e)
  end.
Proof.
  unfold slot_tx, Pg.bind at 1.
  destruct (upsert_override st now date_s slot_s false db) as [db1 [e|u]]; [done|].
  unfold select_booking_for_update, date_param, Pg.bind.
  destruct (date_in st date_s) as [d|]; [|done]. unfold ret.
  rewrite filter_length_zero.
  destruct (existsb (on_slot d slot_s) (bookings db1)); [done|]. cbn [negb].
  by destruct (insert_booking _ _ _ _ _ _ _ _ _ db1) as [db2 [e|ins]].
Qed.

(** An upsert the storage accepts. *)
Lemma upsert_override_accepted st now date_s slot_s v db d :
  date_in st date_s = Some d → slot_s ∈ slot_check st →
  slot_overrides_id_seq db ≤ max_int4 →
  ∃ db', upsert_override st now date_s slot_s v db = (db', inr tt)
         ∧ bookings db' = bookings db
         ∧ bookings_id_seq db' = bookings_id_seq db
         ∧ slot_overrides_id_seq db' = slot_overrides_id_seq db + 1.
Proof.
  intros Hd Hs Hseq. unfold upsert_override, Pg.bind, date_param. rewrite Hd. cbn [ret].
  destruct (Z.ltb_spec max_int4 (slot_overrides_id_seq db)); [lia|].
  rewrite bool_decide_eq_true_2 by done. cbn [negb]. by eexists.
Qed.

(** Closing a free slot twice, where the storage accepts the rows: the
    first call inserts the administrative block, the second finds it and
    inserts nothing, and the pair ends with that one row. *)
Lemma close_twice_one_block st now1 now2 body db d :
  slot_request_valid body = true →
  s_is_open body = Some false →
  date_in st (str (s_date body)) = Some d →
  bookings_email st = true →
  str (s_slot body) ∈ slot_check st →
  bookings_id_seq db ≤ max_int4 →
  slot_overrides_id_seq db + 1 ≤ max_int4 →
  ¬ has_booking db d (str (s_slot body)) →
  let block := {| id := bookings_id_seq db; full_name := ADMIN_NAME; phone := ADMIN_PHONE;
                  instagram := ADMIN_IG; email := None; date := d;
                  slot := str (s_slot body); created_at := now1 |} in
  let r1 := post_admin_api_slot st now1 body db in
  let r2 := post_admin_api_slot st now2 body r1.1 in
  r1.2 = closed_json true (Some (bookings_id_seq db))
  ∧ r2.2 = closed_json false None
  ∧ bookings r2.1 = (bookings db ++ [block])%list
  ∧ filter (λ b, on_slot d (str (s_slot body)) b) (bookings r2.1) = [block].
Proof.
  intros Hv Hclose Hd Hmail Hs Hseq Hoseq Hfree block r1 r2.
  set (s := str (s_slot body)) in *.
  assert (Hex0 : existsb (on_slot d s) (bookings db) = false).
  { destruct (existsb _ _) eqn:E; [|done]. by apply existsb_on_slot in E. }
  assert (H1 : ∃ db1, r1 = (db1, closed_json true (Some (bookings_id_seq db)))
                      ∧ bookings db1 = (bookings db ++ [block])%list
                      ∧ slot_overrides_id_seq db1 = slot_overrides_id_seq db + 1).
  { subst r1. rewrite (post_admin_api_slot_valid st now1 body db Hv).
    rewrite Hclose. change (default false (Some false)) with false.
    unfold withTx. rewrite slot_tx_close_run. fold s.
    destruct (upsert_override_accepted st now1 (str (s_date body)) s false db d Hd Hs)
      as (dbu & -> & Hbu & Hsu & Hou); [lia|].
    rewrite Hd, Hbu, Hex0.
    unfold insert_booking. rewrite Hmail. cbn [andb negb].
    unfold Pg.bind, date_param. rewrite Hd. cbn [ret]. rewrite Hsu.
    destruct (Z.ltb_spec max_int4 (bookings_id_seq db)); [lia|].
    rewrite bool_decide_eq_true_2 by done. cbn [negb]. rewrite Hbu, Hex0.
    eexists. split; [reflexivity|]. cbn [bookings slot_overrides_id_seq id]. done. }
  destruct H1 as (db1 & Hr1 & Hb1 & Ho1).
  assert (Hblock : on_slot d s block = true) by (by apply on_slot_true).
  assert (Hex1 : existsb (on_slot d s) (bookings db1) = true).
  { rewrite Hb1, existsb_app. cbn [existsb]. by rewrite Hblock, orb_true_r. }
  assert (H2 : ∃ db2, r2 = (db2, closed_json false None) ∧ bookings db2 = bookings db1).
  { subst r2. rewrite Hr1. cbn [fst].
    rewrite (post_admin_api_slot_valid st now2 body db1 Hv).
    rewrite Hclose. change (default false (Some false)) with false.
    unfold withTx. rewrite slot_tx_close_run. fold s.
    destruct (upsert_override_accepted st now2 (str (s_date body)) s false db1 d Hd Hs)
      as (dbu & -> & Hbu & Hsu & Hou); [lia|].
    rewrite Hd, Hbu, Hex1. by eexists. }
  destruct H2 as (db2 & Hr2 & Hb2).
  rewrite Hr1, Hr2. cbn [fst snd]. rewrite Hb2, Hb1.
  split; [done|]. split; [done|]. split; [done|].
  rewrite filter_app.
  assert (Hnil : filter (λ b, on_slot d s b) (bookings db) = [])
    by (by apply filter_on_slot_nil).
  rewrite Hnil, filter_cons, decide_True by (by apply Is_true_true). done.
Qed.

(** C4 fails on a customer whose phone and Instagram handle are those of
    the administrative block.  Bob books slot A with phone [0] and handle
    [admin]; his row carries his own name, not the name the closing branch
    writes.  Reopening the slot deletes his booking and answers that an
    administrative block was removed: the DELETE compares phone and
    instagram only.  In general a row goes exactly when it is on the pair
    with that phone and that handle, whatever its name. *)
Theorem reopen_deletes_a_customer_booking :
  post_book schema_sql_email now0 db_now0 bob Pg.empty
  = ({| bookings := [{| id := 1; full_name := "Bob"; phone := "0"; instagram := "admin";
                        email := None; date := jun4; slot := "A";
                        created_at := db_now0 |}];
        slot_overrides := []; bookings_id_seq := 2; slot_overrides_id_seq := 1 |},
     booked_json 1 db_now0)
  ∧ "Bob" ≠ ADMIN_NAME
  ∧ post_admin_api_slot schema_sql_email db_now0 open_A
      (post_book schema_sql_email now0 db_now0 bob Pg.empty).1
    = ({| bookings := [];
          slot_overrides := [{| o_id := 1; o_date := jun4; o_slot := "A"; is_open := true;
                                o_created_at := db_now0 |}];
          bookings_id_seq := 2; slot_overrides_id_seq := 2 |},
       opened_json true)
  ∧ (∀ (st : Storage) (now : Z) (body : SlotBody) (db db' : Db) (removed : bool),
       post_admin_api_slot st now body db = (db', opened_json removed) →
       ∃ d, date_in st (str (s_date body)) = Some d
            ∧ (∀ b, b ∈ bookings db' ↔
                 b ∈ bookings db
                 ∧ ¬ (date b = d ∧ slot b = str (s_slot body)
                      ∧ phone b = ADMIN_PHONE ∧ instagram b = ADMIN_IG))
            ∧ (removed = true ↔
               ∃ b, b ∈ bookings db ∧ date b = d ∧ slot b = str (s_slot body)
                    ∧ phone b = ADMIN_PHONE ∧ instagram b = ADMIN_IG)).
Proof.
  split; [by vm_compute|]. split; [done|]. split; [by vm_compute|].
  intros st now body db db' removed Hpost.
  assert (Hopen : s_is_open body = Some true).
  { destruct (slot_request_valid body) eqn:Hv.
    2:{ by rewrite (post_admin_api_slot_invalid st now body db Hv) in Hpost. }
    rewrite (post_admin_api_slot_valid st now body db Hv) in Hpost.
    unfold slot_request_valid in Hv. apply andb_true_iff in Hv as [_ Hv'].
    apply bool_decide_eq_true in Hv'. destruct Hv' as [v Hv']. rewrite Hv' in *.
    destruct v; [done|]. exfalso.
    change (default false (Some false)) with false in Hpost.
    unfold withTx in Hpost. rewrite slot_tx_close_run in Hpost.
    destruct (upsert_override st now _ _ false db) as [db1 [e|[]]]; [done|].
    destruct (date_in st (str (s_date body))); [|done].
    destruct (existsb _ (bookings db1)); [done|].
    by destruct (insert_booking _ _ _ _ _ _ _ _ _ db1) as [db2 [e|ins]]. }
  destruct (reopen_deletes_matching_rows st now body db db' _ Hopen Hpost)
    as (_ & _ & Hrows & _).
  destruct (Hrows removed eq_refl) as (d & Hd & Hb & Hrem).
  exists d. split; [done|]. split; [|done].
  intros b. rewrite Hb, list_elem_of_filter. unfold admin_block_match.
  split.
  - intros [Hm Hin]. split; [done|]. intros (Hbd & Hbs & Hbp & Hbi).
    apply Is_true_true, negb_true_iff in Hm.
    assert (on_slot d (str (s_slot body)) b = true) as Hon by (by apply on_slot_true).
    rewrite Hon, !bool_decide_eq_true_2 in Hm by done. done.
  - intros [Hin Hno]. split; [|done].
    apply Is_true_true, negb_true_iff.
    destruct (on_slot d (str (s_slot body)) b) eqn:Hon; [|done].
    apply on_slot_true in Hon as [Hbd Hbs]. cbn [andb].
    destruct (bool_decide_reflect (phone b = ADMIN_PHONE)); [|done].
    destruct (bool_decide_reflect (instagram b = ADMIN_IG)); [|done].
    exfalso. by apply Hno.
Qed.

(** C6: closing slot C twice leaves no administrative block at all: the
    request passes validation, the upsert of the Override is refused by
    CHECK (slot IN ('A','B')), and each call is rolled back and answered 500. *)
Theorem closing_slot_C_twice_leaves_no_block :
  slot_request_valid close_C = true
  ∧ ¬ has_booking Pg.empty jun4 "C"
  ∧ (post_admin_api_slot schema_sql now0 close_C Pg.empty).2
    = error_json 500 (Error "No se pudo actualizar el cupo")
  ∧ (post_admin_api_slot schema_sql now0 close_C
       (post_admin_api_slot schema_sql now0 close_C Pg.empty).1).2
    = error_json 500 (Error "No se pudo actualizar el cupo")
  ∧ bookings (post_admin_api_slot schema_sql now0 close_C
                (post_admin_api_slot schema_sql now0 close_C Pg.empty).1).1 = []
  ∧ bookings (post_admin_api_slot schema_sql_email now0 close_C
                (post_admin_api_slot schema_sql_email now0 close_C Pg.empty).1).1 = []
  ∧ upsert_override schema_sql now0 "2024-06-04" "C" false Pg.empty
    = ({| bookings := []; slot_overrides := []; bookings_id_seq := 1;
          slot_overrides_id_seq := 2 |}, inl (DatabaseError check_violation)).
Proof.
  split; [by vm_compute|].
  split; [by intros (b & Hb & _); apply elem_of_nil in Hb|].
  repeat split; by vm_compute.
Qed.

End AdminSlot.

(** ** The theorems on sample requests *)

Section OnSamplesSamples.
Import Js Pg Server Spec Samples.
#[local] Existing Instance iso_only.

Lemma book_then_cancel_restores_view_witness :
  db_ok schema_sql_email Pg.empty
  ∧ ∃ db2, delete_admin_api_booking (Int 1) (post_book schema_sql_email now0 db_now0 ana Pg.empty).1
           = (db2, ok_json)
           ∧ bookings db2 = [].
Proof.
  split; [apply empty_ok|].
  assert (Hbook : post_book schema_sql_email now0 db_now0 ana Pg.empty
                  = ((post_book schema_sql_email now0 db_now0 ana Pg.empty).1, booked_json 1 db_now0))
    by (by vm_compute).
  destruct (book_then_cancel_restores_view schema_sql_email now0 db_now0 ana Pg.empty _ 1
              db_now0 (empty_ok _) Hbook) as (db2 & d & Hdel & _ & Hb & _).
  exists db2. by split.
Defined.

End OnSamplesSamples.

(** ** Dates written and read back *)

Section DateRoundTrip.
Import Js Pg Server Spec More Samples.
Context {engine : Engine}.

Lemma MakeDay_civil y m d : 1 ≤ m ≤ 12 → MakeDay y (m - 1) d = days_from_civil y m d.
Proof.
  intros Hm. unfold MakeDay.
  rewrite Z.div_small by lia. rewrite Z.mod_small by lia.
  replace (y + 0) with y by lia. replace (m - 1 + 1) with m by lia.
  rewrite (days_from_civil_day y m d). lia.
Qed.

Lemma days_from_civil_bound y m d :
  0 ≤ y ≤ 9999 → 1 ≤ m ≤ 12 → 1 ≤ d ≤ 31 →
  Z.abs (days_from_civil y m d) ≤ 3000000.
Proof.
  intros Hy Hm Hd. unfold days_from_civil. cbv zeta.
  destruct (m <=? 2); destruct (2 <? m); Z.div_mod_to_equations; lia.
Qed.

(** Four digits are read as a year. *)
Lemma parse_year_digits a b c e r y :
  four_digits a b c e = Some y →
  parse_year (String a (String b (String c (String e r)))) = Some (y, r).
Proof.
  intros H.
  assert (Ha : a ≠ "+"%char ∧ a ≠ "-"%char).
  { split; intros ->; by vm_compute in H. }
  destruct Ha as [Hp Hm].
  destruct a as [[] [] [] [] [] [] [] []]; try done;
    unfold parse_year; by rewrite H.
Qed.

(** [parse_ymd] reads what [toISODate] writes, for a four-digit year. *)
Lemma parse_ymd_of_text y m d :
  1000 ≤ y ≤ 9999 → 1 ≤ m ≤ 12 → 1 ≤ d ≤ 31 →
  parse_ymd (show_Z y ++ "-" ++ padStart2 (show_Z m) ++ "-" ++ padStart2 (show_Z d))
  = Some (y, m, d).
Proof.
  intros Hy Hm Hd.
  pose proof (four_digit_text_all y Hy) as H4. unfold four_digit_text in H4.
  destruct (show_Z y) as [|a [|b [|c [|e [|? ?]]]]]; try done.
  apply bool_decide_eq_true in H4.
  destruct (padStart2_digits m) as (m1 & m2 & -> & Hm12); [lia|].
  destruct (padStart2_digits d) as (d1 & d2 & -> & Hd12); [lia|].
  change (parse_ymd (String a (String b (String c (String e
            (String "-" (String m1 (String m2 (String "-" (String d1 (String d2 ""))))))))))
          = Some (y, m, d)).
  unfold parse_ymd. rewrite (parse_year_digits a b c e _ y H4), Hm12, Hd12.
  destruct (Z.leb_spec 1 m); [|lia]. destruct (Z.leb_spec m 12); [|lia].
  destruct (Z.leb_spec 1 d); [|lia]. destruct (Z.leb_spec d 31); [|lia]. done.
Qed.

Lemma toISODate_read_back_aux (t : Z) :
  1000 ≤ YearFromTime t ≤ 9999 →
  Date_at_midnight (toISODate (Some t)) = Some (Day t * msPerDay).
Proof.
  intros Hy. unfold YearFromTime in Hy.
  pose proof (civil_from_days_range (Day t)) as [Hm Hd].
  destruct (civil_from_days (Day t)) as [[y m] d] eqn:E. cbn [fst snd] in *.
  rewrite (toISODate_civil t y m d E).
  unfold Date_at_midnight. rewrite (parse_ymd_of_text y m d Hy Hm Hd).
  rewrite (MakeDay_civil y m d Hm).
  pose proof (days_from_civil_bound y m d ltac:(lia) Hm Hd) as Hb.
  rewrite (days_from_civil_from_days _ _ _ _ E) in *.
  unfold MakeDate, TimeClip. rewrite Z.add_0_r.
  destruct (Z.leb_spec (Z.abs (Day t * msPerDay)) maxTime) as [|Hbad]; [done|].
  exfalso. revert Hb Hbad. unfold msPerDay, maxTime. lia.
Qed.

(** X1: for a date in the years 1000 to 9999, [new Date] on the text
    [toISODate] wrote is the midnight of the same day, and [toISODate] of
    that midnight is the same text again; two dates have one text exactly
    when they fall on one day. *)
Theorem toISODate_read_back (t : Z) :
  1000 ≤ YearFromTime t ≤ 9999 →
  Date_at_midnight (toISODate (Some t)) = Some (Day t * msPerDay)
  ∧ toISODate (Date_at_midnight (toISODate (Some t))) = toISODate (Some t)
  ∧ (∀ u, toISODate (Some u) = toISODate (Some t) ↔ Day u = Day t).
Proof.
  intros Hy. pose proof (toISODate_read_back_aux t Hy) as H.
  split; [exact H|]. split.
  - rewrite H, !toISODate_date_text. by rewrite Day_of_day.
  - intros u. rewrite !toISODate_date_text. split; [apply date_text_inj | by intros ->].
Qed.

End DateRoundTrip.

Section DateRoundTripSamples.
Import Js Pg Server Spec More Samples.
#[local] Existing Instance iso_only.

Lemma toISODate_read_back_witness :
  1000 ≤ YearFromTime now0 ≤ 9999
  ∧ Date_at_midnight (toISODate (Some now0)) = Some (Day now0 * msPerDay).
Proof.
  assert (H : 1000 ≤ YearFromTime now0 ≤ 9999) by (by vm_compute).
  split; [exact H|]. apply (toISODate_read_back now0 H).
Defined.

End DateRoundTripSamples.

(** ** The window of today *)

Section TodayWindow.
Import Js Pg Server Spec More Samples.
Context {engine : Engine}.

Lemma isWeekday_number u : isWeekday (Some u) = weekday_number (Day u).
Proof. done. Qed.

(** From a midnight [D], [rollingWindow] lists the weekdays among the
    scanned days, as long as the scan stays within the range of [Date]. *)
Lemma window_day_numbers_weekdays startStr days D :
  Date_at_midnight startStr = Some (D * msPerDay) →
  Z.abs (D * msPerDay) ≤ maxTime →
  Z.abs ((D + Z.of_nat (trips days)) * msPerDay) ≤ maxTime →
  window_day_numbers startStr days
  = filter (λ d, weekday_number d) (seqZ D (Z.of_nat (trips days))).
Proof.
  intros E Hlo Hhi. unfold window_day_numbers. rewrite E.
  unfold raw_scan, seqZ. rewrite Nat2Z.id.
  assert (Hl : Forall (λ i : nat, (i ≤ trips days)%nat) (seq 0 (trips days))).
  { apply list.Forall_forall. intros i Hi. apply elem_of_seq in Hi. lia. }
  induction Hl as [|i l Hi _ IH]; [done|].
  cbn [map omap list_omap fmap list_fmap]. rewrite filter_cons.
  assert (Hclip : TimeClip (D * msPerDay + Z.of_nat i * msPerDay)
                  = Some ((Z.of_nat i + D) * msPerDay)).
  { unfold TimeClip.
    destruct (Z.leb_spec (Z.abs (D * msPerDay + Z.of_nat i * msPerDay)) maxTime) as [_|Hbad].
    - f_equal. lia.
    - exfalso. revert Hlo Hhi Hbad. unfold msPerDay, maxTime. lia. }
  rewrite Hclip, isWeekday_number, Day_of_day.
  destruct (weekday_number (Z.of_nat i + D)) eqn:Hw.
  - rewrite decide_True by by apply Is_true_true.
    cbn [fmap option_fmap option_map]. rewrite Day_of_day. f_equal. exact IH.
  - rewrite decide_False by by apply Is_true_false. exact IH.
Qed.

(** [todayCST] is the midnight that began the current day. *)
Lemma todayCST_midnight now :
  1000 ≤ YearFromTime now ≤ 9999 → todayCST now = Some (Day now * msPerDay).
Proof.
  intros Hy. unfold todayCST, getUTCFullYear, getUTCMonth, getUTCDate, Date_UTC.
  unfold YearFromTime, MonthFromTime, DateFromTime in *.
  pose proof (civil_from_days_range (Day now)) as [Hm Hd].
  destruct (civil_from_days (Day now)) as [[y m] d] eqn:E. cbn [fst snd] in *.
  destruct (Z.leb_spec 0 y); [|lia]. destruct (Z.leb_spec y 99); [lia|]. cbn [andb].
  rewrite (MakeDay_civil y m d Hm).
  pose proof (days_from_civil_bound y m d ltac:(lia) Hm Hd) as Hb.
  rewrite (days_from_civil_from_days _ _ _ _ E) in *.
  unfold MakeDate, TimeClip. rewrite Z.add_0_r.
  destruct (Z.leb_spec (Z.abs (Day now * msPerDay)) maxTime) as [|Hbad]; [done|].
  exfalso. revert Hb Hbad. unfold msPerDay, maxTime. lia.
Qed.

Lemma weekday_number_mod d i : weekday_number (d + i) = weekday_number (d mod 7 + i).
Proof.
  unfold weekday_number.
  replace ((d mod 7 + i + 4) mod 7) with ((d + i + 4) mod 7); [done|].
  rewrite <- (Z.add_assoc (d mod 7)), Z.add_mod_idemp_l by lia.
  by rewrite Z.add_assoc.
Qed.

(** Any fourteen consecutive days hold ten weekdays. *)
Lemma ten_weekdays D :
  length (filter (λ d, weekday_number d) (seqZ D 14)) = 10%nat.
Proof.
  assert (Hper : ∀ l : list nat,
            length (filter (λ d, weekday_number d) ((λ i : nat, Z.of_nat i + D) <$> l))
            = length (filter (λ d, weekday_number d)
                        ((λ i : nat, Z.of_nat i + D mod 7) <$> l))).
  { induction l as [|i l IH]; [done|].
    cbn [fmap list_fmap]. rewrite !filter_cons.
    assert (Hwd : weekday_number (Z.of_nat i + D) = weekday_number (Z.of_nat i + D mod 7))
      by (rewrite !(Z.add_comm (Z.of_nat i)); apply weekday_number_mod).
    rewrite Hwd. destruct (weekday_number (Z.of_nat i + D mod 7)).
    - rewrite !decide_True by done. cbn [length]. f_equal. exact IH.
    - rewrite !decide_False by (by intros []). exact IH. }
  unfold seqZ. rewrite Hper. clear Hper. fold (seqZ (D mod 7) 14).
  pose proof (Z.mod_pos_bound D 7 ltac:(lia)) as Hr.
  set (r := D mod 7) in *. clearbody r.
  assert (r = 0 ∨ r = 1 ∨ r = 2 ∨ r = 3 ∨ r = 4 ∨ r = 5 ∨ r = 6) as Hcases by lia.
  destruct Hcases as [->|[->|[->|[->|[->|[->| ->]]]]]]; by vm_compute.
Qed.

Lemma today_window_days (now : Z) :
  1000 ≤ YearFromTime now ≤ 9999 →
  window_day_numbers (toISODate (todayCST now)) (Int 14)
  = filter (λ d, weekday_number d) (seqZ (Day now) 14)
  ∧ Z.abs (Day now) ≤ 3000000.
Proof.
  intros Hy.
  rewrite (todayCST_midnight now Hy).
  assert (Hy' : 1000 ≤ YearFromTime (Day now * msPerDay) ≤ 9999)
    by (unfold YearFromTime in *; by rewrite Day_of_day).
  pose proof (toISODate_read_back_aux _ Hy') as Hrb. rewrite Day_of_day in Hrb.
  assert (Hb : Z.abs (Day now) ≤ 3000000).
  { unfold YearFromTime in Hy.
    pose proof (civil_from_days_range (Day now)) as [Hm Hd].
    destruct (civil_from_days (Day now)) as [[y m] d] eqn:E. cbn [fst snd] in *.
    pose proof (days_from_civil_bound y m d ltac:(lia) Hm Hd) as Hb.
    by rewrite (days_from_civil_from_days _ _ _ _ E) in Hb. }
  split; [|exact Hb].
  apply (window_day_numbers_weekdays _ (Int 14) (Day now) Hrb).
  - revert Hb. unfold msPerDay, maxTime. lia.
  - change (Z.of_nat (trips (Int 14))) with 14.
    revert Hb. unfold msPerDay, maxTime. lia.
Qed.

(** X2: in the years 1000 to 9999, the window POST /book validates against
    holds exactly the weekdays among today and the thirteen days after it,
    in order: always ten dates. *)
Theorem book_window_is_ten_weekdays (now : Z) :
  1000 ≤ YearFromTime now ≤ 9999 →
  rollingWindow (toISODate (todayCST now)) (Int 14)
  = map date_text (filter (λ d, weekday_number d) (seqZ (Day now) 14))
  ∧ length (rollingWindow (toISODate (todayCST now)) (Int 14)) = 10%nat.
Proof.
  intros Hy.
  assert (Hw : rollingWindow (toISODate (todayCST now)) (Int 14)
               = map date_text (filter (λ d, weekday_number d) (seqZ (Day now) 14))).
  { rewrite rollingWindow_day_numbers. f_equal.
    by destruct (today_window_days now Hy). }
  split; [exact Hw|]. rewrite Hw, length_map. apply ten_weekdays.
Qed.

End TodayWindow.

Section TodayWindowSamples.
Import Js Pg Server Spec More Samples.
#[local] Existing Instance iso_only.

Lemma book_window_is_ten_weekdays_witness :
  1000 ≤ YearFromTime now0 ≤ 9999
  ∧ length (rollingWindow (toISODate (todayCST now0)) (Int 14)) = 10%nat.
Proof.
  assert (H : 1000 ≤ YearFromTime now0 ≤ 9999) by (by vm_compute).
  split; [exact H|]. apply (book_window_is_ten_weekdays now0 H).
Defined.

End TodayWindowSamples.

(** ** Invariants of the stored rows *)

Section StoredRows.
Import Js Pg Server Spec More Samples.
Context {engine : Engine}.

(** X3: a booking POST /book accepts is always on a weekday among today and
    the thirteen days after it, when the storage reads the window's dates
    back as the days they denote. *)
Theorem accepted_booking_is_on_a_window_weekday
    (st : Storage) (now db_now : Z) (body : BookBody) (db db1 : Db) (bid created : Z) :
  1000 ≤ YearFromTime now ≤ 9999 →
  Forall (cast_agrees st) (window_day_numbers (toISODate (todayCST now)) (Int 14)) →
  post_book st now db_now body db = (db1, booked_json bid created) →
  ∃ row, bookings db1 = (bookings db ++ [row])%list
         ∧ id row = bid
         ∧ Day now ≤ date row < Day now + 14
         ∧ 1 ≤ (date row + 4) mod 7 ≤ 5.
Proof.
  intros Hy Hcast Hbook.
  apply post_book_done in Hbook
    as (Hv & d & row & Hd & Hid & _ & _ & Hrd & _ & Hb1 & _).
  pose proof (valid_date_in_window st now body d Hv Hd Hcast) as Hin.
  destruct (today_window_days now Hy) as [Hwin _]. rewrite Hwin in Hin.
  apply list_elem_of_filter in Hin as [Hw Hin].
  apply elem_of_seqZ in Hin.
  apply Is_true_true in Hw. unfold weekday_number in Hw.
  apply andb_true_iff in Hw as [Hw1 Hw2].
  apply Z.leb_le in Hw1. apply Z.leb_le in Hw2.
  exists row. rewrite Hrd. repeat split; try done; lia.
Qed.

(** X4: whatever requests the two versions of the server have handled, the
    tables hold at most one Booking and at most one Override per
    (date, slot), and no two Bookings share an id. *)
Theorem one_row_per_date_and_slot (st : Storage) (db : Db) :
  reachable st db →
  (∀ b1 b2, b1 ∈ bookings db → b2 ∈ bookings db →
     date b1 = date b2 → slot b1 = slot b2 → b1 = b2)
  ∧ (∀ o1 o2, o1 ∈ slot_overrides db → o2 ∈ slot_overrides db →
       o_date o1 = o_date o2 → o_slot o1 = o_slot o2 → o1 = o2)
  ∧ (∀ b1 b2, b1 ∈ bookings db → b2 ∈ bookings db → id b1 = id b2 → b1 = b2)
  ∧ (∀ b, b ∈ bookings db → id b < bookings_id_seq db).
Proof.
  intros Hr. destruct (reachable_ok st db Hr) as [H1 H2 H3 H4 _ _ _].
  split; [|split; [|split]].
  - intros b1 b2 Hb1 Hb2 Hd Hs.
    apply (NoDup_fmap_same (λ b, (date b, slot b)) (bookings db)); try done.
    cbn. congruence.
  - intros o1 o2 Ho1 Ho2 Hd Hs.
    apply (NoDup_fmap_same (λ o, (o_date o, o_slot o)) (slot_overrides db)); try done.
    cbn. congruence.
  - intros b1 b2 Hb1 Hb2 Hid.
    by apply (NoDup_fmap_same id (bookings db)).
  - intros b Hb. rewrite list.Forall_forall in H3. by apply H3.
Qed.

End StoredRows.

Section StoredRowsSamples.
Import Js Pg Server Spec More Samples.
#[local] Existing Instance iso_only.

Lemma accepted_booking_is_on_a_window_weekday_witness :
  1000 ≤ YearFromTime now0 ≤ 9999
  ∧ ∃ row, bookings (post_book schema_sql_email now0 db_now0 ana Pg.empty).1 = [row]
           ∧ 1 ≤ (date row + 4) mod 7 ≤ 5.
Proof.
  assert (Hy : 1000 ≤ YearFromTime now0 ≤ 9999) by (by vm_compute).
  split; [exact Hy|].
  assert (Hcast : Forall (cast_agrees schema_sql_email)
                    (window_day_numbers (toISODate (todayCST now0)) (Int 14))).
  { unfold cast_agrees.
    apply (bool_decide_unpack
             (Forall (λ d, date_in schema_sql_email (date_text d) = Some d)
                (window_day_numbers (toISODate (todayCST now0)) (Int 14)))).
    by vm_compute. }
  assert (Hbook : post_book schema_sql_email now0 db_now0 ana Pg.empty
                  = ((post_book schema_sql_email now0 db_now0 ana Pg.empty).1, booked_json 1 db_now0))
    by (by vm_compute).
  destruct (accepted_booking_is_on_a_window_weekday schema_sql_email now0 db_now0 ana Pg.empty _ 1 db_now0
              Hy Hcast Hbook) as (row & Hrow & _ & _ & Hwd).
  exists row. split; [exact Hrow | exact Hwd].
Defined.

Lemma one_row_per_date_and_slot_witness :
  reachable schema_sql_email (post_book schema_sql_email now0 db_now0 ana Pg.empty).1
  ∧ ∀ b, b ∈ bookings (post_book schema_sql_email now0 db_now0 ana Pg.empty).1 →
         id b < bookings_id_seq (post_book schema_sql_email now0 db_now0 ana Pg.empty).1.
Proof.
  assert (Hr : reachable schema_sql_email (post_book schema_sql_email now0 db_now0 ana Pg.empty).1).
  { apply (reachable_step schema_sql_email Pg.empty (Book now0 db_now0 ana)), reachable_empty. }
  split; [exact Hr|].
  apply (one_row_per_date_and_slot schema_sql_email _ Hr).
Defined.

End StoredRowsSamples.

(** ** What closing and opening a slot leave behind *)

Section SlotEffects.
Import Js Pg Server Spec More Samples.
Context {engine : Engine}.

(** The Overrides after an upsert: the rows of the pair carry the new value,
    the pair has a row, and the rows of other pairs are as before. *)
Lemma upsert_override_rows st now date_s slot_s v db db' d :
  date_in st date_s = Some d →
  upsert_override st now date_s slot_s v db = (db', inr tt) →
  (∀ o, o ∈ slot_overrides db' → o_date o = d → o_slot o = slot_s → is_open o = v)
  ∧ (∃ o, o ∈ slot_overrides db' ∧ o_date o = d ∧ o_slot o = slot_s)
  ∧ (∀ o, ¬ (o_date o = d ∧ o_slot o = slot_s) →
       o ∈ slot_overrides db' ↔ o ∈ slot_overrides db).
Proof.
  intros Hd. unfold upsert_override, Pg.bind, date_param. rewrite Hd. unfold ret.
  destruct (max_int4 <? slot_overrides_id_seq db); [done|].
  destruct (negb _); [done|].
  destruct (existsb (override_on_slot d slot_s) (slot_overrides db)) eqn:Hex;
    intros [= <-]; cbn [slot_overrides].
  - split; [|split].
    + intros o Ho Hod Hos. apply list_elem_of_fmap in Ho as (o0 & -> & Ho0).
      destruct (override_on_slot d slot_s o0) eqn:E; [done|].
      exfalso. assert (override_on_slot d slot_s o0 = true); [|congruence].
      by apply override_on_slot_true.
    + apply existsb_elem_of in Hex as (o0 & Ho0 & E).
      exists (set_is_open v o0). split.
      * apply list_elem_of_fmap. exists o0. by rewrite E.
      * by apply override_on_slot_true in E.
    + intros o Hne. rewrite list_elem_of_fmap. split.
      * intros (o0 & -> & Ho0). destruct (override_on_slot d slot_s o0) eqn:E; [|done].
        exfalso. apply Hne. by apply override_on_slot_true in E.
      * intros Ho. exists o. split; [|done].
        destruct (override_on_slot d slot_s o) eqn:E; [|done].
        exfalso. apply Hne. by apply override_on_slot_true in E.
  - split; [|split].
    + intros o Ho Hod Hos. apply elem_of_app in Ho as [Ho|Ho].
      * exfalso. assert (existsb (override_on_slot d slot_s) (slot_overrides db) = true);
          [|congruence].
        apply existsb_elem_of. exists o. split; [done|]. by apply override_on_slot_true.
      * by apply list_elem_of_singleton in Ho as ->.
    + eexists. split; [apply elem_of_app; right; apply list_elem_of_here|]. done.
    + intros o Hne. rewrite elem_of_app, list_elem_of_singleton. split; [|by left].
      intros [Ho| ->]; [done|]. exfalso. by apply Hne.
Qed.

(** The answers of POST /admin/api/slot. *)
Lemma post_admin_api_slot_answers st now body db :
  let r := post_admin_api_slot st now body db in
  (∃ status e, r.2 = error_json status e
               ∧ bookings r.1 = bookings db ∧ slot_overrides r.1 = slot_overrides db)
  ∨ (∃ d v dbu,
       slot_request_valid body = true
       ∧ s_is_open body = Some v
       ∧ date_in st (str (s_date body)) = Some d
       ∧ upsert_override st now (str (s_date body)) (str (s_slot body)) v db = (dbu, inr tt)
       ∧ slot_overrides r.1 = slot_overrides dbu
       ∧ ((v = true ∧ ∃ removed, r.2 = opened_json removed)
          ∨ (v = false ∧ ∃ created i, r.2 = closed_json created i))).
Proof.
  intros r. subst r.
  destruct (slot_request_valid body) eqn:Hv.
  2:{ left. rewrite (post_admin_api_slot_invalid st now body db Hv). by eexists _, _. }
  rewrite (post_admin_api_slot_valid st now body db Hv).
  assert (∃ v, s_is_open body = Some v) as [v Hopen].
  { unfold slot_request_valid in Hv. apply andb_true_iff in Hv as [_ Hv].
    apply bool_decide_eq_true in Hv. by destruct Hv as [v ->]; exists v. }
  rewrite Hopen. change (default false (Some v)) with v.
  unfold withTx. destruct v.
  - rewrite slot_tx_open_run.
    destruct (upsert_override st now _ _ true db) as [dbu [e|[]]] eqn:Hup.
    { left. by eexists _, _. }
    destruct (upsert_override_done _ _ _ _ _ _ _ Hup) as (d & Hd & _).
    rewrite Hd. right. exists d, true, dbu. cbn [fst snd slot_overrides].
    repeat split; try done. left. split; [done|]. by eexists.
  - rewrite slot_tx_close_run.
    destruct (upsert_override st now _ _ false db) as [dbu [e|[]]] eqn:Hup.
    { left. by eexists _, _. }
    destruct (upsert_override_done _ _ _ _ _ _ _ Hup) as (d & Hd & _).
    rewrite Hd.
    destruct (existsb (on_slot d (str (s_slot body))) (bookings dbu)).
    { right. exists d, false, dbu. cbn [fst snd].
      repeat split; try done. right. split; [done|]. by eexists _, _. }
    destruct (insert_booking _ _ _ _ _ _ _ _ _ dbu) as [db2 [e|ins]] eqn:Hins.
    { left. by eexists _, _. }
    apply insert_booking_done in Hins as (_ & _ & _ & _ & Ho2 & _).
    right. exists d, false, dbu. cbn [fst snd].
    repeat split; try done. right. split; [done|]. by eexists _, _.
Qed.

(** X5: POST /admin/api/slot is all or nothing.  Answered with an error
    (400 or 500), it leaves both tables as they were, the upsert of the
    Override included; answered otherwise, it has stored [is_open] for the
    pair (every Override row of the pair carries it, and there is one) and
    has left the Overrides of the other pairs alone. *)
Theorem slot_override_is_all_or_nothing
    (st : Storage) (now : Z) (body : SlotBody) (db db' : Db) (resp : Response) :
  post_admin_api_slot st now body db = (db', resp) →
  (∀ status e, resp = error_json status e →
     bookings db' = bookings db ∧ slot_overrides db' = slot_overrides db)
  ∧ ((∀ status e, resp ≠ error_json status e) →
     ∃ d v, date_in st (str (s_date body)) = Some d
            ∧ s_is_open body = Some v
            ∧ (v = true → ∃ removed, resp = opened_json removed)
            ∧ (v = false → ∃ created i, resp = closed_json created i)
            ∧ (∀ o, o ∈ slot_overrides db' → o_date o = d →
                    o_slot o = str (s_slot body) → is_open o = v)
            ∧ (∃ o, o ∈ slot_overrides db' ∧ o_date o = d ∧ o_slot o = str (s_slot body))
            ∧ (∀ o, ¬ (o_date o = d ∧ o_slot o = str (s_slot body)) →
                 o ∈ slot_overrides db' ↔ o ∈ slot_overrides db)).
Proof.
  intros Hpost.
  pose proof (post_admin_api_slot_answers st now body db) as Hans.
  cbv zeta in Hans. rewrite Hpost in Hans. cbn [fst snd] in Hans.
  destruct Hans as [(status & e & -> & Hb & Ho)
                   |(d & v & dbu & Hv & Hopen & Hd & Hup & Ho & Hresp)].
  - split; [done|]. intros Hne. by destruct (Hne status e).
  - destruct (upsert_override_rows _ _ _ _ _ _ _ d Hd Hup) as (Hall & Hex & Hother).
    split.
    + intros status e ->. by destruct Hresp as [[_ [? ?]]|[_ (? & ? & ?)]].
    + intros _. exists d, v. rewrite Ho.
      split; [done|]. split; [done|]. split; [|split]; [| |done].
      * intros ->. by destruct Hresp as [[_ ?]|[? _]].
      * intros ->. by destruct Hresp as [[? _]|[_ ?]].
Qed.

End SlotEffects.

Section SlotEffectsSamples.
Import Js Pg Server Spec More Samples.
#[local] Existing Instance iso_only.

Lemma slot_override_is_all_or_nothing_witness :
  post_admin_api_slot schema_sql now0 close_C Pg.empty
  = ((post_admin_api_slot schema_sql now0 close_C Pg.empty).1,
     error_json 500 (Error "No se pudo actualizar el cupo"))
  ∧ bookings (post_admin_api_slot schema_sql now0 close_C Pg.empty).1 = bookings Pg.empty
  ∧ slot_overrides (post_admin_api_slot schema_sql now0 close_C Pg.empty).1
    = slot_overrides Pg.empty.
Proof.
  assert (Hpost : post_admin_api_slot schema_sql now0 close_C Pg.empty
                  = ((post_admin_api_slot schema_sql now0 close_C Pg.empty).1,
                     error_json 500 (Error "No se pudo actualizar el cupo")))
    by (by vm_compute).
  split; [exact Hpost|].
  exact (proj1 (slot_override_is_all_or_nothing schema_sql now0 close_C Pg.empty _ _ Hpost)
               500 (Error "No se pudo actualizar el cupo") eq_refl).
Defined.

End SlotEffectsSamples.

(** ** A closed slot *)

Section ClosedSlot.
Import Js Pg Server Spec More Samples.
Context {engine : Engine}.

Lemma valid_slot_body_in_order body :
  slot_request_valid body = true → str (s_slot body) ∈ SLOT_ORDER.
Proof.
  unfold slot_request_valid. rewrite !andb_true_iff.
  intros [[_ Hinc] _]. unfold includes in Hinc.
  destruct (s_slot body) as [s|]; [|done].
  apply bool_decide_eq_true in Hinc. change (str (Some s)) with s.
  unfold SLOT_KEYS, SLOT_MAP in Hinc. cbn [map fst] in Hinc.
  unfold SLOT_ORDER. exact Hinc.
Qed.

(** The answer of GET /availability on a pair that holds a Booking, on a
    date the database writes as the handler does. *)
Lemma get_availability_booked st now q db d s :
  NoDup (map (λ o, (o_date o, o_slot o)) (slot_overrides db)) →
  s ∈ SLOT_ORDER →
  has_booking db d s →
  text_agrees d →
  Forall (cast_agrees st)
    (window_day_numbers (or_else (q_start q) (toISODate (todayCST now))) (window_days q)) →
  ∃ out, get_availability st now q db = availability_json out
         ∧ ∀ i, window_day_numbers (or_else (q_start q) (toISODate (todayCST now)))
                  (window_days q) !! i = Some d →
             ∃ e v, out !! i = Some e ∧ day e = date_text d
                    ∧ get_prop (slots e) s = Some v
                    ∧ open v = false ∧ booked v = true.
Proof.
  intros Hnd Hs Hbk Ht Hcast.
  destruct (get_availability_view st now q db Hnd Hcast) as (out & Hout & _ & Hview).
  exists out. split; [done|]. intros i Hi.
  destruct (Hview i d s Hi Hs) as (e & v & He & Hday & Hprop & Hvw & _).
  destruct (Hvw Ht) as (Hb & _ & _ & Hop).
  exists e, v. split; [done|]. split; [done|]. split; [done|].
  split; [by apply Hop | by apply Hb].
Qed.

(** The answer of GET /availability on a free pair whose Override is closed. *)
Lemma get_availability_closed st now q db d s o :
  NoDup (map (λ o, (o_date o, o_slot o)) (slot_overrides db)) →
  s ∈ SLOT_ORDER →
  ¬ has_booking db d s →
  o ∈ slot_overrides db → o_date o = d → o_slot o = s → is_open o = false →
  text_agrees d →
  Forall (cast_agrees st)
    (window_day_numbers (or_else (q_start q) (toISODate (todayCST now))) (window_days q)) →
  ∃ out, get_availability st now q db = availability_json out
         ∧ ∀ i, window_day_numbers (or_else (q_start q) (toISODate (todayCST now)))
                  (window_days q) !! i = Some d →
             ∃ e v, out !! i = Some e ∧ day e = date_text d
                    ∧ get_prop (slots e) s = Some v
                    ∧ open v = false ∧ booked v = false.
Proof.
  intros Hnd Hs Hfree Ho Hod Hos Hcl Ht Hcast.
  destruct (get_availability_view st now q db Hnd Hcast) as (out & Hout & _ & Hview).
  exists out. split; [done|]. intros i Hi.
  destruct (Hview i d s Hi Hs) as (e & v & He & Hday & Hprop & Hvw & _).
  destruct (Hvw Ht) as (Hb & Hov & _ & _).
  exists e, v. split; [done|]. split; [done|]. split; [done|].
  rewrite (Hov o Ho Hod Hos), Hcl. split; [done|].
  destruct (booked v); [|done]. exfalso. by apply Hfree, Hb.
Qed.

(** What an answer [closed_json] tells. *)
Lemma closed_answer st now body db db' created i :
  post_admin_api_slot st now body db = (db', closed_json created i) →
  ∃ d dbu,
    slot_request_valid body = true
    ∧ date_in st (str (s_date body)) = Some d
    ∧ upsert_override st now (str (s_date body)) (str (s_slot body)) false db = (dbu, inr tt)
    ∧ slot_overrides db' = slot_overrides dbu
    ∧ has_booking db' d (str (s_slot body))
    ∧ (created = true ↔ ¬ has_booking db d (str (s_slot body)))
    ∧ (created = false → bookings db' = bookings db ∧ i = None)
    ∧ (created = true →
         i = Some (bookings_id_seq db) ∧ bookings_id_seq db ≤ max_int4
         ∧ bookings db'
           = (bookings db
              ++ [{| id := bookings_id_seq db; full_name := ADMIN_NAME;
                     phone := ADMIN_PHONE; instagram := ADMIN_IG; email := None;
                     date := d; slot := str (s_slot body); created_at := now |}])%list).
Proof.
  intros Hpost.
  destruct (slot_request_valid body) eqn:Hv.
  2:{ by rewrite (post_admin_api_slot_invalid st now body db Hv) in Hpost. }
  rewrite (post_admin_api_slot_valid st now body db Hv) in Hpost.
  assert (∃ v, s_is_open body = Some v) as [v Hopen].
  { unfold slot_request_valid in Hv. apply andb_true_iff in Hv as [_ Hv'].
    apply bool_decide_eq_true in Hv'. by destruct Hv' as [v ->]; exists v. }
  rewrite Hopen in Hpost. change (default false (Some v)) with v in Hpost.
  unfold withTx in Hpost. destruct v.
  { rewrite slot_tx_open_run in Hpost.
    destruct (upsert_override st now _ _ true db) as [dbu [e|[]]]; [done|].
    by destruct (date_in st (str (s_date body))). }
  rewrite slot_tx_close_run in Hpost.
  destruct (upsert_override st now _ _ false db) as [dbu [e|[]]] eqn:Hup; [done|].
  destruct (upsert_override_done _ _ _ _ _ _ _ Hup) as (d & Hd & Hbu & Hsu & _).
  rewrite Hd in Hpost.
  assert (Hsame : has_booking dbu d (str (s_slot body)) ↔ has_booking db d (str (s_slot body))).
  { unfold has_booking. by rewrite Hbu. }
  pose proof (existsb_on_slot dbu d (str (s_slot body))) as Hex.
  destruct (existsb (on_slot d (str (s_slot body))) (bookings dbu)) eqn:E.
  - injection Hpost as <- <- <-. exists d, dbu.
    assert (has_booking dbu d (str (s_slot body))) as Hb by (by apply Hex).
    split; [done|]. split; [done|]. split; [done|]. split; [done|].
    split; [done|].
    split; [|split; [done|done]]. split; [done|]. intros Hn. exfalso. by apply Hn, Hsame.
  - destruct (insert_booking _ _ _ _ _ _ _ _ _ dbu) as [db2 [e|ins]] eqn:Hins; [done|].
    injection Hpost as <- <- <-.
    apply insert_booking_done in Hins as (d' & Hd' & -> & Hb2 & Ho2 & Hmax & _).
    rewrite Hd in Hd'. injection Hd' as <-.
    exists d, dbu. split; [done|]. split; [done|]. split; [done|]. split; [done|].
    split; [|split; [|split; [done|]]].
    + eexists. split; [rewrite Hb2; apply elem_of_app; right; apply list_elem_of_here|].
      done.
    + split; [|done]. intros _ Hb. apply Hsame, Hex in Hb. done.
    + intros _. cbn [id]. rewrite Hb2, Hbu, Hsu. rewrite Hsu in Hmax. done.
Qed.

(** POST /book keeps the rows it finds and writes no Override. *)
Lemma post_book_keeps st now db_now body db :
  (∀ b, b ∈ bookings db → b ∈ bookings (post_book st now db_now body db).1)
  ∧ slot_overrides (post_book st now db_now body db).1 = slot_overrides db.
Proof.
  destruct (book_request_valid now body) eqn:Hv.
  2:{ destruct (post_book_invalid st now db_now body db Hv) as [m ->]. done. }
  rewrite (post_book_valid st now db_now body db Hv). unfold withTx.
  destruct (book_tx st db_now _ _ _ _ _ _ db) as [db2 [e|row]] eqn:Htx; [done|].
  cbn [fst]. rewrite book_tx_run in Htx.
  destruct (date_in st (str (r_date body))) as [d|]; [|done].
  destruct (existsb _ (bookings db)); [done|].
  destruct (match filter _ (slot_overrides db) with [] => false | _ :: _ => _ end);
    [done|].
  destruct (insert_booking _ _ _ _ _ _ _ _ _ db) as [db3 [e|row']] eqn:Hins; [done|].
  injection Htx as <- <-.
  apply insert_booking_done in Hins as (d' & _ & _ & Hb & Ho & _).
  split; [|done]. intros b Hin. rewrite Hb. apply elem_of_app. by left.
Qed.

(** Any number of POST /book calls, one after the other, keep the
    constraints, the Bookings they find and the Overrides. *)
Lemma books_keep st (calls : list (Z * Z * BookBody)) : ∀ db,
  db_ok st db →
  db_ok st (foldl (λ db c, (post_book st c.1.1 c.1.2 c.2 db).1) db calls)
  ∧ (∀ b, b ∈ bookings db →
       b ∈ bookings (foldl (λ db c, (post_book st c.1.1 c.1.2 c.2 db).1) db calls))
  ∧ slot_overrides (foldl (λ db c, (post_book st c.1.1 c.1.2 c.2 db).1) db calls)
    = slot_overrides db.
Proof.
  induction calls as [|c calls IH]; intros db Hok; [done|].
  cbn [foldl].
  destruct (IH _ (post_book_ok st c.1.1 c.1.2 c.2 db Hok)) as (Hok' & Hb & Ho).
  destruct (post_book_keeps st c.1.1 c.1.2 c.2 db) as [Hb1 Ho1].
  split; [done|]. split; [|by rewrite Ho].
  intros b Hin. by apply Hb, Hb1.
Qed.

(** X6: once POST /admin/api/slot has answered that the slot is closed, the
    pair holds a Booking: the customer's, or the administrative block
    inserted because there was none.  It still holds it after any number
    of POST /book calls, and as long as no other request comes in between,
    every valid POST /book for the pair is answered 409 "already booked"
    and writes nothing, and GET /availability reports the pair booked and
    not open, on a date that the database writes as the handler does. *)
Theorem closed_slot_is_booked
    (st : Storage) (now : Z) (body : SlotBody) (db db' : Db) (created : bool)
    (i : option Z) :
  db_ok st db →
  post_admin_api_slot st now body db = (db', closed_json created i) →
  ∃ d, date_in st (str (s_date body)) = Some d
       ∧ has_booking db' d (str (s_slot body))
       ∧ (created = true ↔ ¬ has_booking db d (str (s_slot body)))
       ∧ (created = false → bookings db' = bookings db)
       ∧ ∀ calls : list (Z * Z * BookBody),
           let db'' := foldl (λ db c, (post_book st c.1.1 c.1.2 c.2 db).1) db' calls in
           has_booking db'' d (str (s_slot body))
           ∧ (∀ now' db_now' req,
                book_request_valid now' req = true →
                date_in st (str (r_date req)) = Some d →
                str (r_slot req) = str (s_slot body) →
                (post_book st now' db_now' req db'').2
                = error_json 409 (Error "Ese turno ya fue reservado")
                ∧ bookings (post_book st now' db_now' req db'').1 = bookings db''
                ∧ slot_overrides (post_book st now' db_now' req db'').1
                  = slot_overrides db'')
           ∧ (∀ now' q,
                text_agrees d →
                Forall (cast_agrees st)
                  (window_day_numbers (or_else (q_start q) (toISODate (todayCST now')))
                                      (window_days q)) →
                ∃ out, get_availability st now' q db'' = availability_json out
                       ∧ ∀ k, window_day_numbers
                                (or_else (q_start q) (toISODate (todayCST now')))
                                (window_days q) !! k = Some d →
                           ∃ e v, out !! k = Some e ∧ day e = date_text d
                                  ∧ get_prop (slots e) (str (s_slot body)) = Some v
                                  ∧ open v = false ∧ booked v = true).
Proof.
  intros Hok Hpost.
  assert (Hok' : db_ok st db').
  { pose proof (post_admin_api_slot_ok st now body db Hok) as H. by rewrite Hpost in H. }
  destruct (closed_answer _ _ _ _ _ _ _ Hpost)
    as (d & dbu & Hv & Hd & Hup & Ho & Hbk & Hcr & Hsame & _).
  exists d. split; [done|]. split; [done|]. split; [done|].
  split; [intros Hc; by apply Hsame|].
  intros calls db''.
  destruct (books_keep st calls db' Hok') as (Hok'' & Hkeep & _). fold db'' in Hok'', Hkeep.
  assert (Hbk'' : has_booking db'' d (str (s_slot body))).
  { destruct Hbk as (b & Hb & Hbd & Hbs). exists b. split; [by apply Hkeep | done]. }
  split; [done|]. split.
  - intros now' db_now' req Hvalid Hdr Hsr.
    destruct (post_book_conflict_iff st now' db_now' req db'' d Hok'' Hvalid Hdr)
      as (Hbooked & _ & Hroll & _).
    rewrite Hsr in Hbooked.
    assert (Hresp : (post_book st now' db_now' req db'').2
                    = error_json 409 (Error "Ese turno ya fue reservado"))
      by (by apply Hbooked).
    split; [done|]. by apply (Hroll _ Hresp).
  - intros now' q Ht Hcast.
    apply get_availability_booked; try done.
    + apply Hok''.
    + by apply valid_slot_body_in_order.
Qed.

End ClosedSlot.

Section ClosedSlotSamples.
Import Js Pg Server Spec More Samples.
#[local] Existing Instance iso_only.

Lemma closed_slot_is_booked_witness :
  db_ok schema_sql_email Pg.empty
  ∧ post_admin_api_slot schema_sql_email db_now0 close_A Pg.empty
    = ((post_admin_api_slot schema_sql_email db_now0 close_A Pg.empty).1,
       closed_json true (Some 1))
  ∧ (post_book schema_sql_email now0 db_now0 ana
       (post_book schema_sql_email now0 db_now0 ana_C
          (post_admin_api_slot schema_sql_email db_now0 close_A Pg.empty).1).1).2
    = error_json 409 (Error "Ese turno ya fue reservado").
Proof.
  assert (Hpost : post_admin_api_slot schema_sql_email db_now0 close_A Pg.empty
                  = ((post_admin_api_slot schema_sql_email db_now0 close_A Pg.empty).1,
                     closed_json true (Some 1))) by (by vm_compute).
  assert (Hvalid : book_request_valid now0 ana = true) by (by vm_compute).
  split; [apply empty_ok|]. split; [exact Hpost|].
  destruct (closed_slot_is_booked schema_sql_email db_now0 close_A Pg.empty _ true (Some 1)
              (empty_ok _) Hpost) as (d & Hd & _ & _ & _ & Hlater).
  assert (Hd4 : date_in schema_sql_email (str (r_date ana)) = Some d) by exact Hd.
  destruct (Hlater [(now0, db_now0, ana_C)]) as (_ & Hbook & _).
  exact (proj1 (Hbook now0 db_now0 ana Hvalid Hd4 eq_refl)).
Defined.

End ClosedSlotSamples.

(** ** Closing a free slot, and undoing it *)

Section CloseAndUndo.
Import Js Pg Server Spec More Samples.
Context {engine : Engine}.

(** No Booking on the pair: the DELETE of the administrative block finds
    nothing to remove. *)
Lemma filter_off_slot (l : list Booking) d s ph ig :
  (∀ b, b ∈ l → ¬ (date b = d ∧ slot b = s)) →
  filter (λ b, negb (admin_block_match d s ph ig b)) l = l
  ∧ existsb (admin_block_match d s ph ig) l = false.
Proof.
  induction l as [|b l IH]; intros Hoff; [done|].
  assert (Hb : admin_block_match d s ph ig b = false).
  { unfold admin_block_match, on_slot.
    destruct (bool_decide_reflect (date b = d)) as [Hd|]; [|done].
    destruct (bool_decide_reflect (slot b = s)) as [Hs|]; [|done].
    exfalso. apply (Hoff b); [apply list_elem_of_here | done]. }
  destruct IH as [IH1 IH2].
  { intros b' Hb'. apply Hoff. by apply list_elem_of_further. }
  rewrite filter_cons, decide_True by (by apply Is_true_true, negb_true_iff).
  cbn [existsb]. rewrite Hb, IH1, IH2. done.
Qed.

(** What an answer [opened_json] tells. *)
Lemma opened_answer st now body db db' removed :
  post_admin_api_slot st now body db = (db', opened_json removed) →
  ∃ d dbu,
    slot_request_valid body = true
    ∧ date_in st (str (s_date body)) = Some d
    ∧ upsert_override st now (str (s_date body)) (str (s_slot body)) true db = (dbu, inr tt)
    ∧ slot_overrides db' = slot_overrides dbu
    ∧ bookings db'
      = filter (λ b, negb (admin_block_match d (str (s_slot body)) ADMIN_PHONE ADMIN_IG b))
               (bookings db)
    ∧ removed
      = existsb (admin_block_match d (str (s_slot body)) ADMIN_PHONE ADMIN_IG) (bookings db).
Proof.
  intros Hpost.
  destruct (slot_request_valid body) eqn:Hv.
  2:{ by rewrite (post_admin_api_slot_invalid st now body db Hv) in Hpost. }
  rewrite (post_admin_api_slot_valid st now body db Hv) in Hpost.
  assert (∃ v, s_is_open body = Some v) as [v Hopen].
  { unfold slot_request_valid in Hv. apply andb_true_iff in Hv as [_ Hv'].
    apply bool_decide_eq_true in Hv'. by destruct Hv' as [v ->]; exists v. }
  rewrite Hopen in Hpost. change (default false (Some v)) with v in Hpost.
  unfold withTx in Hpost. destruct v.
  - rewrite slot_tx_open_run in Hpost.
    destruct (upsert_override st now _ _ true db) as [dbu [e|[]]] eqn:Hup; [done|].
    destruct (upsert_override_done _ _ _ _ _ _ _ Hup) as (d & Hd & Hbu & _).
    rewrite Hd in Hpost. injection Hpost as <- <-.
    exists d, dbu. cbn [bookings slot_overrides]. by rewrite Hbu.
  - rewrite slot_tx_close_run in Hpost.
    destruct (upsert_override st now _ _ false db) as [dbu [e|[]]]; [done|].
    destruct (date_in st (str (s_date body))); [|done].
    destruct (existsb _ (bookings dbu)); [done|].
    by destruct (insert_booking _ _ _ _ _ _ _ _ _ dbu) as [db2 [e|ins]].
Qed.

(** X7: when POST /admin/api/slot answers that it closed a slot and created
    the administrative block, and the call that opens the same slot again
    is answered too, then the slot was free, the second call reports the
    block removed and the bookings table is the one of before; the Override
    of the pair stays, now open, the other Overrides are those of before,
    and GET /availability reports the pair open and not booked. *)
Theorem close_then_reopen_restores_bookings
    (st : Storage) (now1 now2 : Z) (body : SlotBody) (db db1 db2 : Db)
    (i : option Z) (removed : bool) :
  db_ok st db →
  post_admin_api_slot st now1 body db = (db1, closed_json true i) →
  post_admin_api_slot st now2
    {| s_date := s_date body; s_slot := s_slot body; s_is_open := Some true |} db1
  = (db2, opened_json removed) →
  ∃ d, date_in st (str (s_date body)) = Some d
       ∧ ¬ has_booking db d (str (s_slot body))
       ∧ i = Some (bookings_id_seq db)
       ∧ removed = true
       ∧ bookings db2 = bookings db
       ∧ (∃ o, o ∈ slot_overrides db2 ∧ o_date o = d ∧ o_slot o = str (s_slot body)
               ∧ is_open o = true)
       ∧ (∀ o, ¬ (o_date o = d ∧ o_slot o = str (s_slot body)) →
            o ∈ slot_overrides db2 ↔ o ∈ slot_overrides db)
       ∧ (∀ now' q,
            Forall (cast_agrees st)
              (window_day_numbers (or_else (q_start q) (toISODate (todayCST now')))
                                  (window_days q)) →
            ∃ out, get_availability st now' q db2 = availability_json out
                   ∧ ∀ k, window_day_numbers
                            (or_else (q_start q) (toISODate (todayCST now')))
                            (window_days q) !! k = Some d →
                       ∃ e v, out !! k = Some e ∧ day e = date_text d
                              ∧ get_prop (slots e) (str (s_slot body)) = Some v
                              ∧ open v = true ∧ booked v = false).
Proof.
  intros Hok Hclose Hreopen.
  destruct (closed_answer _ _ _ _ _ _ _ Hclose)
    as (d & dbu & Hv & Hd & Hup1 & Ho1 & _ & Hcr & _ & Hnew).
  destruct (Hnew eq_refl) as (Hi & _ & Hb1).
  assert (Hfree : ¬ has_booking db d (str (s_slot body))) by (by apply Hcr).
  destruct (opened_answer _ _ _ _ _ _ Hreopen)
    as (d2 & dbu2 & _ & Hd2 & Hup2 & Ho2 & Hb2 & Hrem).
  cbn [s_date s_slot] in Hd2, Hup2, Hb2, Hrem.
  rewrite Hd in Hd2. injection Hd2 as <-.
  set (s := str (s_slot body)) in *.
  assert (Hok1 : db_ok st db1).
  { pose proof (post_admin_api_slot_ok st now1 body db Hok) as H. by rewrite Hclose in H. }
  assert (Hok2 : db_ok st db2).
  { pose proof (post_admin_api_slot_ok st now2
                  {| s_date := s_date body; s_slot := s_slot body; s_is_open := Some true |}
                  db1 Hok1) as H.
    by rewrite Hreopen in H. }
  assert (Hoff : ∀ b, b ∈ bookings db → ¬ (date b = d ∧ slot b = s)).
  { intros b Hb Hds. apply Hfree. by exists b. }
  destruct (filter_off_slot (bookings db) d s ADMIN_PHONE ADMIN_IG Hoff) as [Hkeep Hnone].
  assert (Hm : admin_block_match d s ADMIN_PHONE ADMIN_IG
                 {| id := bookings_id_seq db; full_name := ADMIN_NAME;
                    phone := ADMIN_PHONE; instagram := ADMIN_IG; email := None;
                    date := d; slot := s; created_at := now1 |} = true).
  { unfold admin_block_match, on_slot. cbn [date slot phone instagram].
    by rewrite !bool_decide_eq_true_2. }
  rewrite Hb1, existsb_app, Hnone in Hrem. cbn [existsb] in Hrem. rewrite Hm in Hrem.
  rewrite Hb1, filter_app, Hkeep in Hb2.
  rewrite filter_cons, decide_False in Hb2 by (by apply Is_true_false, negb_false_iff).
  rewrite filter_nil, app_nil_r in Hb2.
  destruct (upsert_override_rows _ _ _ _ _ _ _ d Hd Hup1) as (_ & _ & Hother1).
  destruct (upsert_override_rows _ _ _ _ _ _ _ d Hd Hup2) as (Hall2 & Hex2 & Hother2).
  exists d. split; [done|]. split; [done|]. split; [done|]. split; [done|].
  split; [done|]. rewrite Ho2. split; [|split].
  - destruct Hex2 as (o & Ho & Hod & Hos). exists o. repeat split; try done.
    by apply Hall2.
  - intros o Hne. rewrite (Hother2 o Hne), Ho1. by apply Hother1.
  - intros now' q Hcast.
    apply get_availability_free; try done.
    + apply Hok2.
    + by apply valid_slot_body_in_order.
    + unfold has_booking. by rewrite Hb2.
    + by rewrite Ho2.
Qed.

(** X8: cancelling the administrative block by its id does not reopen the
    slot.  When POST /admin/api/slot answers that it closed a slot and
    created the block, it returns the id of the block, and
    DELETE /admin/api/booking/:id on that id is answered ok, gives the
    bookings table of before and leaves the closing Override; as long as no
    other request comes in between, a valid POST /book for the pair is then
    answered 409 "closed", and GET /availability reports the pair neither
    booked nor open, on a date that the database writes as the handler
    does. *)
Theorem cancelled_block_leaves_slot_closed
    (st : Storage) (now : Z) (body : SlotBody) (db db1 : Db) (i : option Z) :
  db_ok st db →
  post_admin_api_slot st now body db = (db1, closed_json true i) →
  ∃ d k,
    date_in st (str (s_date body)) = Some d
    ∧ i = Some k
    ∧ ¬ has_booking db d (str (s_slot body))
    ∧ (delete_admin_api_booking (Int k) db1).2 = ok_json
    ∧ bookings (delete_admin_api_booking (Int k) db1).1 = bookings db
    ∧ slot_overrides (delete_admin_api_booking (Int k) db1).1 = slot_overrides db1
    ∧ (∃ o, o ∈ slot_overrides (delete_admin_api_booking (Int k) db1).1
            ∧ o_date o = d ∧ o_slot o = str (s_slot body) ∧ is_open o = false)
    ∧ (∀ now' db_now' req,
         book_request_valid now' req = true →
         date_in st (str (r_date req)) = Some d →
         str (r_slot req) = str (s_slot body) →
         (post_book st now' db_now' req (delete_admin_api_booking (Int k) db1).1).2
         = error_json 409 (Error "Ese turno está cerrado"))
    ∧ (∀ now' q,
         text_agrees d →
         Forall (cast_agrees st)
           (window_day_numbers (or_else (q_start q) (toISODate (todayCST now')))
                               (window_days q)) →
         ∃ out, get_availability st now' q (delete_admin_api_booking (Int k) db1).1
                = availability_json out
                ∧ ∀ j, window_day_numbers
                         (or_else (q_start q) (toISODate (todayCST now')))
                         (window_days q) !! j = Some d →
                    ∃ e v, out !! j = Some e ∧ day e = date_text d
                           ∧ get_prop (slots e) (str (s_slot body)) = Some v
                           ∧ open v = false ∧ booked v = false).
Proof.
  intros Hok Hclose.
  destruct (closed_answer _ _ _ _ _ _ _ Hclose)
    as (d & dbu & Hv & Hd & Hup1 & Ho1 & _ & Hcr & _ & Hnew).
  destruct (Hnew eq_refl) as (Hi & Hmax & Hb1).
  assert (Hfree : ¬ has_booking db d (str (s_slot body))) by (by apply Hcr).
  set (s := str (s_slot body)) in *.
  assert (Hok1 : db_ok st db1).
  { pose proof (post_admin_api_slot_ok st now body db Hok) as H. by rewrite Hclose in H. }
  set (block := {| id := bookings_id_seq db; full_name := ADMIN_NAME; phone := ADMIN_PHONE;
                   instagram := ADMIN_IG; email := None; date := d; slot := s;
                   created_at := now |}) in *.
  exists d, (bookings_id_seq db).
  set (r2 := delete_admin_api_booking (Int (bookings_id_seq db)) db1).
  assert (Hok2 : db_ok st r2.1) by (by apply delete_admin_api_booking_ok).
  assert (Hr2 : r2 = ({| bookings := bookings db; slot_overrides := slot_overrides db1;
                         bookings_id_seq := bookings_id_seq db1;
                         slot_overrides_id_seq := slot_overrides_id_seq db1 |}, ok_json)).
  { subst r2.
    apply (cancel_just_booked db db1 block); [apply Hok | | done].
    cbn [block id]. split; [apply Hok | done]. }
  destruct (upsert_override_rows _ _ _ _ _ _ _ d Hd Hup1) as (Hall & Hex & _).
  assert (Ho2 : slot_overrides r2.1 = slot_overrides dbu) by (by rewrite Hr2).
  assert (Ho21 : slot_overrides r2.1 = slot_overrides db1) by (by rewrite Hr2).
  assert (Hb2 : bookings r2.1 = bookings db) by (by rewrite Hr2).
  assert (Hres2 : r2.2 = ok_json) by (by rewrite Hr2).
  clearbody r2.
  assert (Hfree2 : ¬ has_booking r2.1 d s) by (unfold has_booking; by rewrite Hb2).
  assert (Hclosed : ∃ o, o ∈ slot_overrides r2.1 ∧ o_date o = d ∧ o_slot o = s
                         ∧ is_open o = false).
  { rewrite Ho2. destruct Hex as (o & Ho & Hod & Hos). exists o.
    repeat split; try done. by apply Hall. }
  split; [done|]. split; [done|]. split; [done|]. split; [done|]. split; [done|].
  split; [done|]. split; [done|]. split.
  - intros now' db_now' req Hvalid Hdr Hsr.
    destruct (post_book_conflict_iff st now' db_now' req r2.1 d Hok2 Hvalid Hdr)
      as (_ & Hcl & _).
    rewrite Hsr in Hcl. by apply Hcl.
  - intros now' q Ht Hcast.
    destruct Hclosed as (o & Ho & Hod & Hos & Hcl).
    apply (get_availability_closed st now' q r2.1 d s o); try done.
    + apply Hok2.
    + by apply valid_slot_body_in_order.
Qed.

End CloseAndUndo.

Section CloseAndUndoSamples.
Import Js Pg Server Spec More Samples.
#[local] Existing Instance iso_only.

Lemma close_then_reopen_restores_bookings_witness :
  db_ok schema_sql_email Pg.empty
  ∧ (post_admin_api_slot schema_sql_email db_now0 close_A Pg.empty).2
    = closed_json true (Some 1)
  ∧ (post_admin_api_slot schema_sql_email db_now0 open_A
       (post_admin_api_slot schema_sql_email db_now0 close_A Pg.empty).1).2
    = opened_json true
  ∧ bookings (post_admin_api_slot schema_sql_email db_now0 open_A
                (post_admin_api_slot schema_sql_email db_now0 close_A Pg.empty).1).1
    = bookings Pg.empty.
Proof.
  set (r1 := post_admin_api_slot schema_sql_email db_now0 close_A Pg.empty).
  set (r2 := post_admin_api_slot schema_sql_email db_now0 open_A r1.1).
  assert (H1 : r1 = (r1.1, closed_json true (Some 1))) by (by vm_compute).
  assert (H2 : post_admin_api_slot schema_sql_email db_now0
                 {| s_date := s_date close_A; s_slot := s_slot close_A;
                    s_is_open := Some true |} r1.1
               = (r2.1, opened_json true)) by (by vm_compute).
  assert (H1' : r1.2 = closed_json true (Some 1)) by (by vm_compute).
  assert (H2' : r2.2 = opened_json true) by (by vm_compute).
  split; [apply empty_ok|]. split; [exact H1'|]. split; [exact H2'|].
  destruct (close_then_reopen_restores_bookings schema_sql_email db_now0 db_now0 close_A
              Pg.empty r1.1 r2.1 (Some 1) true (empty_ok _) H1 H2)
    as (d & _ & _ & _ & _ & Hb & _).
  exact Hb.
Defined.

Lemma cancelled_block_leaves_slot_closed_witness :
  db_ok schema_sql_email Pg.empty
  ∧ (post_admin_api_slot schema_sql_email db_now0 close_A Pg.empty).2
    = closed_json true (Some 1)
  ∧ bookings (delete_admin_api_booking (Int 1)
                (post_admin_api_slot schema_sql_email db_now0 close_A Pg.empty).1).1
    = bookings Pg.empty
  ∧ (post_book schema_sql_email now0 db_now0 ana
       (delete_admin_api_booking (Int 1)
          (post_admin_api_slot schema_sql_email db_now0 close_A Pg.empty).1).1).2
    = error_json 409 (Error "Ese turno está cerrado").
Proof.
  set (r1 := post_admin_api_slot schema_sql_email db_now0 close_A Pg.empty).
  assert (H1 : r1 = (r1.1, closed_json true (Some 1))) by (by vm_compute).
  assert (H1' : r1.2 = closed_json true (Some 1)) by (by vm_compute).
  assert (Hvalid : book_request_valid now0 ana = true) by (by vm_compute).
  split; [apply empty_ok|]. split; [exact H1'|].
  destruct (cancelled_block_leaves_slot_closed schema_sql_email db_now0 close_A Pg.empty
              r1.1 (Some 1) (empty_ok _) H1)
    as (d & k & Hd & Hk & _ & _ & Hb & _ & _ & Hbook & _).
  injection Hk as <-.
  assert (Hd4 : date_in schema_sql_email (str (r_date ana)) = Some d) by exact Hd.
  split; [exact Hb|].
  exact (Hbook now0 db_now0 ana Hvalid Hd4 eq_refl).
Defined.

End CloseAndUndoSamples.

(** ** Cancelling, booking, and the shape of the availability answer *)

Section WritesAndShape.
Import Js Pg Server Spec More Samples.
Context {engine : Engine}.

(** The answers of DELETE /admin/api/booking/:id. *)
Lemma cancel_answers n db :
  slot_overrides (delete_admin_api_booking n db).1 = slot_overrides db
  ∧ ((delete_admin_api_booking n db).2 = ok_json
     ↔ ∃ k b, n = Int k ∧ 0 < k ≤ max_int4 ∧ b ∈ bookings db ∧ id b = k)
  ∧ ((delete_admin_api_booking n db).2 = error_json 404 (Error "Reserva no encontrada")
     ↔ ∃ k, n = Int k ∧ 0 < k ≤ max_int4 ∧ ∀ b, b ∈ bookings db → id b ≠ k)
  ∧ ((delete_admin_api_booking n db).2 = ok_json →
       ∀ b, b ∈ bookings (delete_admin_api_booking n db).1
            ↔ b ∈ bookings db ∧ Int (id b) ≠ n)
  ∧ ((delete_admin_api_booking n db).2 ≠ ok_json →
       bookings (delete_admin_api_booking n db).1 = bookings db).
Proof.
  unfold delete_admin_api_booking.
  destruct n as [|k].
  { cbn [fst snd]. split; [done|]. split; [|split; [|done]].
    - split; [done|]. by intros (k & b & ? & _).
    - split; [done|]. by intros (k & ? & _). }
  destruct (Z.ltb_spec 0 k) as [Hpos|Hneg]; cbn [negb].
  2:{ cbn [fst snd]. split; [done|]. split; [|split; [|done]].
      - split; [done|]. intros (k' & b & [= <-] & ? & _). lia.
      - split; [done|]. intros (k' & [= <-] & ? & _). lia. }
  unfold pool_query, withTx, delete_booking_by_id.
  destruct (Z.ltb_spec max_int4 k) as [Hbig|Hfit].
  { cbn [orb fst snd rollback bookings slot_overrides].
    split; [done|]. split; [|split; [|done]].
    - split; [done|]. intros (k' & b & [= <-] & ? & _). lia.
    - split; [done|]. intros (k' & [= <-] & ? & _). lia. }
  destruct (Z.ltb_spec k (- max_int4 - 1)) as [Hlow|_].
  { exfalso. revert Hlow. unfold max_int4. lia. }
  cbn [orb]. rewrite filter_length_zero.
  destruct (existsb (λ b, bool_decide (id b = k)) (bookings db)) eqn:Hex; cbn [negb fst snd bookings slot_overrides].
  - apply existsb_elem_of in Hex as (b & Hb & Hid). apply bool_decide_eq_true in Hid.
    split; [done|]. split; [|split; [|split; [|done]]].
    + split; [|done]. intros _. by exists k, b.
    + split; [done|]. intros (k' & [= <-] & _ & Hno). by destruct (Hno b Hb).
    + intros _ b'. rewrite list_elem_of_filter. split.
      * intros [Hne Hb']. split; [done|]. intros [= E].
        apply Is_true_true, negb_true_iff, bool_decide_eq_false in Hne. done.
      * intros [Hb' Hne]. split; [|done].
        apply Is_true_true, negb_true_iff, bool_decide_eq_false. intros E. apply Hne.
        by rewrite E.
  - assert (Hno : ∀ b, b ∈ bookings db → id b ≠ k).
    { intros b Hb E.
      assert (existsb (λ b, bool_decide (id b = k)) (bookings db) = true); [|congruence].
      apply existsb_elem_of. exists b. split; [done|]. by apply bool_decide_eq_true. }
    split; [done|]. split; [|split; [|split; [done|]]].
    + split; [done|]. intros (k' & b & [= <-] & _ & Hb & E). by destruct (Hno b Hb).
    + split; [|done]. intros _. by exists k.
    + intros _. clear Hex. induction (bookings db) as [|b l IH]; [done|].
      rewrite filter_cons, decide_True.
      * f_equal. apply IH. intros b' Hb'. apply Hno. by apply list_elem_of_further.
      * apply Is_true_true, negb_true_iff, bool_decide_eq_false, Hno, list_elem_of_here.
Qed.

(** X9: DELETE /admin/api/booking/:id removes the Bookings of that id and
    nothing else.  It answers [ok] exactly when the id is a positive
    integer within int4 that some Booking carries, and 404 exactly when it
    is one no Booking carries; on [ok] the rows left are those of other
    ids, on any other answer the table is as before; the Overrides are
    never touched, and the same request sent again is never answered
    [ok]. *)
Theorem cancel_removes_that_id_only (n : Num) (db db' : Db) (resp : Response) :
  delete_admin_api_booking n db = (db', resp) →
  slot_overrides db' = slot_overrides db
  ∧ (resp = ok_json ↔ ∃ k b, n = Int k ∧ 0 < k ≤ max_int4 ∧ b ∈ bookings db ∧ id b = k)
  ∧ (resp = error_json 404 (Error "Reserva no encontrada")
     ↔ ∃ k, n = Int k ∧ 0 < k ≤ max_int4 ∧ ∀ b, b ∈ bookings db → id b ≠ k)
  ∧ (resp = ok_json → ∀ b, b ∈ bookings db' ↔ b ∈ bookings db ∧ Int (id b) ≠ n)
  ∧ (resp ≠ ok_json → bookings db' = bookings db)
  ∧ (delete_admin_api_booking n db').2 ≠ ok_json.
Proof.
  intros Hrun.
  pose proof (cancel_answers n db) as H. rewrite Hrun in H. cbn [fst snd] in H.
  destruct H as (Ho & Hok & H404 & Hgone & Hsame).
  split; [done|]. split; [done|]. split; [done|]. split; [done|]. split; [done|].
  intros Hagain.
  apply (proj1 (proj1 (proj2 (cancel_answers n db')))) in Hagain
    as (k & b & -> & Hk & Hb & Hid).
  assert (resp = ok_json ∨ resp ≠ ok_json) as [Hr|Hr]
    by (destruct resp; (by left) || (by right)).
  - apply (Hgone Hr) in Hb as [_ Hne]. apply Hne. by rewrite Hid.
  - rewrite (Hsame Hr) in Hb. apply Hr, Hok. by exists k, b.
Qed.

(** X10: POST /book writes one row or nothing.  Answered with a booking, it
    has appended exactly one Booking, which carries the fields of the
    request (an empty or missing email stored as NULL), the next id of the
    sequence and the time of the database's clock, NOW(), and these are the
    id and the time of the answer; answered otherwise, it leaves the
    bookings as they were.  It never writes an Override. *)
Theorem post_book_writes_one_row_or_nothing
    (st : Storage) (now db_now : Z) (body : BookBody) (db db' : Db) (resp : Response) :
  post_book st now db_now body db = (db', resp) →
  slot_overrides db' = slot_overrides db
  ∧ ((∀ bid created, resp ≠ booked_json bid created) → bookings db' = bookings db)
  ∧ (∀ bid created, resp = booked_json bid created →
       ∃ d, date_in st (str (r_date body)) = Some d
            ∧ bid = bookings_id_seq db ∧ created = db_now
            ∧ bookings db'
              = (bookings db
                 ++ [{| id := bid;
                        full_name := str (r_full_name body);
                        phone := str (r_phone body);
                        instagram := str (r_instagram body);
                        email := if truthy (r_email body) then r_email body else None;
                        date := d;
                        slot := str (r_slot body);
                        created_at := created |}])%list).
Proof.
  intros Hrun.
  destruct (book_request_valid now body) eqn:Hv.
  2:{ destruct (post_book_invalid st now db_now body db Hv) as [m Hm].
      rewrite Hm in Hrun. injection Hrun as <- <-. by repeat split. }
  rewrite (post_book_valid st now db_now body db Hv) in Hrun. unfold withTx in Hrun.
  destruct (book_tx st db_now _ _ _ _ _ _ db) as [db2 [e|row]] eqn:Htx.
  { injection Hrun as <- <-. by repeat split. }
  injection Hrun as <- <-.
  rewrite book_tx_run in Htx.
  destruct (date_in st (str (r_date body))) as [d|] eqn:Hd; [|done].
  destruct (existsb _ (bookings db)); [done|].
  destruct (match filter _ (slot_overrides db) with [] => false | row0 :: _ => _ end);
    [done|].
  destruct (insert_booking _ _ _ _ _ _ _ _ _ db) as [db3 [e|row']] eqn:Hins; [done|].
  injection Htx as <- <-.
  apply insert_booking_done in Hins as (d' & Hd' & -> & Hb & Ho & _).
  rewrite Hd in Hd'. injection Hd' as <-. cbn [id created_at] in *.
  split; [done|]. split.
  - intros Hne. by destruct (Hne (bookings_id_seq db) db_now).
  - intros bid created [= <- <-]. by exists d.
Qed.

(** The keys of the object built by [for (const s of order) o[s] = ...]. *)
Lemma set_prop_keys props s v :
  s ∉ map fst props → map fst (set_prop props s v) = (map fst props ++ [s])%list.
Proof.
  induction props as [|[k w] r IH]; [done|].
  cbn [map fst set_prop]. intros Hs.
  destruct (String.eqb_spec k s) as [->|Hne].
  - exfalso. apply Hs, list_elem_of_here.
  - cbn [map fst]. rewrite IH; [done|]. intros Hr. apply Hs. by apply list_elem_of_further.
Qed.

Lemma day_view_keys labels order bs mp date_s :
  NoDup order → map fst (slots (day_view labels order bs mp date_s)) = order.
Proof.
  unfold day_view. cbn [slots].
  assert (H : ∀ acc, NoDup (map fst acc ++ order) →
                map fst (foldl (λ o s, set_prop o s (slot_view labels bs mp date_s s)) acc order)
                = (map fst acc ++ order)%list).
  { induction order as [|s order IH]; intros acc Hacc.
    - by rewrite app_nil_r.
    - cbn [foldl]. apply NoDup_app in Hacc as (Ha & Hdis & Ho).
      apply NoDup_cons in Ho as [Hs Ho].
      assert (Hfresh : s ∉ map fst acc).
      { intros Hin. apply (Hdis s Hin), list_elem_of_here. }
      rewrite IH; rewrite set_prop_keys by done.
      + by rewrite <- app_assoc.
      + rewrite <- app_assoc. cbn [app]. apply NoDup_app. split; [done|]. split.
        * done.
        * by apply NoDup_cons. }
  intros Hnd. apply (H []). by rewrite app_nil_l.
Qed.

Lemma rollingWindow_length startStr days :
  (length (rollingWindow startStr days) ≤ trips days)%nat.
Proof.
  unfold rollingWindow. cbv zeta. rewrite rollingWindow_loop_scan, app_nil_l.
  rewrite length_map.
  etransitivity; [apply length_filter|]. by rewrite length_map, length_seq.
Qed.

Lemma availability_of_days st labels order dates db out :
  availability_of st labels order dates db = availability_json out →
  map day out = dates
  ∧ ∀ e, e ∈ out → NoDup order → map fst (slots e) = order.
Proof.
  unfold availability_of. destruct dates as [|first rest].
  { intros [= <-]. split; [done|]. intros e He. by apply elem_of_nil in He. }
  cbv zeta.
  destruct (pool_query _ db) as [? [?|bookings]]; [done|].
  destruct (pool_query _ db) as [? [?|overrides]]; [done|].
  intros [= <-]. split.
  - cbn [map]. f_equal. rewrite map_map. cbn [day_view day]. by rewrite map_id.
  - intros e He Hnd.
    change (e ∈ map (day_view labels order (make_bookedSet bookings)
                       (make_overrideMp overrides)) (first :: rest)) in He.
    apply list_elem_of_fmap in He as (date_s & -> & _).
    by apply day_view_keys.
Qed.

(** X11: the shape of every answer of GET /availability that is an array:
    its days are, in order, the dates of [rollingWindow] for the start and
    the clamped [days], at most 31 of them whatever the [days] parameter
    says, and every day lists the three slots in the order of [SLOT_ORDER]:
    C, A, B. *)
Theorem availability_answer_shape
    (st : Storage) (now : Z) (q : AvailabilityQuery) (db : Db) (out : list DayView) :
  get_availability st now q db = availability_json out →
  map day out = rollingWindow (or_else (q_start q) (toISODate (todayCST now)))
                              (window_days q)
  ∧ (length out ≤ 31)%nat
  ∧ ∀ e, e ∈ out → map fst (slots e) = ["C"; "A"; "B"].
Proof.
  unfold get_availability. cbv zeta. rewrite configured_order. intros Hout.
  apply availability_of_days in Hout as [Hdays Hkeys].
  split; [done|]. split.
  - rewrite <- (length_map day), Hdays.
    etransitivity; [apply rollingWindow_length|].
    unfold window_days. destruct (parseInt _) as [|n]; cbn [Math_min trips]; lia.
  - intros e He. apply (Hkeys e He).
    unfold SLOT_ORDER. apply (bool_decide_unpack (NoDup ["C"; "A"; "B"])). by vm_compute.
Qed.

End WritesAndShape.

Section WritesAndShapeSamples.
Import Js Pg Server Spec More Samples.
#[local] Existing Instance iso_only.

Lemma cancel_removes_that_id_only_witness :
  delete_admin_api_booking (Int 1) (post_book schema_sql_email now0 db_now0 ana Pg.empty).1
  = ((delete_admin_api_booking (Int 1) (post_book schema_sql_email now0 db_now0 ana Pg.empty).1).1,
     ok_json)
  ∧ (delete_admin_api_booking (Int 1)
       (delete_admin_api_booking (Int 1)
          (post_book schema_sql_email now0 db_now0 ana Pg.empty).1).1).2 ≠ ok_json.
Proof.
  assert (Hrun : delete_admin_api_booking (Int 1)
                   (post_book schema_sql_email now0 db_now0 ana Pg.empty).1
                 = ((delete_admin_api_booking (Int 1)
                       (post_book schema_sql_email now0 db_now0 ana Pg.empty).1).1, ok_json))
    by (by vm_compute).
  split; [exact Hrun|].
  apply (cancel_removes_that_id_only (Int 1) _ _ ok_json Hrun).
Defined.

Lemma post_book_writes_one_row_or_nothing_witness :
  post_book schema_sql_email now0 db_now0 ana Pg.empty
  = ((post_book schema_sql_email now0 db_now0 ana Pg.empty).1, booked_json 1 db_now0)
  ∧ ∃ d, bookings (post_book schema_sql_email now0 db_now0 ana Pg.empty).1
         = [{| id := 1; full_name := "Ana"; phone := "555-0101"; instagram := "@ana";
               email := None; date := d; slot := "A"; created_at := db_now0 |}].
Proof.
  assert (Hrun : post_book schema_sql_email now0 db_now0 ana Pg.empty
                 = ((post_book schema_sql_email now0 db_now0 ana Pg.empty).1, booked_json 1 db_now0))
    by (by vm_compute).
  split; [exact Hrun|].
  destruct (proj2 (proj2 (post_book_writes_one_row_or_nothing schema_sql_email now0 db_now0 ana
                            Pg.empty _ _ Hrun)) 1 db_now0 eq_refl)
    as (d & _ & _ & _ & Hrows).
  exists d. exact Hrows.
Defined.

Lemma availability_answer_shape_witness :
  ∃ out, get_availability schema_sql_email now0
           {| q_start := None; q_days := Some "90" |} Pg.empty = availability_json out
         ∧ (length out ≤ 31)%nat.
Proof.
  eexists. split; [by vm_compute|].
  eapply (availability_answer_shape schema_sql_email now0
            {| q_start := None; q_days := Some "90" |} Pg.empty).
  by vm_compute.
Defined.

End WritesAndShapeSamples.

(** ** The first version of the server *)

Section FirstVersion.
Import Js Pg Server Spec More Samples.
Context {engine : Engine}.

(** [SELECT is_open ... WHERE date=$1 AND slot=$2] on a pair whose rows are
    all closed, and which has one. *)
Lemma closed_override_found (l : list Override) d s :
  (∃ o, o ∈ l ∧ o_date o = d ∧ o_slot o = s) →
  (∀ o, o ∈ l → o_date o = d → o_slot o = s → is_open o = false) →
  match filter (λ o, override_on_slot d s o) l with
  | row0 :: _ => negb (is_open row0)
  | [] => false
  end = true.
Proof.
  intros (o & Ho & Hod & Hos) Hall.
  destruct (filter (λ o, override_on_slot d s o) l) as [|row0 rest] eqn:Hf.
  - assert (Hin : o ∈ filter (λ o, override_on_slot d s o) l).
    { apply list_elem_of_filter. split; [|done].
      by apply Is_true_true, override_on_slot_true. }
    rewrite Hf in Hin. by apply elem_of_nil in Hin.
  - assert (Hin : row0 ∈ filter (λ o, override_on_slot d s o) l)
      by (rewrite Hf; apply list_elem_of_here).
    apply list_elem_of_filter in Hin as [Hp Hin].
    apply Is_true_true, override_on_slot_true in Hp as [Hd Hs].
    by rewrite (Hall row0 Hin Hd Hs).
Qed.

(** What an answer [ok] of the first POST /admin/api/slot tells. *)
Lemma slot_v1_answer st now body db db' :
  ServerJs.post_admin_api_slot st now body db = (db', ok_json) →
  ∃ v, truthy (s_date body) = true
       ∧ includes ["A"; "B"] (s_slot body) = true
       ∧ s_is_open body = Some v
       ∧ upsert_override st now (str (s_date body)) (str (s_slot body)) v db = (db', inr tt).
Proof.
  unfold ServerJs.post_admin_api_slot.
  destruct (truthy (s_date body)); [|done].
  destruct (includes ["A"; "B"] (s_slot body)); [|done].
  destruct (s_is_open body) as [v|]; [|done]. cbn [negb orb].
  rewrite bool_decide_eq_true_2 by (by eexists). cbn [negb].
  change (default false (Some v)) with v.
  unfold pool_query, withTx.
  destruct (upsert_override st now _ _ v db) as [db1 [e|[]]] eqn:Hup; [done|].
  intros [= <-]. by exists v.
Qed.

(** X12: in the first version of the server, closing a slot writes no
    Booking, and still blocks the pair.  An accepted POST /admin/api/slot
    leaves the bookings table as it was and stores [is_open] for the pair;
    stored as closed on a pair without a Booking, and as long as no other
    request comes in between, a valid POST /book of that version for the
    pair is answered 409 "closed" and writes nothing, and GET /availability
    reports the pair neither booked nor open, on a date that the database
    writes as the handler does. *)
Theorem first_version_close_writes_no_booking
    (st : Storage) (now : Z) (body : SlotBody) (db db' : Db) :
  db_ok st db →
  ServerJs.post_admin_api_slot st now body db = (db', ok_json) →
  ∃ d v,
    date_in st (str (s_date body)) = Some d
    ∧ s_is_open body = Some v
    ∧ bookings db' = bookings db
    ∧ (∃ o, o ∈ slot_overrides db' ∧ o_date o = d ∧ o_slot o = str (s_slot body)
            ∧ is_open o = v)
    ∧ (v = false → ¬ has_booking db d (str (s_slot body)) →
         (∀ now' db_now' req,
            book_request_valid now' req = true →
            date_in st (str (r_date req)) = Some d →
            str (r_slot req) = str (s_slot body) →
            (ServerJs.post_book st now' db_now' req db').2
            = error_json 409 (Error "Ese turno está cerrado")
            ∧ bookings (ServerJs.post_book st now' db_now' req db').1 = bookings db)
         ∧ (∀ now' q,
              text_agrees d →
              Forall (cast_agrees st)
                (window_day_numbers (or_else (q_start q) (toISODate (todayCST now')))
                                    (window_days q)) →
              ∃ out, ServerJs.get_availability st now' q db' = availability_json out
                     ∧ ∀ k, window_day_numbers
                              (or_else (q_start q) (toISODate (todayCST now')))
                              (window_days q) !! k = Some d →
                         ∃ e w, out !! k = Some e ∧ day e = date_text d
                                ∧ get_prop (slots e) (str (s_slot body)) = Some w
                                ∧ open w = false ∧ booked w = false)).
Proof.
  intros Hok Hpost.
  assert (Hok' : db_ok st db').
  { pose proof (post_admin_api_slot_v1_ok st now body db Hok) as H. by rewrite Hpost in H. }
  destruct (slot_v1_answer _ _ _ _ _ Hpost) as (v & Hdate & Hinc & Hopen & Hup).
  destruct (upsert_override_done _ _ _ _ _ _ _ Hup) as (d & Hd & Hb & _ & _).
  destruct (upsert_override_rows _ _ _ _ _ _ _ d Hd Hup) as (Hall & Hex & _).
  set (s := str (s_slot body)) in *.
  exists d, v. split; [done|]. split; [done|]. split; [done|]. split.
  { destruct Hex as (o & Ho & Hod & Hos). exists o. repeat split; try done. by apply Hall. }
  intros -> Hfree.
  assert (Hfree' : ¬ has_booking db' d s) by (unfold has_booking; by rewrite Hb).
  assert (Hs : s ∈ ["A"; "B"]).
  { unfold includes in Hinc. subst s. destruct (s_slot body) as [sb|]; [|done].
    by apply bool_decide_eq_true in Hinc. }
  split.
  - intros now' db_now' req Hvalid Hdr Hsr.
    revert Hvalid. unfold book_request_valid. rewrite !andb_true_iff.
    intros [[[[[Hn Hp] Hi] Hdt] _] Hwin].
    unfold ServerJs.post_book, ServerJs.rollingWindow. rewrite Hn, Hp, Hi, Hdt.
    assert (Hinc' : includes ["A"; "B"] (r_slot req) = true).
    { unfold includes. destruct (r_slot req) as [sr|] eqn:Er.
      - apply bool_decide_eq_true. change (str (Some sr)) with sr in Hsr. by rewrite Hsr.
      - change (str None) with "" in Hsr. exfalso. rewrite <- Hsr in Hs.
        revert Hs. rewrite !elem_of_cons, elem_of_nil. by intros [?|[?|?]]. }
    rewrite Hinc'. cbn [negb orb]. cbv zeta. rewrite Hwin. cbn [negb].
    unfold withTx. rewrite book_tx_v1_run, Hdr, Hsr. fold s.
    assert (Hex0 : existsb (on_slot d s) (bookings db') = false).
    { destruct (existsb _ _) eqn:E; [|done]. by apply existsb_on_slot in E. }
    rewrite Hex0, (closed_override_found (slot_overrides db') d s Hex Hall).
    cbn [fst snd rollback bookings]. done.
  - intros now' q Ht Hcast.
    destruct (get_availability_v1_view st now' q db' (ok_overrides_unique _ _ Hok') Hcast)
      as (out & Hout & _ & Hview).
    exists out. split; [done|]. intros k Hk.
    destruct (Hview k d s Hk Hs) as (e & w & He & Hday & Hprop & Hvw & _).
    destruct (Hvw Ht) as (Hbk & Hov & _ & _).
    exists e, w. split; [done|]. split; [done|]. split; [done|].
    destruct Hex as (o & Ho & Hod & Hos).
    rewrite (Hov o Ho Hod Hos), (Hall o Ho Hod Hos). split; [done|].
    destruct (booked w); [|done]. exfalso. by apply Hfree', Hbk.
Qed.

End FirstVersion.

Section FirstVersionSamples.
Import Js Pg Server Spec More Samples.
#[local] Existing Instance iso_only.

Lemma first_version_close_writes_no_booking_witness :
  db_ok schema_sql Pg.empty
  ∧ ServerJs.post_admin_api_slot schema_sql now0 close_A Pg.empty
    = ((ServerJs.post_admin_api_slot schema_sql now0 close_A Pg.empty).1, ok_json)
  ∧ ∃ d v, date_in schema_sql (str (s_date close_A)) = Some d
           ∧ s_is_open close_A = Some v
           ∧ bookings (ServerJs.post_admin_api_slot schema_sql now0 close_A Pg.empty).1
             = bookings Pg.empty.
Proof.
  assert (Hpost : ServerJs.post_admin_api_slot schema_sql now0 close_A Pg.empty
                  = ((ServerJs.post_admin_api_slot schema_sql now0 close_A Pg.empty).1,
                     ok_json)) by (by vm_compute).
  split; [apply empty_ok|]. split; [exact Hpost|].
  destruct (first_version_close_writes_no_booking schema_sql now0 close_A Pg.empty _
              (empty_ok _) Hpost) as (d & v & Hd & Hv & Hb & _).
  exists d, v. split; [exact Hd|]. split; [exact Hv|]. exact Hb.
Defined.

End FirstVersionSamples.

(** ** The guard of the admin routes *)

Section Guard.
Import Js Auth.
Context {engine : Engine}.

Lemma trim_start_head s :
  trim_start s = "" ∨ ∃ c r, trim_start s = String c r ∧ is_white c = false.
Proof.
  induction s as [|c r IH]; [by left|].
  cbn [trim_start]. destruct (is_white c) eqn:E; [done|]. right. by exists c, r.
Qed.

Lemma trim_end_head c r :
  is_white c = false → trim_end (String c r) = String c (trim_end r).
Proof. intros E. cbn [trim_end]. rewrite E. by destruct (trim_end r). Qed.

Lemma trim_end_idem s : trim_end (trim_end s) = trim_end s.
Proof.
  induction s as [|c r IH]; [done|].
  cbn [trim_end]. destruct (trim_end r) as [|c' t] eqn:Er.
  - destruct (is_white c) eqn:E; [done|]. cbn [trim_end]. by rewrite E.
  - cbn [trim_end]. cbn [trim_end] in IH. by rewrite IH.
Qed.

(** What [trim] returns has nothing left to trim. *)
Lemma trim_idem s : trim (trim s) = trim s.
Proof.
  unfold trim. destruct (trim_start_head s) as [->|(c & r & -> & E)]; [done|].
  rewrite (trim_end_head c r E). cbn [trim_start]. rewrite E.
  by rewrite <- (trim_end_head c r E), trim_end_idem.
Qed.

Lemma strip_prefix_app pat s : strip_prefix pat (pat ++ s) = Some s.
Proof.
  induction pat as [|a p IH]; [by destruct s|].
  change (String a p ++ s) with (String a (p ++ s)).
  cbn [strip_prefix]. by rewrite Ascii.eqb_refl.
Qed.

Lemma replace_first_prefix pat s : replace_first pat (pat ++ s) = s.
Proof.
  destruct (pat ++ s) as [|c r] eqn:E; rewrite <- E.
  - destruct pat; [|done]. change ("" ++ s) with s in E. rewrite E. done.
  - rewrite E. cbn [replace_first]. rewrite <- E. by rewrite strip_prefix_app.
Qed.

Lemma truthy_nonempty p : truthy (Some p) = true ↔ p ≠ "".
Proof.
  unfold truthy. rewrite negb_true_iff. destruct (String.eqb_spec p ""); split; done.
Qed.

(** X13: the admin routes open for exactly one token.  Some header passes
    [requireAuth] if and only if ADMIN_PASSWORD is set, not empty and
    without white space at either end; the header "Bearer <password>"
    then passes, a request without the header never does, and whatever
    passes carries the password once "Bearer " and the surrounding white
    space are removed. *)
Theorem admin_guard_needs_a_trimmed_password (pw : option string) :
  ((∃ h, requireAuth h pw = true) ↔ ∃ p, pw = Some p ∧ p ≠ "" ∧ trim p = p)
  ∧ (∀ p, pw = Some p → p ≠ "" → trim p = p →
       requireAuth (Some ("Bearer " ++ p)) pw = true)
  ∧ requireAuth None pw = false
  ∧ (∀ h, requireAuth h pw = true →
       ∃ a, h = Some a ∧ pw = Some (trim (replace_first "Bearer " a))).
Proof.
  assert (Hpass : ∀ p, pw = Some p → p ≠ "" → trim p = p →
                    requireAuth (Some ("Bearer " ++ p)) pw = true).
  { intros p -> Hne Htrim. unfold requireAuth. cbv zeta.
    assert (Hh : or_else (Some ("Bearer " ++ p)) "" = "Bearer " ++ p) by done.
    rewrite Hh, replace_first_prefix, Htrim.
    apply andb_true_iff. split; [by apply truthy_nonempty|].
    by apply bool_decide_eq_true. }
  assert (Hcarry : ∀ h, requireAuth h pw = true →
                     ∃ a, h = Some a ∧ pw = Some (trim (replace_first "Bearer " a))).
  { intros h. unfold requireAuth. cbv zeta. rewrite andb_true_iff.
    intros [Ht Heq]. apply bool_decide_eq_true in Heq.
    destruct h as [[|c r]|]; [done| |done]. exists (String c r). split; [done|].
    change (or_else (Some (String c r)) "") with (String c r) in Heq. by rewrite <- Heq. }
  split; [split|split; [done|split; [done|done]]].
  - intros [h Hh]. revert Hh. unfold requireAuth. cbv zeta. rewrite andb_true_iff.
    intros [Ht Heq]. apply bool_decide_eq_true in Heq. apply truthy_nonempty in Ht.
    eexists. split; [by rewrite <- Heq|]. split; [done|]. apply trim_idem.
  - intros (p & Hp & Hne & Htrim). exists (Some ("Bearer " ++ p)). by apply Hpass.
Qed.

End Guard.

(** ** No second booking *)

Section NoDoubleBooking.
Import Js Pg Server Spec More Samples.
Context {engine : Engine}.

(** X14: a pair is booked at most once.  After POST /book has answered
    with a booking, and after any number of further POST /book calls, a
    valid POST /book for the same date and slot is answered 409 "already
    booked" and leaves both tables as they are, as long as the requests in
    between are POST /book calls. *)
Theorem booked_pair_refuses_second_booking
    (st : Storage) (now db_now : Z) (body : BookBody) (db db' : Db) (bid created : Z) :
  db_ok st db →
  post_book st now db_now body db = (db', booked_json bid created) →
  ∀ calls : list (Z * Z * BookBody),
    let db'' := foldl (λ db c, (post_book st c.1.1 c.1.2 c.2 db).1) db' calls in
    ∀ now' db_now' req,
      book_request_valid now' req = true →
      date_in st (str (r_date req)) = date_in st (str (r_date body)) →
      str (r_slot req) = str (r_slot body) →
      (post_book st now' db_now' req db'').2
      = error_json 409 (Error "Ese turno ya fue reservado")
      ∧ bookings (post_book st now' db_now' req db'').1 = bookings db''
      ∧ slot_overrides (post_book st now' db_now' req db'').1 = slot_overrides db''.
Proof.
  intros Hok Hpost calls db'' now' db_now' req Hvalid Hdate Hslot.
  assert (Hok' : db_ok st db').
  { pose proof (post_book_ok st now db_now body db Hok) as H. by rewrite Hpost in H. }
  destruct (books_keep st calls db' Hok') as (Hok'' & Hkeep & _).
  fold db'' in Hok'', Hkeep.
  destruct (post_book_done _ _ _ _ _ _ _ _ Hpost)
    as (_ & d & row & Hd & _ & _ & _ & Hrd & Hrs & Hrows & _).
  rewrite Hd in Hdate.
  destruct (post_book_conflict_iff st now' db_now' req db'' d Hok'' Hvalid Hdate)
    as (Hbooked & _ & Hroll & _).
  assert (Hresp : (post_book st now' db_now' req db'').2
                  = error_json 409 (Error "Ese turno ya fue reservado")).
  { apply Hbooked. exists row. rewrite Hslot. split; [|done].
    apply Hkeep. rewrite Hrows. apply elem_of_app. right. apply list_elem_of_here. }
  split; [done|]. by apply (Hroll _ Hresp).
Qed.

End NoDoubleBooking.

Section NoDoubleBookingSamples.
Import Js Pg Server Spec More Samples.
#[local] Existing Instance iso_only.

Lemma booked_pair_refuses_second_booking_witness :
  db_ok schema_sql_email Pg.empty
  ∧ post_book schema_sql_email now0 db_now0 ana Pg.empty
    = ((post_book schema_sql_email now0 db_now0 ana Pg.empty).1, booked_json 1 db_now0)
  ∧ (post_book schema_sql_email now0 db_now0 bob
       (post_book schema_sql_email now0 db_now0 ana_C
          (post_book schema_sql_email now0 db_now0 ana Pg.empty).1).1).2
    = error_json 409 (Error "Ese turno ya fue reservado").
Proof.
  assert (Hpost : post_book schema_sql_email now0 db_now0 ana Pg.empty
                  = ((post_book schema_sql_email now0 db_now0 ana Pg.empty).1,
                     booked_json 1 db_now0))
    by (by vm_compute).
  assert (Hvalid : book_request_valid now0 bob = true) by (by vm_compute).
  assert (Hdate : date_in schema_sql_email (str (r_date bob))
                  = date_in schema_sql_email (str (r_date ana))) by (by vm_compute).
  assert (Hslot : str (r_slot bob) = str (r_slot ana)) by (by vm_compute).
  split; [apply empty_ok|]. split; [exact Hpost|].
  exact (proj1 (booked_pair_refuses_second_booking schema_sql_email now0 db_now0 ana Pg.empty
                  _ 1 db_now0 (empty_ok _) Hpost [(now0, db_now0, ana_C)]
                  now0 db_now0 bob Hvalid Hdate Hslot)).
Defined.

End NoDoubleBookingSamples.
